(** * vwifi: a shallow embedding of the virtual cfg80211 driver (src/vwifi.c)

    The development follows the C file top to bottom: integer helpers,
    [rand_int], [murmurhash], the BSSID derivation, the SSID table and
    [update_ssids], the scan, connect and disconnect callbacks with their
    deferred work handlers, and the loop-back data path.

    Conventions.
    - A C [char] is a [byte]; a [const char *] is the list of bytes found
      from the pointer onwards, and string functions stop at the first NUL.
    - Unsigned w-bit integers are [Z] with the wrap-around written out.
    - Writing outside a fixed-size array is undefined behaviour in C; the
      embedding reports it as a [Fault].
    - Kernel services whose outcome the driver cannot predict (allocation,
      the random source, an interrupted mutex wait) are read from a
      [kernel] record of oracles. *)

From Stdlib Require Import ZArith Lia Bool List String.
From Stdlib Require Import Strings.Byte.
From stdpp Require Import base list.
Import ListNotations.

Local Open Scope Z_scope.

(** ** Machine integers *)

Definition u64 (z : Z) : Z := z mod 2 ^ 64.
Definition u32 (z : Z) : Z := z mod 2 ^ 32.
Definition u8 (z : Z) : Z := z mod 2 ^ 8.

(** [(s32) x] for an unsigned 32-bit [x]: the two's complement reading. *)
Definition s32_of_u32 (x : Z) : Z :=
  if x <? 2 ^ 31 then x else x - 2 ^ 32.

Definition char := byte.

Definition char_val (c : char) : Z := Z.of_N (Byte.to_N c).

Definition NUL : char := x00.

Definition is_nul (c : char) : bool := Byte.eqb c NUL.

(** Integer promotion of a [char] operand to [uint64_t].  Plain [char] is
    signed on some builds (sign extension) and unsigned on others, the
    kernel's own [-funsigned-char] among them; both are covered. *)
Definition char_to_u64 (char_signed : bool) (c : char) : Z :=
  if (128 <=? char_val c) && char_signed
  then char_val c + 2 ^ 64 - 256
  else char_val c.

(** The string a [const char *] denotes: the bytes before the first NUL. *)
Fixpoint cstr (p : list char) : list char :=
  match p with
  | [] => []
  | c :: p' => if is_nul c then [] else c :: cstr p'
  end.

Definition bytes (s : string) : list char := list_byte_of_string s.

(** ** Constants of the driver *)

Definition SSID_MAX_LENGTH : nat := 32.
Definition ETH_ALEN : nat := 6.
Definition ETH_DATA_LEN : nat := 1500.
Definition NDEV_NUMS : nat := 2.
Definition SCAN_TIMEOUT_MS : Z := 100.
Definition DEFAULT_SSID_LIST : list char := bytes "[MyHomeWiFi]".

Definition EBUSY : Z := 16.
Definition ERESTARTSYS : Z := 512.
Definition WLAN_EID_SSID : Z := 0.
Definition WLAN_CAPABILITY_ESS : Z := 1.

(** ** rand_int *)

(** [r] is the value [get_random_u32()] returned.  C's [%] truncates
    towards zero, which is [Z.rem]. *)
Definition rand_int (r : Z) (low up : Z) : Z :=
  let result := s32_of_u32 (u32 r) in
  let result := Z.rem result (up - low + 1) in
  let result := Z.abs result in
  result + low.

(** ** murmurhash *)

Definition murmur_seed : Z := 525201411107845655.
Definition murmur_mult : Z := 0x5bd1e9955bd1e995.

(** One turn of the loop body: [h ^= *str; h *= m; h ^= h >> 47]. *)
Definition murmur_round (char_signed : bool) (h : Z) (c : char) : Z :=
  let h := Z.lxor h (char_to_u64 char_signed c) in
  let h := u64 (h * murmur_mult) in
  Z.lxor h (Z.shiftr h 47).

(** [for (; *str; ++str)] from a running value [h]. *)
Fixpoint murmur_loop (char_signed : bool) (h : Z) (str : list char) : Z :=
  match str with
  | [] => h
  | c :: str' =>
      if is_nul c then h
      else murmur_loop char_signed (murmur_round char_signed h c) str'
  end.

Definition murmurhash (char_signed : bool) (str : list char) : Z :=
  murmur_loop char_signed murmur_seed str.

(** ** BSSID derivation *)

(** [u64_to_ether_addr] of <linux/etherdevice.h>:
    [for (i = ETH_ALEN - 1; i >= 0; i--) { addr[i] = u & 0xff; u = u >> 8; }]
    The loop fills the address from its last byte to its first;
    [ether_fill i u] is the state of [addr[0..i)] after the turns
    [i-1 .. 0] started with [u]. *)
Fixpoint ether_fill (i : nat) (u : Z) : list Z :=
  match i with
  | O => []
  | S i' => ether_fill i' (Z.shiftr u 8) ++ [Z.land u 0xff]
  end.

Definition u64_to_ether_addr (u : Z) : list Z := ether_fill ETH_ALEN u.

(** [result[0] &= 0xfe; result[0] |= 0x02;] on the array [result]. *)
Definition set_unicast_local (result : list Z) : list Z :=
  match result with
  | [] => []
  | b0 :: rest => Z.lor (Z.land b0 0xfe) 0x02 :: rest
  end.

Definition generate_bssid_with_ssid (char_signed : bool) (ssid : list char)
  : list Z :=
  set_unicast_local (u64_to_ether_addr (murmurhash char_signed ssid)).

(** ** C string functions over buffers

    The end of a list is read as a terminating NUL. *)

Definition delims : list char := bytes "[]".

Definition char_in (c : char) (set : list char) : bool :=
  existsb (Byte.eqb c) set.

(** [strspn(s, accept)]: length of the leading run of bytes of [accept]. *)
Fixpoint strspn (s accept : list char) : nat :=
  match s with
  | [] => 0%nat
  | c :: s' =>
      if is_nul c then 0%nat
      else if char_in c accept then S (strspn s' accept) else 0%nat
  end.

(** [strcspn(s, reject)]: length of the leading run of bytes not in
    [reject]. *)
Fixpoint strcspn (s reject : list char) : nat :=
  match s with
  | [] => 0%nat
  | c :: s' =>
      if is_nul c then 0%nat
      else if char_in c reject then 0%nat else S (strcspn s' reject)
  end.

(** The [n] bytes [strncpy(dest, src, n)] writes: the bytes of [src] up to
    its NUL, then NUL padding. *)
Fixpoint strncpy_image (src : list char) (n : nat) : list char :=
  match n with
  | O => []
  | S n' =>
      match src with
      | [] => NUL :: strncpy_image [] n'
      | c :: src' =>
          if is_nul c then NUL :: strncpy_image [] n'
          else c :: strncpy_image src' n'
      end
  end.

(** [strncmp(a, b, n)], bytes compared as [unsigned char]. *)
Fixpoint strncmp (a b : list char) (n : nat) : Z :=
  match n with
  | O => 0
  | S n' =>
      let ca := hd NUL a in
      let cb := hd NUL b in
      if Byte.eqb ca cb
      then if is_nul ca then 0 else strncmp (tl a) (tl b) n'
      else char_val ca - char_val cb
  end.

(** [strcmp(a, b)]; the fuel is the length of [a], whose end is a NUL. *)
Fixpoint strcmp (a b : list char) : Z :=
  match a with
  | [] => 0 - char_val (hd NUL b)
  | ca :: a' =>
      let cb := hd NUL b in
      if Byte.eqb ca cb
      then if is_nul ca then 0 else strcmp a' (tl b)
      else char_val ca - char_val cb
  end.

Definition strlen (s : list char) : nat := length (cstr s).

(** ** Faults and results *)

Inductive fault : Type :=
| OutOfBounds (array : string) (index size : nat)
| NullDeref (pointer : string)
| EmptyList (list_head : string)
| OutOfFuel.

Inductive result (A : Type) : Type :=
| Ok (a : A)
| Fault (f : fault).
Arguments Ok {A} a.
Arguments Fault {A} f.

(** [strncpy(dest, src, n)] into the array [dest]. *)
Definition strncpy (array : string) (dest src : list char) (n : nat)
  : result (list char) :=
  if (n <=? length dest)%nat
  then Ok (strncpy_image src n ++ drop n dest)
  else Fault (OutOfBounds array n (length dest)).

(** [memcpy(dest, src, n)] into the array [dest] from the array [src]. *)
Definition memcpy {A} (array : string) (dest src : list A) (n : nat)
  : result (list A) :=
  if (n <=? length src)%nat
  then if (n <=? length dest)%nat
       then Ok (take n src ++ drop n dest)
       else Fault (OutOfBounds array n (length dest))
  else Fault (OutOfBounds "memcpy source" n (length src)).

(** [dest[i] = v] on the array [dest]. *)
Definition store {A} (array : string) (dest : list A) (i : nat) (v : A)
  : result (list A) :=
  if (i <? length dest)%nat
  then Ok (<[i := v]> dest)
  else Fault (OutOfBounds array i (length dest)).

(** ** The AP table *)

Record ap_info_entry_t : Type := {
  bssid : list Z;          (* u8 bssid[ETH_ALEN] *)
  ssid : list char         (* char ssid[SSID_MAX_LENGTH] *)
}.

(** [hash_min(key, 4)] for a [u32] key, from <linux/hash.h>:
    [hash_32(val, bits) = (val * GOLDEN_RATIO_32) >> (32 - bits)]. *)
Definition GOLDEN_RATIO_32 : Z := 0x61C88647.
Definition HASH_BITS : Z := 4.
Definition HASH_SIZE : nat := 16.

Definition hash_32 (val bits : Z) : Z :=
  Z.shiftr (u32 (val * GOLDEN_RATIO_32)) (32 - bits).

Definition hash_min (key : Z) : nat := Z.to_nat (hash_32 key HASH_BITS).

(** [DECLARE_HASHTABLE(ssid_table, 4)]: sixteen chains, each with its head
    first. *)
Abbreviation hashtable := (list (list ap_info_entry_t)).

Definition ssid_table_empty : hashtable := replicate HASH_SIZE [].

Definition bucket (t : hashtable) (key : Z) : list ap_info_entry_t :=
  t !!! hash_min key.

(** [hash_add(ssid_table, &ap->node, key)]: [hlist_add_head]. *)
Definition hash_add (t : hashtable) (ap : ap_info_entry_t) (key : Z)
  : hashtable :=
  <[hash_min key := ap :: bucket t key]> t.

(** [hash_for_each_safe]: the chains in bucket order. *)
Definition hash_entries (t : hashtable) : list ap_info_entry_t :=
  flat_map (fun bkt => t !!! bkt) (seq 0 HASH_SIZE).

Definition hash_empty (t : hashtable) : bool :=
  forallb (fun bkt => match t !!! bkt with [] => true | _ => false end)
          (seq 0 HASH_SIZE).

(** ** Driver state *)

Record owl_packet : Type := {
  datalen : Z;
  data : list char
}.

Record net_device_stats : Type := {
  rx_packets : Z;
  tx_packets : Z;
  rx_bytes : Z;
  tx_bytes : Z;
  rx_dropped : Z
}.

(** A [struct net_device *] is the number of the device. *)
Definition net_device : Type := nat.

Record owl_ndev_priv_context : Type := {
  ndev : net_device;
  stats : net_device_stats;
  rx_queue : list owl_packet
}.

(** A [struct cfg80211_scan_request *] is the number of the request;
    [None] is the null pointer. *)
Definition scan_request_ptr : Type := option nat.

Record owl_context : Type := {
  ws_connect : bool;               (* work items: the pending bit *)
  ws_disconnect : bool;
  connecting_ssid : list char;     (* char [SSID_MAX_LENGTH + 1] *)
  connecting_bssid : list Z;
  disconnect_reason_code : Z;
  ws_scan : bool;
  ws_scan_timeout : bool;
  scan_timeout : option Z;         (* timer: armed for so many ms *)
  scan_request : scan_request_ptr;
  netintf_list : list owl_ndev_priv_context
}.

Inductive work : Type :=
| WsConnect | WsDisconnect | WsScan | WsScanTimeout.

Inductive nl80211_timeout_reason : Type :=
| NL80211_TIMEOUT_UNSPECIFIED
| NL80211_TIMEOUT_SCAN
| NL80211_TIMEOUT_AUTH
| NL80211_TIMEOUT_ASSOC.

Definition WLAN_STATUS_SUCCESS : Z := 0.

(** What the driver does to the kernel, in order. *)
Inductive event : Type :=
| MutexLock
| MutexUnlock
| Printk (msg : string)
| PrErr (msg : string) (arg : list char)
| ScheduleWork (w : work) (queued : bool)
| ModTimer (msecs : Z)
| InformBss (signal : Z) (ap_bssid : list Z) (tsf : Z) (capability : Z)
            (beacon_interval : Z) (ie : list Z)
| ScanDone (request : scan_request_ptr) (aborted : bool)
| ConnectResult (dev : net_device) (bss : option (list Z))
                (req_ie resp_ie : list Z) (status : Z)
| ConnectTimeout (dev : net_device) (bss : option (list Z))
                 (req_ie : list Z) (reason : nl80211_timeout_reason)
| Disconnected (dev : net_device) (reason : Z) (ie : list Z)
               (locally_generated : bool)
| KfreeSkb (payload : list char)
| NetifRx (dev : net_device) (payload : list char).

Record world : Type := {
  ssid_list : list char;           (* the module parameter *)
  ssid_table : hashtable;
  g_ctx : owl_context;
  tick : nat;                      (* kernel services consulted so far *)
  trace : list event
}.

(** The kernel's answers, indexed by the number of the consultation. *)
Record kernel : Type := {
  alloc_ok : nat -> bool;          (* kmalloc, kzalloc, dev_alloc_skb *)
  random_u32 : nat -> Z;           (* get_random_u32 *)
  lock_interrupted : nat -> bool;  (* mutex_lock_interruptible returns nonzero *)
  boottime_ns : nat -> Z           (* ktime_get_boottime_ns *)
}.

Definition with_table (t : hashtable) (w : world) : world :=
  {| ssid_list := ssid_list w; ssid_table := t; g_ctx := g_ctx w;
     tick := tick w; trace := trace w |}.

Definition with_ctx (c : owl_context) (w : world) : world :=
  {| ssid_list := ssid_list w; ssid_table := ssid_table w; g_ctx := c;
     tick := tick w; trace := trace w |}.

Definition with_tick (n : nat) (w : world) : world :=
  {| ssid_list := ssid_list w; ssid_table := ssid_table w; g_ctx := g_ctx w;
     tick := n; trace := trace w |}.

Definition with_trace (tr : list event) (w : world) : world :=
  {| ssid_list := ssid_list w; ssid_table := ssid_table w; g_ctx := g_ctx w;
     tick := tick w; trace := tr |}.

(** ** The monad of driver code: state, with faults *)

Definition M (A : Type) : Type := world -> result (A * world).

#[global] Instance M_ret : MRet M := fun A a w => Ok (a, w).

#[global] Instance M_bind : MBind M := fun A B f m w =>
  match m w with
  | Ok (a, w') => f a w'
  | Fault e => Fault e
  end.

Definition ret {A} (a : A) : M A := mret a.

Definition lift {A} (r : result A) : M A := fun w =>
  match r with
  | Ok a => Ok (a, w)
  | Fault e => Fault e
  end.

Definition gets {A} (f : world -> A) : M A := fun w => Ok (f w, w).
Definition modify (f : world -> world) : M unit := fun w => Ok (tt, f w).
Definition emit (e : event) : M unit :=
  modify (fun w => with_trace (trace w ++ [e]) w).

(** Consult the kernel: read an oracle at the current tick, then advance. *)
Definition ask {A} (oracle : nat -> A) : M A := fun w =>
  Ok (oracle (tick w), with_tick (S (tick w)) w).

Definition get_ctx : M owl_context := gets g_ctx.
Definition put_ctx (c : owl_context) : M unit := modify (with_ctx c).
Definition get_table : M hashtable := gets ssid_table.
Definition put_table (t : hashtable) : M unit := modify (with_table t).

Section Driver.

Variable K : kernel.
Variable char_signed : bool.

(** ** update_ssids *)

(** One pass of the [for] loop per unit of fuel; [s] is the pointer. *)
Fixpoint update_ssids_loop (fuel : nat) (s : list char) : M unit :=
  match fuel with
  | O => lift (Fault OutOfFuel)
  | S fuel' =>
      if is_nul (hd NUL s) then ret tt
      else
        let token := replicate SSID_MAX_LENGTH NUL in
        let n := strspn s delims in
        let s := drop n s in
        let n := strcspn s delims in
        if (n =? 0)%nat then update_ssids_loop fuel' s
        else
          token ← lift (strncpy "token" token s n);
          let s := drop n s in
          token ← lift (store "token" token n NUL);
          let key := u32 (murmurhash char_signed token) in
          t ← get_table;
          let ssid_exist :=
            existsb (fun ap => strncmp token (ssid ap) n =? 0) (bucket t key) in
          if ssid_exist then update_ssids_loop fuel' s
          else
            ap ← ask (alloc_ok K);
            if negb ap then
              emit (PrErr "Failed to alloc ap_info_entry_t incomming SSID=%s"
                          (cstr token))
            else
              ap_ssid ← lift (strncpy "ap->ssid"
                                (replicate SSID_MAX_LENGTH NUL) token n);
              let bssid := generate_bssid_with_ssid char_signed token in
              put_table (hash_add t {| bssid := bssid; ssid := ap_ssid |} key);;
              update_ssids_loop fuel' s
  end.

Definition update_ssids (ssid_list : list char) : M unit :=
  update_ssids_loop (length ssid_list + 2) ssid_list.

(** ** inform_dummy_bss *)

(** The body of [hash_for_each_safe], entry by entry. *)
Fixpoint inform_each (aps : list ap_info_entry_t) : M unit :=
  match aps with
  | [] => ret tt
  | ap :: aps' =>
      r ← ask (random_u32 K);
      let signal := rand_int r (-100) (-30) * 100 in
      let ssid_len := strlen (ssid ap) in
      ie ← ask (alloc_ok K);
      if negb ie then lift (Fault (NullDeref "ie"))
      else
        let ie := [WLAN_EID_SSID; u8 (Z.of_nat ssid_len)]
                    ++ map char_val (take ssid_len (ssid ap)) in
        ns ← ask (boottime_ns K);
        let tsf := u64 ns / 1000 in
        emit (InformBss signal (bssid ap) tsf WLAN_CAPABILITY_ESS 100 ie);;
        inform_each aps'
  end.

Definition inform_dummy_bss : M unit :=
  param ← gets ssid_list;
  update_ssids param;;
  t ← get_table;
  if hash_empty t then ret tt
  else inform_each (hash_entries t).

(** ** Mutex and work queue *)

(** Returns [true] when the wait was interrupted (the C function returns
    nonzero).  Handlers run one at a time, so the mutex is free whenever
    one of them asks for it. *)
Definition mutex_lock_interruptible : M bool :=
  intr ← ask (lock_interrupted K);
  if (intr : bool) then ret true else emit MutexLock;; ret false.

Definition mutex_unlock : M unit := emit MutexUnlock.

Definition work_pending (w : work) (c : owl_context) : bool :=
  match w with
  | WsConnect => ws_connect c
  | WsDisconnect => ws_disconnect c
  | WsScan => ws_scan c
  | WsScanTimeout => ws_scan_timeout c
  end.

Definition set_work_pending (w : work) (b : bool) (c : owl_context)
  : owl_context :=
  {| ws_connect := match w with WsConnect => b | _ => ws_connect c end;
     ws_disconnect := match w with WsDisconnect => b | _ => ws_disconnect c end;
     connecting_ssid := connecting_ssid c;
     connecting_bssid := connecting_bssid c;
     disconnect_reason_code := disconnect_reason_code c;
     ws_scan := match w with WsScan => b | _ => ws_scan c end;
     ws_scan_timeout :=
       match w with WsScanTimeout => b | _ => ws_scan_timeout c end;
     scan_timeout := scan_timeout c;
     scan_request := scan_request c;
     netintf_list := netintf_list c |}.

Definition set_connecting_ssid (buf : list char) (c : owl_context)
  : owl_context :=
  {| ws_connect := ws_connect c; ws_disconnect := ws_disconnect c;
     connecting_ssid := buf;
     connecting_bssid := connecting_bssid c;
     disconnect_reason_code := disconnect_reason_code c;
     ws_scan := ws_scan c; ws_scan_timeout := ws_scan_timeout c;
     scan_timeout := scan_timeout c; scan_request := scan_request c;
     netintf_list := netintf_list c |}.

Definition set_connecting_bssid (b : list Z) (c : owl_context)
  : owl_context :=
  {| ws_connect := ws_connect c; ws_disconnect := ws_disconnect c;
     connecting_ssid := connecting_ssid c;
     connecting_bssid := b;
     disconnect_reason_code := disconnect_reason_code c;
     ws_scan := ws_scan c; ws_scan_timeout := ws_scan_timeout c;
     scan_timeout := scan_timeout c; scan_request := scan_request c;
     netintf_list := netintf_list c |}.

Definition set_disconnect_reason_code (r : Z) (c : owl_context)
  : owl_context :=
  {| ws_connect := ws_connect c; ws_disconnect := ws_disconnect c;
     connecting_ssid := connecting_ssid c;
     connecting_bssid := connecting_bssid c;
     disconnect_reason_code := r;
     ws_scan := ws_scan c; ws_scan_timeout := ws_scan_timeout c;
     scan_timeout := scan_timeout c; scan_request := scan_request c;
     netintf_list := netintf_list c |}.

Definition set_scan_timeout (t : option Z) (c : owl_context) : owl_context :=
  {| ws_connect := ws_connect c; ws_disconnect := ws_disconnect c;
     connecting_ssid := connecting_ssid c;
     connecting_bssid := connecting_bssid c;
     disconnect_reason_code := disconnect_reason_code c;
     ws_scan := ws_scan c; ws_scan_timeout := ws_scan_timeout c;
     scan_timeout := t; scan_request := scan_request c;
     netintf_list := netintf_list c |}.

Definition set_scan_request (r : scan_request_ptr) (c : owl_context)
  : owl_context :=
  {| ws_connect := ws_connect c; ws_disconnect := ws_disconnect c;
     connecting_ssid := connecting_ssid c;
     connecting_bssid := connecting_bssid c;
     disconnect_reason_code := disconnect_reason_code c;
     ws_scan := ws_scan c; ws_scan_timeout := ws_scan_timeout c;
     scan_timeout := scan_timeout c; scan_request := r;
     netintf_list := netintf_list c |}.

Definition set_netintf_list (l : list owl_ndev_priv_context)
  (c : owl_context) : owl_context :=
  {| ws_connect := ws_connect c; ws_disconnect := ws_disconnect c;
     connecting_ssid := connecting_ssid c;
     connecting_bssid := connecting_bssid c;
     disconnect_reason_code := disconnect_reason_code c;
     ws_scan := ws_scan c; ws_scan_timeout := ws_scan_timeout c;
     scan_timeout := scan_timeout c; scan_request := scan_request c;
     netintf_list := l |}.

(** [schedule_work]: refused (false) when the item is already pending. *)
Definition schedule_work (w : work) : M bool :=
  c ← get_ctx;
  if work_pending w c then emit (ScheduleWork w false);; ret false
  else
    put_ctx (set_work_pending w true c);;
    emit (ScheduleWork w true);;
    ret true.

Definition list_first_entry {A} (head : string) (l : list A) : result A :=
  match l with
  | [] => Fault (EmptyList head)
  | x :: _ => Ok x
  end.

Definition list_last_entry {A} (head : string) (l : list A) : result A :=
  match last l with
  | None => Fault (EmptyList head)
  | Some x => Ok x
  end.

(** ** Scan *)

Definition owl_scan_timeout_work : M unit :=
  inform_dummy_bss;;
  intr ← mutex_lock_interruptible;
  if (intr : bool) then ret tt
  else
    c ← get_ctx;
    emit (ScanDone (scan_request c) false);;
    put_ctx (set_scan_request None c);;
    mutex_unlock.

Definition owl_scan_timeout : M unit :=
  c ← get_ctx;
  match scan_request c with
  | Some _ => schedule_work WsScanTimeout;; ret tt
  | None => ret tt
  end.

Definition owl_scan_routine : M unit :=
  c ← get_ctx;
  put_ctx (set_scan_timeout (Some SCAN_TIMEOUT_MS) c);;
  emit (ModTimer SCAN_TIMEOUT_MS).

Definition owl_scan (request : nat) : M Z :=
  intr ← mutex_lock_interruptible;
  if (intr : bool) then ret (- ERESTARTSYS)
  else
    c ← get_ctx;
    match scan_request c with
    | Some _ => mutex_unlock;; ret (- EBUSY)
    | None =>
        put_ctx (set_scan_request (Some request) c);;
        mutex_unlock;;
        queued ← schedule_work WsScan;
        if negb queued then ret (- EBUSY) else ret 0
    end.

(** ** Connect and disconnect *)

Definition is_valid_ssid (t : hashtable) (connecting_ssid : list char)
  : bool :=
  let key := u32 (murmurhash char_signed connecting_ssid) in
  existsb (fun ap => strcmp connecting_ssid (ssid ap) =? 0) (bucket t key).

Definition get_connecting_bssid (t : hashtable)
  (connecting_ssid : list char) (connecting_bssid : list Z)
  : result (list Z) :=
  let key := u32 (murmurhash char_signed connecting_ssid) in
  match find (fun ap => strcmp connecting_ssid (ssid ap) =? 0) (bucket t key)
  with
  | Some ap => memcpy "connecting_bssid" connecting_bssid (bssid ap) ETH_ALEN
  | None => Ok connecting_bssid
  end.

Definition owl_connect_routine : M unit :=
  intr ← mutex_lock_interruptible;
  if (intr : bool) then ret tt
  else
    c ← get_ctx;
    t ← get_table;
    (if negb (is_valid_ssid t (connecting_ssid c)) then
       item ← lift (list_first_entry "netintf_list" (netintf_list c));
       emit (ConnectTimeout (ndev item) None [] NL80211_TIMEOUT_SCAN)
     else
       item ← lift (list_first_entry "netintf_list" (netintf_list c));
       emit (ConnectResult (ndev item) None [] [] WLAN_STATUS_SUCCESS));;
    buf ← lift (store "connecting_ssid" (connecting_ssid c) 0 NUL);
    put_ctx (set_connecting_ssid buf c);;
    mutex_unlock.

Definition owl_disconnect_routine : M unit :=
  intr ← mutex_lock_interruptible;
  if (intr : bool) then ret tt
  else
    c ← get_ctx;
    item ← lift (list_first_entry "netintf_list" (netintf_list c));
    emit (Disconnected (ndev item) (disconnect_reason_code c) [] true);;
    put_ctx (set_disconnect_reason_code 0 c);;
    mutex_unlock.

Record cfg80211_connect_params : Type := {
  sme_ssid : list char;            (* const u8 *ssid: the bytes it points to *)
  sme_ssid_len : nat               (* size_t ssid_len *)
}.

Definition owl_connect (sme : cfg80211_connect_params) : M Z :=
  let ssid_len :=
    if (SSID_MAX_LENGTH <? sme_ssid_len sme)%nat
    then SSID_MAX_LENGTH else sme_ssid_len sme in
  intr ← mutex_lock_interruptible;
  if (intr : bool) then ret (- ERESTARTSYS)
  else
    c ← get_ctx;
    buf ← lift (memcpy "connecting_ssid" (connecting_ssid c)
                  (sme_ssid sme) ssid_len);
    buf ← lift (store "connecting_ssid" buf ssid_len NUL);
    t ← get_table;
    b ← lift (get_connecting_bssid t buf (connecting_bssid c));
    put_ctx (set_connecting_bssid b (set_connecting_ssid buf c));;
    mutex_unlock;;
    queued ← schedule_work WsConnect;
    if negb queued then ret (- EBUSY) else ret 0.

Definition owl_disconnect (reason_code : Z) : M Z :=
  intr ← mutex_lock_interruptible;
  if (intr : bool) then ret (- ERESTARTSYS)
  else
    c ← get_ctx;
    put_ctx (set_disconnect_reason_code (reason_code mod 2 ^ 16) c);;
    mutex_unlock;;
    queued ← schedule_work WsDisconnect;
    if negb queued then ret (- EBUSY) else ret 0.

Definition owl_get_station : M Z := ret 0.

(** ** Data path *)

Definition NETDEV_TX_OK : Z := 0.

(** An [sk_buff] to transmit: [skb->data[0 .. skb->len)]. *)
Definition sk_buff : Type := list char.

Definition set_stats (st : net_device_stats) (np : owl_ndev_priv_context)
  : owl_ndev_priv_context :=
  {| ndev := ndev np; stats := st; rx_queue := rx_queue np |}.

Definition set_rx_queue (q : list owl_packet) (np : owl_ndev_priv_context)
  : owl_ndev_priv_context :=
  {| ndev := ndev np; stats := stats np; rx_queue := q |}.

(** The counters are [unsigned long]: 64 bits. *)
Definition count_tx (len : Z) (st : net_device_stats) : net_device_stats :=
  {| rx_packets := rx_packets st;
     tx_packets := u64 (tx_packets st + 1);
     rx_bytes := rx_bytes st;
     tx_bytes := u64 (tx_bytes st + len);
     rx_dropped := rx_dropped st |}.

Definition count_rx (len : Z) (st : net_device_stats) : net_device_stats :=
  {| rx_packets := u64 (rx_packets st + 1);
     tx_packets := tx_packets st;
     rx_bytes := u64 (rx_bytes st + len);
     tx_bytes := tx_bytes st;
     rx_dropped := rx_dropped st |}.

Definition count_rx_dropped (st : net_device_stats) : net_device_stats :=
  {| rx_packets := rx_packets st;
     tx_packets := tx_packets st;
     rx_bytes := rx_bytes st;
     tx_bytes := tx_bytes st;
     rx_dropped := u64 (rx_dropped st + 1) |}.

(** [ndev_get_owl_context(dev)]: the private record of device [dev]. *)
Definition ndev_get_owl_context (dev : net_device)
  (l : list owl_ndev_priv_context) : result owl_ndev_priv_context :=
  match find (fun np => (ndev np =? dev)%nat) l with
  | Some np => Ok np
  | None => Fault (NullDeref "netdev_priv")
  end.

(** An assignment through the pointer [ndev_get_owl_context(dev)]. *)
Definition update_priv (dev : net_device)
  (f : owl_ndev_priv_context -> owl_ndev_priv_context) : M unit :=
  c ← get_ctx;
  put_ctx (set_netintf_list
             (map (fun np => if (ndev np =? dev)%nat then f np else np)
                  (netintf_list c)) c).

Definition owl_handle_rx (dev : net_device) : M unit :=
  c ← get_ctx;
  np ← lift (ndev_get_owl_context dev (netintf_list c));
  match rx_queue np with
  | [] => emit (Printk "owl rx: No packet in rx_queue")
  | pkt :: rest =>
      skb ← ask (alloc_ok K);
      (if negb skb then
         emit (Printk "owl rx: low on mem - packet dropped");;
         update_priv dev (fun np => set_stats (count_rx_dropped (stats np)) np)
       else
         emit (NetifRx dev (take (Z.to_nat (datalen pkt)) (data pkt)));;
         update_priv dev
           (fun np => set_stats (count_rx (datalen pkt) (stats np)) np));;
      update_priv dev (set_rx_queue rest)
  end.

Definition owl_ndo_start_xmit (skb : sk_buff) (dev : net_device) : M Z :=
  let len := length skb in
  update_priv dev
    (fun np => set_stats (count_tx (Z.of_nat len) (stats np)) np);;
  pkt ← ask (alloc_ok K);
  if negb pkt then
    emit (Printk "Ran out of memory allocating packet pool");;
    ret NETDEV_TX_OK
  else
    pkt_data ← lift (memcpy "pkt->data" (replicate ETH_DATA_LEN NUL) skb len);
    let pkt := {| datalen := Z.of_nat len; data := pkt_data |} in
    c ← get_ctx;
    dest_np ← lift (list_last_entry "netintf_list" (netintf_list c));
    dest_np ← (if (ndev dest_np =? dev)%nat
               then lift (list_first_entry "netintf_list" (netintf_list c))
               else ret dest_np);
    update_priv (ndev dest_np)
      (fun np => set_rx_queue (rx_queue np ++ [pkt]) np);;
    emit (KfreeSkb skb);;
    owl_handle_rx (ndev dest_np);;
    ret NETDEV_TX_OK.

Definition owl_ndo_stop (dev : net_device) : M Z :=
  update_priv dev (set_rx_queue []);;
  ret 0.

(** ** The driver as a machine

    What the kernel may do next: call an operation, run a pending work
    item, fire the armed timer, or have the module parameter rewritten. *)

Inductive call : Type :=
| CallScan (request : nat)
| CallConnect (sme : cfg80211_connect_params)
| CallDisconnect (reason_code : Z)
| CallGetStation
| CallXmit (skb : sk_buff) (dev : net_device)
| CallStop (dev : net_device)
| RunWork (w : work)
| TimerFires
| SetParam (ssid_list : list char).

Definition work_handler (w : work) : M unit :=
  match w with
  | WsConnect => owl_connect_routine
  | WsDisconnect => owl_disconnect_routine
  | WsScan => owl_scan_routine
  | WsScanTimeout => owl_scan_timeout_work
  end.

Definition run_call (k : call) : M unit :=
  match k with
  | CallScan request => owl_scan request;; ret tt
  | CallConnect sme => owl_connect sme;; ret tt
  | CallDisconnect reason_code => owl_disconnect reason_code;; ret tt
  | CallGetStation => owl_get_station;; ret tt
  | CallXmit skb dev => owl_ndo_start_xmit skb dev;; ret tt
  | CallStop dev => owl_ndo_stop dev;; ret tt
  | RunWork w =>
      c ← get_ctx;
      if work_pending w c
      then put_ctx (set_work_pending w false c);; work_handler w
      else ret tt
  | TimerFires =>
      c ← get_ctx;
      match scan_timeout c with
      | Some _ => put_ctx (set_scan_timeout None c);; owl_scan_timeout
      | None => ret tt
      end
  | SetParam s =>
      modify (fun w => {| ssid_list := s; ssid_table := ssid_table w;
                          g_ctx := g_ctx w; tick := tick w;
                          trace := trace w |})
  end.

Fixpoint run_calls (ks : list call) : M unit :=
  match ks with
  | [] => ret tt
  | k :: ks' => run_call k;; run_calls ks'
  end.

End Driver.

(** ** Module initialisation *)

Definition stats0 : net_device_stats :=
  {| rx_packets := 0; tx_packets := 0; rx_bytes := 0; tx_bytes := 0;
     rx_dropped := 0 |}.

(** [owl_create_context] when every allocation and registration succeeds:
    [raw] is the memory [kmalloc] returned, and the two devices, [owl0]
    then [owl0sink], are appended with [list_add_tail]. *)
Definition owl_create_context (raw : owl_context) : owl_context :=
  let new_priv (i : nat) :=
    {| ndev := i; stats := stats0; rx_queue := [] |} in
  {| ws_connect := ws_connect raw; ws_disconnect := ws_disconnect raw;
     connecting_ssid := connecting_ssid raw;
     connecting_bssid := connecting_bssid raw;
     disconnect_reason_code := disconnect_reason_code raw;
     ws_scan := ws_scan raw; ws_scan_timeout := ws_scan_timeout raw;
     scan_timeout := scan_timeout raw; scan_request := scan_request raw;
     netintf_list := map new_priv (seq 0 NDEV_NUMS) |}.

(** [vwifi_init] after a successful [owl_create_context]. *)
Definition vwifi_init (created : owl_context) : result owl_context :=
  match store "connecting_ssid" (connecting_ssid created) 0 NUL with
  | Fault e => Fault e
  | Ok buf =>
      Ok {| ws_connect := false; ws_disconnect := false;
            connecting_ssid := buf;
            connecting_bssid := connecting_bssid created;
            disconnect_reason_code := 0;
            ws_scan := false; ws_scan_timeout := false;
            scan_timeout := None; scan_request := None;
            netintf_list := netintf_list created |}
  end.

(** The world once the module is loaded with parameter [param]. *)
Definition boot (param : list char) (ctx : owl_context) : world :=
  {| ssid_list := param; ssid_table := ssid_table_empty; g_ctx := ctx;
     tick := 0; trace := [] |}.

(** ** The BSSID derivation in words

    [claimed_bssid] is the derivation as the specification words it;
    [corrected_bssid] differs from it in the start value and in the byte
    order.  Both are folds over the bytes of the SSID. *)

Definition xor_mul_xor (char_signed : bool) (h : Z) (c : char) : Z :=
  let h := Z.lxor h (char_to_u64 char_signed c) in
  let h := (h * 0x5BD1E9955BD1E995) mod 2 ^ 64 in
  Z.lxor h (Z.shiftr h 47).

(** Byte [i] of [h], counting from the least significant. *)
Definition byte_of (h : Z) (i : Z) : Z := Z.land (Z.shiftr h (8 * i)) 0xff.

Definition claimed_hash (char_signed : bool) (S : list char) : Z :=
  fold_left (xor_mul_xor char_signed) S 0x074D4B97A0F8F697.

Definition claimed_bssid (char_signed : bool) (S : list char) : list Z :=
  let h := claimed_hash char_signed S in
  [Z.lor (Z.land (byte_of h 0) 0xFE) 0x02;
   byte_of h 1; byte_of h 2; byte_of h 3; byte_of h 4; byte_of h 5].

Definition corrected_hash (char_signed : bool) (S : list char) : Z :=
  fold_left (xor_mul_xor char_signed) S 525201411107845655.

Definition corrected_bssid (char_signed : bool) (S : list char) : list Z :=
  let h := corrected_hash char_signed S in
  [Z.lor (Z.land (byte_of h 5) 0xFE) 0x02;
   byte_of h 4; byte_of h 3; byte_of h 2; byte_of h 1; byte_of h 0].

(** The token buffer after [strncpy(token, s, n); token[n] = 0]: the
    token, then NULs. *)
Definition token_of (s : list char) (n : nat) : list char :=
  take n s ++ replicate (SSID_MAX_LENGTH - n) NUL.

(** The entry [update_ssids] adds for the token in [token]. *)
Definition new_entry (char_signed : bool) (token : list char)
  : ap_info_entry_t :=
  {| bssid := generate_bssid_with_ssid char_signed token; ssid := token |}.

(** The pass of the loop of [update_ssids] at pointer [s] in world [w]
    goes on to another pass, at the pointer and in the world returned: the
    token was found in the table already, or was inserted. *)
Definition loop_next (K : kernel) (char_signed : bool) (s : list char)
  (w : world) : option (list char * world) :=
  if is_nul (hd NUL s) then None
  else
    let s1 := drop (strspn s delims) s in
    let n := strcspn s1 delims in
    if (n =? 0)%nat then None
    else if (SSID_MAX_LENGTH <=? n)%nat then None
    else
      let token := token_of s1 n in
      let key := u32 (murmurhash char_signed token) in
      if existsb (fun ap => strncmp token (ssid ap) n =? 0)
                 (bucket (ssid_table w) key)
      then Some (drop n s1, w)
      else if alloc_ok K (tick w)
      then Some (drop n s1,
                 with_table
                   (hash_add (ssid_table w) (new_entry char_signed token) key)
                   (with_tick (S (tick w)) w))
      else None.

(** The loop, started at pointer [s] in world [w], comes to the head of a
    pass at pointer [s'] in world [w']. *)
Inductive loop_reaches (K : kernel) (char_signed : bool)
  : list char -> world -> list char -> world -> Prop :=
| reaches_here (s : list char) (w : world) :
    loop_reaches K char_signed s w s w
| reaches_next (s s1 s2 : list char) (w w1 w2 : world) :
    loop_next K char_signed s w = Some (s1, w1) ->
    loop_reaches K char_signed s1 w1 s2 w2 ->
    loop_reaches K char_signed s w s2 w2.

(** ** Invariants *)

#[global] Instance char_eq_dec : EqDecision char := Byte.byte_eq_dec.

(** The AP directory holds the string [name]. *)
Definition directory_contains (t : hashtable) (name : list char) : bool :=
  existsb (fun ap => bool_decide (cstr (ssid ap) = cstr name))
          (hash_entries t).

(** Every entry hangs on the chain its own SSID hashes to, and carries the
    BSSID derived from that SSID. *)
Definition entry_ok (char_signed : bool) (bkt : nat) (ap : ap_info_entry_t)
  : Prop :=
  hash_min (u32 (murmurhash char_signed (ssid ap))) = bkt
  /\ bssid ap = generate_bssid_with_ssid char_signed (ssid ap)
  /\ length (ssid ap) = SSID_MAX_LENGTH
  /\ (strlen (ssid ap) < SSID_MAX_LENGTH)%nat.

Definition table_wf (char_signed : bool) (t : hashtable) : Prop :=
  forall bkt ap, In ap (t !!! bkt) -> entry_ok char_signed bkt ap.

(** [connecting_ssid] is a 33-byte array holding a NUL. *)
Definition ssid_buffer_ok (buf : list char) : Prop :=
  length buf = S SSID_MAX_LENGTH /\ existsb is_nul buf = true.

Definition interfaces_ok (l : list owl_ndev_priv_context) : Prop :=
  map ndev l = seq 0 NDEV_NUMS /\ Forall (fun np => rx_queue np = []) l.

Definition driver_inv (char_signed : bool) (w : world) : Prop :=
  table_wf char_signed (ssid_table w)
  /\ ssid_buffer_ok (connecting_ssid (g_ctx w))
  /\ length (connecting_bssid (g_ctx w)) = ETH_ALEN
  /\ interfaces_ok (netintf_list (g_ctx w)).

(** Events by kind. *)
Definition is_upcall (e : event) : bool :=
  match e with
  | InformBss _ _ _ _ _ _ | ScanDone _ _ | ConnectResult _ _ _ _ _
  | ConnectTimeout _ _ _ _ | Disconnected _ _ _ _ | NetifRx _ _ => true
  | _ => false
  end.

Definition is_scan_done (e : event) : bool :=
  match e with ScanDone _ _ => true | _ => false end.

Definition is_pr_err (e : event) : bool :=
  match e with PrErr _ _ => true | _ => false end.

(** A BSS report with its signal in the advertised range. *)
Definition signal_ok (e : event) : Prop :=
  match e with
  | InformBss signal _ _ _ _ _ =>
      (exists dbm, -100 <= dbm <= -30 /\ signal = dbm * 100)
      /\ -10000 <= signal <= -3000
  | _ => True
  end.

(** What [inform_dummy_bss] may add to the trace. *)
Definition is_scan_report (e : event) : bool :=
  match e with
  | InformBss _ _ _ _ _ _ | PrErr _ _ => true
  | _ => false
  end.

(** What a transmit leaves behind, sender first: the kernel's receive
    entry point got [B] for the peer when the receive buffer could be
    allocated, and a drop was counted otherwise. *)
Definition after_xmit (delivered : bool) (B : list char)
  (sender peer : owl_ndev_priv_context)
  : owl_ndev_priv_context * owl_ndev_priv_context * list event :=
  let len := Z.of_nat (length B) in
  (set_stats (count_tx len (stats sender)) sender,
   set_stats (if delivered then count_rx len (stats peer)
              else count_rx_dropped (stats peer)) peer,
   KfreeSkb B ::
     (if delivered then [NetifRx (ndev peer) B]
      else [Printk "owl rx: low on mem - packet dropped"])).

(** A fault that is a write outside the array named [array]. *)
Definition fault_on (array : string) (f : fault) : bool :=
  match f with
  | OutOfBounds a _ _ => String.eqb a array
  | _ => false
  end.

(** A run that ends well in a world satisfying [P], or in a fault that is
    not a write outside [connecting_ssid]. *)
Definition post {A} (P : world -> Prop) (r : result (A * world)) : Prop :=
  match r with
  | Ok (_, w') => P w'
  | Fault f => fault_on "connecting_ssid" f = false
  end.

(** ** Scan accounting

    A scan is submitted when [owl_scan] has stored the request and handed
    the scan-start work to the work queue; it is in flight while
    [scan_request] is set; it is in at most one of three stages: scan-start
    work pending, timer armed, scan-complete work pending. *)

Definition count_events (f : event -> bool) (tr : list event) : nat :=
  length (List.filter f tr).

Definition is_scan_submit (e : event) : bool :=
  match e with ScheduleWork WsScan _ => true | _ => false end.

Definition scan_in_flight (c : owl_context) : nat :=
  match scan_request c with Some _ => 1 | None => 0 end.

Definition scan_stages (c : owl_context) : nat :=
  (if ws_scan c then 1 else 0)
  + (match scan_timeout c with Some _ => 1 | None => 0 end)
  + (if ws_scan_timeout c then 1 else 0).

Definition scan_inv (w : world) : Prop :=
  (count_events is_scan_done (trace w) + scan_in_flight (g_ctx w)
   = count_events is_scan_submit (trace w))%nat
  /\ (scan_stages (g_ctx w) <= scan_in_flight (g_ctx w))%nat.

(** A run that ends well does so in a world satisfying [P]. *)
Definition post_ok {A} (P : world -> Prop) (r : result (A * world)) : Prop :=
  match r with
  | Ok (_, w') => P w'
  | Fault _ => True
  end.

(** ** Concrete kernels and worlds *)

Definition kernel_ok : kernel :=
  {| alloc_ok := fun _ => true; random_u32 := fun n => Z.of_nat n * 2654435761;
     lock_interrupted := fun _ => false; boottime_ns := fun n => Z.of_nat n * 1000000 |}.

(** Only the consultation number [n] is refused or interrupted. *)
Definition kernel_failing (n : nat) : kernel :=
  {| alloc_ok := fun t => negb (t =? n)%nat;
     random_u32 := random_u32 kernel_ok;
     lock_interrupted := fun t => (t =? n)%nat;
     boottime_ns := boottime_ns kernel_ok |}.

Definition raw_context : owl_context :=
  {| ws_connect := true; ws_disconnect := true;
     connecting_ssid := replicate 33 "x"%byte;
     connecting_bssid := replicate 6 255;
     disconnect_reason_code := 7;
     ws_scan := true; ws_scan_timeout := true;
     scan_timeout := None; scan_request := Some 99%nat;
     netintf_list := [] |}.

Definition ctx_of (r : result owl_context) : owl_context :=
  match r with
  | Ok c => c
  | Fault _ => raw_context
  end.

Definition world_boot : world :=
  boot DEFAULT_SSID_LIST (ctx_of (vwifi_init (owl_create_context raw_context))).

Definition world_of {A} (dflt : world) (r : result (A * world)) : world :=
  match r with
  | Ok (_, w) => w
  | Fault _ => dflt
  end.

(** A scan from request to completion, then a connect request. *)
Definition calls_scan : list call :=
  [CallScan 1; RunWork WsScan; TimerFires; RunWork WsScanTimeout].

Definition world_scanned : world :=
  world_of world_boot (run_calls kernel_ok false calls_scan world_boot).

Definition sme_home : cfg80211_connect_params :=
  {| sme_ssid := bytes "MyHomeWiFi"; sme_ssid_len := 10 |}.

Definition world_connecting : world :=
  world_of world_scanned (owl_connect kernel_ok false sme_home world_scanned).

(** The scan-complete work is due: the timer has fired. *)
Definition world_scan_due : world :=
  world_of world_boot
    (run_calls kernel_ok false [CallScan 1; RunWork WsScan; TimerFires]
       world_boot).

(** A transmit of five bytes on [owl0] when no frame buffer can be had. *)
Definition world_tx_dropped : world :=
  world_of world_boot
    (owl_ndo_start_xmit (kernel_failing 0) (bytes "hello") 0%nat world_boot).

(** A load of two SSIDs when the first entry cannot be allocated. *)
Definition world_load_failed : world :=
  world_of world_boot
    (update_ssids (kernel_failing 0) false (bytes "[A][B]") world_boot).

(** The booted world once [A] of [[A][B]] is in the table. *)
Definition world_A_loaded : world :=
  with_table
    (hash_add ssid_table_empty
       (new_entry false (token_of (bytes "A][B]") 1))
       (u32 (murmurhash false (token_of (bytes "A][B]") 1))))
    (with_tick 1 world_boot).

(** ** Further predicates and views *)

(** One chain-wise inclusion of tables: what [t1] holds, [t2] holds on the
    same chain. *)
Definition table_incl (t1 t2 : hashtable) : Prop :=
  forall bkt ap, In ap (t1 !!! bkt) -> In ap (t2 !!! bkt).

(** The table of [w'] holds what the table of [w] holds, on as many chains. *)
Definition table_grows (w w' : world) : Prop :=
  table_incl (ssid_table w) (ssid_table w')
  /\ length (ssid_table w') = length (ssid_table w).

(** A byte that may stand in a token of the parameter string. *)
Definition token_char (c : char) : bool :=
  negb (is_nul c) && negb (char_in c delims).

(** The parameter string that lists the one token [T]. *)
Definition bracketed (T : list char) : list char :=
  bytes "[" ++ T ++ bytes "]".

(** A scan that can no longer complete: the request is stored, and no
    stage of the scan is pending. *)
Definition scan_wedged (r : nat) (done : nat) (w : world) : Prop :=
  scan_request (g_ctx w) = Some r
  /\ ws_scan (g_ctx w) = false
  /\ scan_timeout (g_ctx w) = None
  /\ ws_scan_timeout (g_ctx w) = false
  /\ count_events is_scan_done (trace w) = done.

(** The BSS a report announces: BSSID, capability, beacon interval and
    information elements. *)
Definition bss_report (e : event) : option (list Z * Z * Z * list Z) :=
  match e with
  | InformBss _ b _ cap bi ie => Some (b, cap, bi, ie)
  | _ => None
  end.

(** The SSID element of an SSID: identifier 0, length, the bytes. *)
Definition ssid_ie (name : list char) : list Z :=
  [WLAN_EID_SSID; Z.of_nat (length name)] ++ map char_val name.

(** What a scan reports for a table entry. *)
Definition report_of (ap : ap_info_entry_t) : option (list Z * Z * Z * list Z) :=
  Some (bssid ap, WLAN_CAPABILITY_ESS, 100, ssid_ie (cstr (ssid ap))).

(** The transmit counters of an interface after one more frame of [len]
    bytes. *)
Definition sent_on (dev : net_device) (len : nat)
  (np : owl_ndev_priv_context) : owl_ndev_priv_context :=
  if (ndev np =? dev)%nat
  then set_stats (count_tx (Z.of_nat len) (stats np)) np
  else np.

(** ** owl_ndo_open *)

(** [snprintf(buf, size, "%s", str)] into the array [buf]: at most
    [size - 1] bytes of the string, then a NUL. *)
Definition snprintf_s (array : string) (buf : list char) (size : nat)
  (str : list char) : result (list char) :=
  match size with
  | O => Ok buf
  | S m =>
      let out := take m (cstr str) ++ [NUL] in
      if (length out <=? length buf)%nat
      then Ok (out ++ drop (length out) buf)
      else Fault (OutOfBounds array (length out) (length buf))
  end.

(** [owl_ndo_open] on the device named [name]; [dev_addr] is the array
    [dev->dev_addr].  The result is the array afterwards and the value
    returned.  [netif_start_queue] leaves the driver's state alone. *)
Definition owl_ndo_open (name : list char) (dev_addr : list char)
  : result (list char * Z) :=
  let intf_name := replicate (ETH_ALEN + 1) NUL in
  match snprintf_s "intf_name" (drop 1 intf_name) ETH_ALEN name with
  | Fault f => Fault f
  | Ok tail =>
      let intf_name := take 1 intf_name ++ tail in
      match memcpy "dev_addr" dev_addr intf_name ETH_ALEN with
      | Fault f => Fault f
      | Ok addr => Ok (addr, 0)
      end
  end.

(** ** Further concrete worlds *)

(** A second scan after the module parameter was rewritten. *)
Definition calls_rescan : list call :=
  [SetParam (bytes "[Cafe]"); CallScan 2; RunWork WsScan; TimerFires;
   RunWork WsScanTimeout].

Definition world_rescanned : world :=
  world_of world_scanned (run_calls kernel_ok false calls_rescan world_scanned).

(** The booted world once the parameter [[Home2]] is loaded. *)
Definition world_home2 : world :=
  world_of world_boot
    (update_ssids kernel_ok false (bracketed (bytes "Home2")) world_boot).

(** A connect request for an SSID no parameter lists. *)
Definition sme_cafe : cfg80211_connect_params :=
  {| sme_ssid := bytes "Cafe"; sme_ssid_len := 4 |}.

(** The scan-complete work of the first scan, run by a kernel that
    interrupts its wait for the mutex. *)
Definition world_wedged : world :=
  world_of world_scan_due
    (run_call (kernel_failing 5) false (RunWork WsScanTimeout) world_scan_due).

(** The booted driver after a scan and one frame sent on [owl0]. *)
Definition world_after_xmit : world :=
  world_of world_boot
    (run_calls kernel_ok false
       (calls_scan ++ [CallXmit (bytes "hello") 0%nat]) world_boot).

(** ** Proof steps for monadic code *)

Ltac munfold :=
  unfold mutex_unlock, get_ctx, put_ctx, get_table, put_table, emit, ret,
    lift, ask in *;
  unfold gets, modify, mbind, M_bind, mret, M_ret in *.

Ltac xmit_step :=
  cbn beta iota;
  cbn [g_ctx with_ctx with_tick with_trace with_table netintf_list
       set_netintf_list tick trace map ndev stats rx_queue set_stats
       set_rx_queue list_last_entry list_first_entry last
       ndev_get_owl_context find app datalen data negb].

(** * Theorems *)

(** ** Bytes and strings *)

Lemma is_nul_true (c : char) : is_nul c = true <-> c = NUL.
Proof.
  unfold is_nul. split.
  - apply Byte.byte_dec_bl.
  - apply Byte.byte_dec_lb.
Qed.

Lemma is_nul_false (c : char) : is_nul c = false <-> c <> NUL.
Proof.
  rewrite <- is_nul_true. destruct (is_nul c); split; congruence.
Qed.

Lemma char_val_inj (a b : char) : char_val a = char_val b -> a = b.
Proof.
  unfold char_val. intros H. apply N2Z.inj in H.
  pose proof (Byte.of_to_N a) as Ha. pose proof (Byte.of_to_N b) as Hb.
  rewrite H in Ha. congruence.
Qed.

Lemma eqb_false_val (a b : char) :
  Byte.eqb a b = false -> char_val a - char_val b <> 0.
Proof.
  intros H Hz. assert (a = b) by (apply char_val_inj; lia).
  subst. rewrite (Byte.byte_dec_lb eq_refl) in H. discriminate.
Qed.

Lemma cstr_app_nul (S tail : list char) :
  Forall (fun c => c <> NUL) S -> cstr (S ++ NUL :: tail) = S.
Proof.
  induction 1 as [|c S Hc _ IH]; simpl.
  - reflexivity.
  - apply is_nul_false in Hc. rewrite Hc, IH. reflexivity.
Qed.

Lemma cstr_app_nul_any (a tail : list char) :
  cstr (a ++ NUL :: tail) = cstr a.
Proof.
  induction a as [|c a IH]; [reflexivity|]. cbn [cstr app].
  destruct (is_nul c); [reflexivity|]. now rewrite IH.
Qed.

Lemma existsb_is_nul_app (a tail : list char) :
  existsb is_nul (a ++ NUL :: tail) = true.
Proof.
  apply existsb_exists. exists NUL. split; [|reflexivity].
  apply in_or_app. right. now left.
Qed.

Lemma cstr_hd_nul (b : list char) : is_nul (hd NUL b) = true -> cstr b = [].
Proof.
  destruct b as [|c b]; [reflexivity|]. simpl. now intros ->.
Qed.

Lemma cstr_hd_cons (b : list char) :
  is_nul (hd NUL b) = false -> cstr b = hd NUL b :: cstr (tl b).
Proof.
  destruct b as [|c b]; [discriminate|]. simpl. now intros ->.
Qed.

(** [strcmp] returns zero exactly on equal strings. *)
Lemma strcmp_0 (a b : list char) : strcmp a b = 0 <-> cstr a = cstr b.
Proof.
  revert b. induction a as [|ca a IH]; intros b.
  - cbn [strcmp cstr]. destruct (is_nul (hd NUL b)) eqn:Hb.
    + rewrite (cstr_hd_nul b Hb). apply is_nul_true in Hb. rewrite Hb.
      split; reflexivity.
    + rewrite (cstr_hd_cons b Hb). split; [|discriminate].
      intros H. apply is_nul_false in Hb. exfalso. apply Hb.
      apply char_val_inj. change (char_val NUL) with 0. lia.
  - cbn [strcmp cstr]. destruct (Byte.eqb ca (hd NUL b)) eqn:E.
    + apply Byte.byte_dec_bl in E. destruct (is_nul ca) eqn:Hca.
      * rewrite cstr_hd_nul by (rewrite <- E; exact Hca). split; reflexivity.
      * rewrite (cstr_hd_cons b) by (rewrite <- E; exact Hca).
        rewrite <- E, IH. split; [congruence|]. intros H. now inversion H.
    + split; [intros H; now apply eqb_false_val in E|]. intros H. exfalso.
      destruct (is_nul ca) eqn:Hca.
      * destruct (is_nul (hd NUL b)) eqn:Hb.
        -- apply is_nul_true in Hca, Hb. rewrite Hca, Hb in E. discriminate.
        -- rewrite (cstr_hd_cons b Hb) in H. discriminate.
      * destruct (is_nul (hd NUL b)) eqn:Hb.
        -- rewrite (cstr_hd_nul b Hb) in H. discriminate.
        -- rewrite (cstr_hd_cons b Hb) in H. inversion H; subst.
           rewrite (Byte.byte_dec_lb eq_refl) in E. discriminate.
Qed.

Lemma strcmp_eqb (a b : list char) :
  (strcmp a b =? 0) = bool_decide (cstr a = cstr b).
Proof.
  destruct (Z.eqb_spec (strcmp a b) 0) as [H|H].
  - symmetry. apply bool_decide_eq_true, strcmp_0, H.
  - symmetry. apply bool_decide_eq_false. now rewrite <- strcmp_0.
Qed.

Lemma strcspn_le (s d : list char) : (strcspn s d <= length s)%nat.
Proof.
  induction s as [|c s IH]; simpl; [lia|].
  destruct (is_nul c); [lia|]. destruct (char_in c d); lia.
Qed.

Lemma strcspn_take_no_nul (s d : list char) :
  Forall (fun c => c <> NUL) (take (strcspn s d) s).
Proof.
  induction s as [|c s IH]; simpl; [constructor|].
  destruct (is_nul c) eqn:E; simpl; [constructor|].
  destruct (char_in c d); simpl; constructor; [|exact IH].
  now apply is_nul_false.
Qed.

(** After the separators are skipped, an empty token means the end of the
    string. *)
Lemma strcspn_after_strspn_0 (s d : list char) :
  strcspn (drop (strspn s d) s) d = 0%nat ->
  is_nul (hd NUL (drop (strspn s d) s)) = true.
Proof.
  induction s as [|c s IH]; simpl; [reflexivity|].
  destruct (is_nul c) eqn:E; simpl.
  - intros _. exact E.
  - destruct (char_in c d) eqn:D; simpl.
    + exact IH.
    + rewrite E, D. discriminate.
Qed.

Lemma strncpy_image_take (s : list char) (n : nat) :
  (n <= length s)%nat -> Forall (fun c => c <> NUL) (take n s) ->
  strncpy_image s n = take n s.
Proof.
  revert s. induction n as [|n IH]; intros s Hlen Hnn; [reflexivity|].
  destruct s as [|c s]; simpl in *; [lia|].
  inversion Hnn as [|? ? Hc Hrest]; subst.
  apply is_nul_false in Hc. rewrite Hc. f_equal. apply IH; [lia|exact Hrest].
Qed.

(** ** rand_int *)

(** For bounds whose span fits an [s32]. *)
Lemma rand_int_range (r low up : Z) :
  low <= up -> up - low + 1 < 2 ^ 31 -> low <= rand_int r low up <= up.
Proof.
  intros Hle _. unfold rand_int.
  pose proof (Z.rem_bound_abs (s32_of_u32 (u32 r)) (up - low + 1)
                ltac:(lia)) as Hb.
  lia.
Qed.

(** ** murmurhash and the BSSID *)

(** The loop reads the string and nothing after it. *)
Lemma murmur_loop_cstr (cs : bool) (p : list char) (h : Z) :
  murmur_loop cs h p = fold_left (xor_mul_xor cs) (cstr p) h.
Proof.
  revert h. induction p as [|c p IH]; intros h; simpl; [reflexivity|].
  destruct (is_nul c); simpl; [reflexivity|].
  rewrite IH. reflexivity.
Qed.

Lemma murmurhash_cstr (cs : bool) (p : list char) :
  murmurhash cs p = corrected_hash cs (cstr p).
Proof. apply murmur_loop_cstr. Qed.

Lemma murmurhash_ext (cs : bool) (p q : list char) :
  cstr p = cstr q -> murmurhash cs p = murmurhash cs q.
Proof. intros E. rewrite !murmurhash_cstr, E. reflexivity. Qed.

Lemma u64_to_ether_addr_bytes (u : Z) :
  u64_to_ether_addr u =
  [byte_of u 5; byte_of u 4; byte_of u 3; byte_of u 2; byte_of u 1;
   byte_of u 0].
Proof.
  unfold u64_to_ether_addr, ETH_ALEN, byte_of. simpl.
  rewrite !Z.shiftr_shiftr by lia. simpl. rewrite Z.shiftr_0_r.
  reflexivity.
Qed.

Lemma generate_bssid_corrected (cs : bool) (p : list char) :
  generate_bssid_with_ssid cs p = corrected_bssid cs (cstr p).
Proof.
  unfold generate_bssid_with_ssid, corrected_bssid.
  rewrite u64_to_ether_addr_bytes, murmurhash_cstr. reflexivity.
Qed.

Lemma generate_bssid_length (cs : bool) (p : list char) :
  length (generate_bssid_with_ssid cs p) = ETH_ALEN.
Proof. rewrite generate_bssid_corrected. reflexivity. Qed.

Lemma unicast_local_bits (b : Z) :
  Z.testbit (Z.lor (Z.land b 0xfe) 0x02) 0 = false
  /\ Z.testbit (Z.lor (Z.land b 0xfe) 0x02) 1 = true.
Proof.
  rewrite !Z.lor_spec, !Z.land_spec. split.
  - change (Z.testbit 254 0) with false. change (Z.testbit 2 0) with false.
    now rewrite andb_false_r.
  - change (Z.testbit 2 1) with true. now rewrite orb_true_r.
Qed.

(** ** Buffers *)

Lemma token_of_length (s : list char) (n : nat) :
  (n <= length s)%nat -> (n <= SSID_MAX_LENGTH)%nat ->
  length (token_of s n) = SSID_MAX_LENGTH.
Proof.
  intros H1 H2. unfold token_of.
  rewrite length_app, length_take_le, length_replicate by exact H1. lia.
Qed.

Lemma token_of_cstr (s d : list char) (n : nat) :
  n = strcspn s d -> (n < SSID_MAX_LENGTH)%nat ->
  cstr (token_of s n) = take n s.
Proof.
  intros -> Hn. unfold token_of.
  destruct (SSID_MAX_LENGTH - strcspn s d)%nat as [|k] eqn:E; [lia|].
  simpl. apply cstr_app_nul, strcspn_take_no_nul.
Qed.

Lemma token_strncpy (s d : list char) (n : nat) :
  n = strcspn s d -> (n <= SSID_MAX_LENGTH)%nat ->
  strncpy "token" (replicate SSID_MAX_LENGTH NUL) s n = Ok (token_of s n).
Proof.
  intros -> Hn. unfold strncpy. rewrite length_replicate.
  destruct (Nat.leb_spec (strcspn s d) SSID_MAX_LENGTH); [|lia].
  rewrite strncpy_image_take, drop_replicate;
    auto using strcspn_le, strcspn_take_no_nul.
Qed.

Lemma token_strncpy_overflow (s : list char) (n : nat) :
  (SSID_MAX_LENGTH < n)%nat ->
  strncpy "token" (replicate SSID_MAX_LENGTH NUL) s n
  = Fault (OutOfBounds "token" n SSID_MAX_LENGTH).
Proof.
  intros Hn. unfold strncpy. rewrite length_replicate.
  destruct (Nat.leb_spec n SSID_MAX_LENGTH); [lia|reflexivity].
Qed.

Lemma token_store (s d : list char) (n : nat) :
  n = strcspn s d -> (n < SSID_MAX_LENGTH)%nat ->
  store "token" (token_of s n) n NUL = Ok (token_of s n).
Proof.
  intros Hn Hlt. unfold store.
  rewrite token_of_length by (subst; auto using strcspn_le; lia).
  destruct (Nat.ltb_spec n SSID_MAX_LENGTH); [|lia].
  f_equal. apply list_insert_id. unfold token_of.
  rewrite lookup_app_r by (rewrite length_take_le; subst; auto using strcspn_le).
  rewrite length_take_le by (subst; auto using strcspn_le).
  rewrite Nat.sub_diag. apply lookup_replicate_2. lia.
Qed.

Lemma token_store_overflow (s d : list char) (n : nat) :
  n = strcspn s d -> n = SSID_MAX_LENGTH ->
  store "token" (token_of s n) n NUL
  = Fault (OutOfBounds "token" n SSID_MAX_LENGTH).
Proof.
  intros Hn Heq. unfold store.
  rewrite token_of_length by (subst n; auto using strcspn_le; lia).
  destruct (Nat.ltb_spec n SSID_MAX_LENGTH); [lia|reflexivity].
Qed.

(** Copying the token on into the zeroed entry gives the same array. *)
Lemma ap_ssid_strncpy (s d : list char) (n : nat) :
  n = strcspn s d -> (n < SSID_MAX_LENGTH)%nat ->
  strncpy "ap->ssid" (replicate SSID_MAX_LENGTH NUL) (token_of s n) n
  = Ok (token_of s n).
Proof.
  intros Hn Hlt. unfold strncpy. rewrite length_replicate.
  destruct (Nat.leb_spec n SSID_MAX_LENGTH); [|lia].
  assert (Hlen : (n <= length s)%nat) by (subst; apply strcspn_le).
  assert (Htk : take n (token_of s n) = take n s).
  { unfold token_of. rewrite take_app_length'; [reflexivity|].
    now rewrite length_take_le. }
  rewrite strncpy_image_take, Htk, drop_replicate; [reflexivity| |].
  - rewrite token_of_length; lia.
  - rewrite Htk. subst. apply strcspn_take_no_nul.
Qed.

Lemma store_nul_0 (buf : list char) :
  ssid_buffer_ok buf ->
  exists buf', store "connecting_ssid" buf 0 NUL = Ok buf'
               /\ cstr buf' = [] /\ ssid_buffer_ok buf'.
Proof.
  intros [Hlen _]. destruct buf as [|c buf]; [discriminate|].
  exists (NUL :: buf). split; [reflexivity|]. split; [reflexivity|].
  split; [exact Hlen|reflexivity].
Qed.

(** What [owl_connect] leaves in [connecting_ssid]: the first [n] bytes
    requested, a NUL, and the old bytes beyond. *)
Lemma connect_buffer (buf src : list char) (n : nat) :
  length buf = S SSID_MAX_LENGTH -> (n <= SSID_MAX_LENGTH)%nat ->
  (n <= length src)%nat ->
  memcpy "connecting_ssid" buf src n = Ok (take n src ++ drop n buf)
  /\ store "connecting_ssid" (take n src ++ drop n buf) n NUL
     = Ok (take n src ++ NUL :: drop (S n) buf)
  /\ ssid_buffer_ok (take n src ++ NUL :: drop (S n) buf)
  /\ cstr (take n src ++ NUL :: drop (S n) buf) = cstr (take n src).
Proof.
  intros Hbuf Hn Hsrc. unfold SSID_MAX_LENGTH in *.
  assert (Htake : length (take n src) = n) by now rewrite length_take_le.
  destruct (drop n buf) as [|c rest] eqn:Hdrop.
  { apply (f_equal length) in Hdrop. rewrite length_drop in Hdrop.
    cbn in Hdrop. lia. }
  assert (Hrest : drop (S n) buf = rest).
  { replace (S n) with (n + 1)%nat by lia.
    rewrite <- drop_drop, Hdrop. reflexivity. }
  assert (Hlen : length (take n src ++ c :: rest) = 33%nat).
  { rewrite <- Hdrop, length_app, Htake, length_drop. lia. }
  split; [|split; [|split]].
  - unfold memcpy. destruct (Nat.leb_spec n (length src)); [|lia].
    destruct (Nat.leb_spec n (length buf)); [|lia]. now rewrite Hdrop.
  - unfold store. rewrite Hlen. destruct (Nat.ltb_spec n 33); [|lia].
    rewrite Hrest. f_equal.
    rewrite insert_app_r_alt by lia. rewrite Htake, Nat.sub_diag.
    reflexivity.
  - rewrite Hrest. split.
    + rewrite length_app, Htake. cbn [length].
      rewrite length_app, Htake in Hlen. cbn [length] in Hlen. exact Hlen.
    + apply existsb_is_nul_app.
  - apply cstr_app_nul_any.
Qed.

Lemma memcpy_length {A} (array : string) (dest src out : list A) (n : nat) :
  memcpy array dest src n = Ok out -> length out = length dest.
Proof.
  unfold memcpy. destruct (Nat.leb_spec n (length src)); [|discriminate].
  destruct (Nat.leb_spec n (length dest)); [|discriminate].
  intros Hout. inversion Hout.
  rewrite length_app, length_take_le, length_drop; lia.
Qed.

Lemma memcpy_pkt (B : list char) :
  (length B <= ETH_DATA_LEN)%nat ->
  memcpy "pkt->data" (replicate ETH_DATA_LEN NUL) B (length B)
  = Ok (B ++ replicate (ETH_DATA_LEN - length B) NUL).
Proof.
  intros H. unfold memcpy. rewrite Nat.leb_refl, length_replicate.
  destruct (Nat.leb_spec (length B) ETH_DATA_LEN); [|lia].
  rewrite firstn_all, drop_replicate. reflexivity.
Qed.

Lemma pkt_payload (B pad : list char) :
  take (Z.to_nat (Z.of_nat (length B))) (B ++ pad) = B.
Proof. rewrite Nat2Z.id. apply take_app_length. Qed.

Lemma ssid_buffer_strlen (buf : list char) :
  ssid_buffer_ok buf -> (strlen buf <= SSID_MAX_LENGTH)%nat.
Proof.
  intros [Hlen Hnul]. unfold strlen.
  assert (H : forall l : list char,
             existsb is_nul l = true -> (length (cstr l) < length l)%nat).
  { induction l as [|c l IH]; [discriminate|]. cbn [existsb cstr length].
    destruct (is_nul c); cbn [orb length]; [lia|].
    intros Hl. specialize (IH Hl). lia. }
  specialize (H buf Hnul). rewrite Hlen in H. lia.
Qed.

(** ** The loop of update_ssids *)

(** One turn of the loop, case by case. *)
Lemma update_ssids_loop_step (K : kernel) (cs : bool) (fuel : nat)
  (s : list char) (w : world) :
  update_ssids_loop K cs (S fuel) s w =
  if is_nul (hd NUL s) then Ok (tt, w)
  else
    let s1 := drop (strspn s delims) s in
    let n := strcspn s1 delims in
    if (n =? 0)%nat then update_ssids_loop K cs fuel s1 w
    else if (SSID_MAX_LENGTH <=? n)%nat
    then Fault (OutOfBounds "token" n SSID_MAX_LENGTH)
    else
      let token := token_of s1 n in
      let key := u32 (murmurhash cs token) in
      if existsb (fun ap => strncmp token (ssid ap) n =? 0)
                 (bucket (ssid_table w) key)
      then update_ssids_loop K cs fuel (drop n s1) w
      else if alloc_ok K (tick w)
      then update_ssids_loop K cs fuel (drop n s1)
             (with_table (hash_add (ssid_table w) (new_entry cs token) key)
                (with_tick (S (tick w)) w))
      else Ok (tt, with_trace
                     (trace w ++
                        [PrErr "Failed to alloc ap_info_entry_t incomming SSID=%s"
                               (take n s1)])
                     (with_tick (S (tick w)) w)).
Proof.
  cbn [update_ssids_loop].
  destruct (is_nul (hd NUL s)); [reflexivity|].
  cbv zeta.
  set (s1 := drop (strspn s delims) s).
  set (n := strcspn s1 delims).
  destruct (n =? 0)%nat; [reflexivity|].
  destruct (Nat.leb_spec SSID_MAX_LENGTH n) as [Hge|Hlt].
  - munfold. destruct (Nat.eq_dec n SSID_MAX_LENGTH) as [Heq|Hne].
    + rewrite (token_strncpy s1 delims n) by (subst n; lia || reflexivity).
      cbn beta iota.
      rewrite (token_store_overflow s1 delims n) by (subst n; auto).
      reflexivity.
    + rewrite token_strncpy_overflow by lia. reflexivity.
  - munfold.
    rewrite (token_strncpy s1 delims n) by (subst n; lia || reflexivity).
    cbn beta iota.
    rewrite (token_store s1 delims n) by (subst n; auto).
    cbn beta iota. cbn [ssid_table].
    destruct (existsb _ _); [reflexivity|].
    cbn [tick with_tick]. destruct (alloc_ok K (tick w)); cbn [negb].
    + rewrite (ap_ssid_strncpy s1 delims n) by (subst n; auto).
      reflexivity.
    + rewrite (token_of_cstr s1 delims n) by (subst n; auto).
      reflexivity.
Qed.

(** The fuel [update_ssids] gives its loop is enough: past that amount the
    result no longer depends on it, and the loop never runs dry. *)
Lemma update_ssids_loop_fuel (K : kernel) (cs : bool) (fuel fuel' : nat) :
  forall (s : list char) (w : world),
    (length s + 2 <= fuel)%nat -> (length s + 2 <= fuel')%nat ->
    update_ssids_loop K cs fuel s w = update_ssids_loop K cs fuel' s w.
Proof.
  revert fuel'. induction fuel as [|fuel IH]; intros fuel' s w H1 H2; [lia|].
  destruct fuel' as [|fuel']; [lia|].
  rewrite !update_ssids_loop_step.
  destruct (is_nul (hd NUL s)) eqn:Hnul; [reflexivity|]. cbv zeta.
  set (s1 := drop (strspn s delims) s).
  set (n := strcspn s1 delims).
  assert (Hs1 : (length s1 <= length s)%nat).
  { subst s1. rewrite length_drop. lia. }
  assert (Hdrop : (0 < n -> length (drop n s1) + 2 <= fuel
                            /\ length (drop n s1) + 2 <= fuel')%nat).
  { intros Hn. rewrite length_drop.
    pose proof (strcspn_le s1 delims). fold n in H. lia. }
  destruct (Nat.eqb_spec n 0) as [Hn0|Hn0].
  - pose proof (strcspn_after_strspn_0 s delims Hn0) as Hend. fold s1 in Hend.
    destruct fuel as [|fuel]; [lia|]. destruct fuel' as [|fuel']; [lia|].
    rewrite !update_ssids_loop_step, Hend. reflexivity.
  - destruct (SSID_MAX_LENGTH <=? n)%nat; [reflexivity|].
    destruct (existsb _ _); [apply IH; lia|].
    destruct (alloc_ok K (tick w)); [apply IH; cbn; lia|reflexivity].
Qed.

Lemma update_ssids_loop_no_fuel_fault (K : kernel) (cs : bool) (fuel : nat) :
  forall (s : list char) (w : world),
    (length s + 2 <= fuel)%nat ->
    update_ssids_loop K cs fuel s w <> Fault OutOfFuel.
Proof.
  induction fuel as [|fuel IH]; intros s w H1; [lia|].
  rewrite update_ssids_loop_step.
  destruct (is_nul (hd NUL s)) eqn:Hnul; [discriminate|]. cbv zeta.
  set (s1 := drop (strspn s delims) s).
  set (n := strcspn s1 delims).
  assert (Hs1 : (length s1 <= length s)%nat).
  { subst s1. rewrite length_drop. lia. }
  assert (Hdrop : (0 < n -> length (drop n s1) + 2 <= fuel)%nat).
  { intros Hn. rewrite length_drop.
    pose proof (strcspn_le s1 delims). fold n in H. lia. }
  destruct (Nat.eqb_spec n 0) as [Hn0|Hn0].
  - pose proof (strcspn_after_strspn_0 s delims Hn0) as Hend. fold s1 in Hend.
    destruct fuel as [|fuel]; [lia|].
    rewrite update_ssids_loop_step, Hend. discriminate.
  - destruct (SSID_MAX_LENGTH <=? n)%nat; [discriminate|].
    destruct (existsb _ _); [apply IH; lia|].
    destruct (alloc_ok K (tick w)); [apply IH; cbn; lia|discriminate].
Qed.

Lemma update_ssids_returns (K : kernel) (cs : bool) (s : list char)
  (w : world) :
  update_ssids K cs s w <> Fault OutOfFuel.
Proof. apply update_ssids_loop_no_fuel_fault. lia. Qed.

Lemma update_ssids_loop_long_token (K : kernel) (cs : bool) (fuel : nat)
  (s : list char) (w : world) :
  is_nul (hd NUL s) = false ->
  (SSID_MAX_LENGTH <= strcspn (drop (strspn s delims) s) delims)%nat ->
  update_ssids_loop K cs (S fuel) s w
  = Fault (OutOfBounds "token"
             (strcspn (drop (strspn s delims) s) delims) SSID_MAX_LENGTH).
Proof.
  intros Hnul Hlen. rewrite update_ssids_loop_step, Hnul. cbv zeta.
  destruct (Nat.eqb_spec (strcspn (drop (strspn s delims) s) delims) 0)
    as [E|_]; [unfold SSID_MAX_LENGTH in Hlen; lia|].
  destruct (Nat.leb_spec SSID_MAX_LENGTH
              (strcspn (drop (strspn s delims) s) delims)); [reflexivity|lia].
Qed.

Lemma update_ssids_loop_alloc_failure (K : kernel) (cs : bool) (fuel : nat)
  (s : list char) (w : world) :
  let s1 := drop (strspn s delims) s in
  let n := strcspn s1 delims in
  let token := token_of s1 n in
  is_nul (hd NUL s) = false ->
  (0 < n < SSID_MAX_LENGTH)%nat ->
  existsb (fun ap => strncmp token (ssid ap) n =? 0)
          (bucket (ssid_table w) (u32 (murmurhash cs token))) = false ->
  alloc_ok K (tick w) = false ->
  update_ssids_loop K cs (S fuel) s w
  = Ok (tt, with_trace
              (trace w ++
                 [PrErr "Failed to alloc ap_info_entry_t incomming SSID=%s"
                        (take n s1)])
              (with_tick (S (tick w)) w)).
Proof.
  intros s1 n token Hnul Hn Hnew Halloc.
  rewrite update_ssids_loop_step, Hnul. cbv zeta. fold s1. fold n. fold token.
  destruct (Nat.eqb_spec n 0); [lia|].
  destruct (Nat.leb_spec SSID_MAX_LENGTH n); [lia|].
  rewrite Hnew, Halloc. reflexivity.
Qed.

Lemma loop_next_step (K : kernel) (cs : bool) (fuel : nat)
  (s s' : list char) (w w' : world) :
  loop_next K cs s w = Some (s', w') ->
  update_ssids_loop K cs (S fuel) s w = update_ssids_loop K cs fuel s' w'
  /\ (length s' < length s)%nat.
Proof.
  unfold loop_next. rewrite update_ssids_loop_step.
  destruct (is_nul (hd NUL s)); [discriminate|]. cbv zeta.
  set (s1 := drop (strspn s delims) s).
  set (n := strcspn s1 delims).
  assert (Hlen : (0 < n -> length (drop n s1) < length s)%nat).
  { intros Hn. subst s1. rewrite !length_drop.
    pose proof (strcspn_le (drop (strspn s delims) s) delims) as Hle.
    fold n in Hle. rewrite length_drop in Hle. lia. }
  destruct (Nat.eqb_spec n 0); [discriminate|].
  destruct (SSID_MAX_LENGTH <=? n)%nat; [discriminate|].
  destruct (existsb _ _).
  - intros H. inversion H; subst. split; [reflexivity|apply Hlen; lia].
  - destruct (alloc_ok K (tick w)); [|discriminate].
    intros H. inversion H; subst. split; [reflexivity|apply Hlen; lia].
Qed.

Lemma loop_reaches_run (K : kernel) (cs : bool) (s s2 : list char)
  (w w2 : world) :
  loop_reaches K cs s w s2 w2 ->
  forall fuel : nat,
    (length s + 2 <= fuel)%nat ->
    exists fuel2,
      (length s2 + 2 <= fuel2)%nat
      /\ update_ssids_loop K cs fuel s w = update_ssids_loop K cs fuel2 s2 w2.
Proof.
  induction 1 as [s w|s s1 s2 w w1 w2 Hnext _ IH]; intros fuel Hfuel.
  - exists fuel. auto.
  - destruct fuel as [|fuel]; [lia|].
    destruct (loop_next_step K cs fuel _ _ _ _ Hnext) as [Hstep Hlt].
    destruct (IH fuel ltac:(lia)) as (fuel2 & Hf2 & Hrun).
    exists fuel2. split; [exact Hf2|]. now rewrite Hstep.
Qed.

Lemma update_ssids_loop_fault (K : kernel) (cs : bool) (fuel : nat) :
  forall (s : list char) (w : world) (f : fault),
    update_ssids_loop K cs fuel s w = Fault f ->
    fault_on "connecting_ssid" f = false.
Proof.
  induction fuel as [|fuel IH]; intros s w f H.
  - inversion H. reflexivity.
  - rewrite update_ssids_loop_step in H.
    destruct (is_nul (hd NUL s)); [discriminate|]. cbv zeta in H.
    destruct (_ =? 0)%nat; [eauto|].
    destruct (SSID_MAX_LENGTH <=? _)%nat; [inversion H; reflexivity|].
    destruct (existsb _ _); [eauto|].
    destruct (alloc_ok K (tick w)); [eauto|discriminate].
Qed.

(** ** The AP table *)

Lemma hash_32_range (key : Z) : 0 <= hash_32 key HASH_BITS < 16.
Proof.
  unfold hash_32, HASH_BITS, u32. rewrite Z.shiftr_div_pow2 by lia.
  pose proof (Z.mod_pos_bound (key * GOLDEN_RATIO_32) (2 ^ 32) ltac:(lia)).
  split.
  - apply Z.div_pos; lia.
  - apply Z.div_lt_upper_bound; lia.
Qed.

Lemma hash_min_range (key : Z) : (hash_min key < HASH_SIZE)%nat.
Proof.
  unfold hash_min, HASH_SIZE. pose proof (hash_32_range key). lia.
Qed.

Lemma table_wf_empty (cs : bool) : table_wf cs ssid_table_empty.
Proof.
  intros bkt ap Hin. exfalso. unfold ssid_table_empty in Hin.
  destruct (Nat.lt_ge_cases bkt HASH_SIZE) as [Hlt|Hge].
  - rewrite lookup_total_replicate_2 in Hin by exact Hlt. inversion Hin.
  - rewrite list_lookup_total_alt in Hin.
    rewrite (proj1 (lookup_replicate_None _ _ _) Hge) in Hin. inversion Hin.
Qed.

Lemma hash_add_lookup (t : hashtable) (ap : ap_info_entry_t) (key : Z)
  (bkt : nat) (x : ap_info_entry_t) :
  In x (hash_add t ap key !!! bkt) ->
  (x = ap /\ bkt = hash_min key) \/ In x (t !!! bkt).
Proof.
  unfold hash_add, bucket. intros Hin.
  destruct (Nat.lt_ge_cases (hash_min key) (length t)) as [Hlt|Hge].
  - destruct (Nat.eq_dec (hash_min key) bkt) as [<-|Hne].
    + rewrite list_lookup_total_insert_eq in Hin by exact Hlt.
      destruct Hin as [<-|Hin]; auto.
    + rewrite list_lookup_total_insert_ne in Hin by exact Hne. auto.
  - rewrite list_insert_ge in Hin by exact Hge. auto.
Qed.

Lemma new_entry_ok (cs : bool) (s : list char) (n : nat) :
  n = strcspn s delims -> (n < SSID_MAX_LENGTH)%nat ->
  entry_ok cs (hash_min (u32 (murmurhash cs (token_of s n))))
           (new_entry cs (token_of s n)).
Proof.
  intros Hn Hlt. unfold entry_ok, new_entry. cbn [ssid bssid].
  assert (Hlen : (n <= length s)%nat) by (subst; apply strcspn_le).
  repeat split.
  - apply token_of_length; lia.
  - unfold strlen. rewrite (token_of_cstr s delims n) by assumption.
    rewrite length_take_le; lia.
Qed.

Lemma hash_add_wf (cs : bool) (t : hashtable) (ap : ap_info_entry_t)
  (key : Z) :
  table_wf cs t -> entry_ok cs (hash_min key) ap ->
  table_wf cs (hash_add t ap key).
Proof.
  intros Hwf Hap bkt x Hin.
  apply hash_add_lookup in Hin as [[-> ->]|Hin]; auto.
Qed.

(** What one load may change: the table, which stays well formed, the
    tick, and the trace, which only gains error messages. *)
Lemma update_ssids_loop_inv (K : kernel) (cs : bool) (fuel : nat) :
  forall (s : list char) (w w' : world),
    update_ssids_loop K cs fuel s w = Ok (tt, w') ->
    g_ctx w' = g_ctx w /\ ssid_list w' = ssid_list w
    /\ (table_wf cs (ssid_table w) -> table_wf cs (ssid_table w'))
    /\ exists evs, trace w' = trace w ++ evs /\ forallb is_pr_err evs = true.
Proof.
  induction fuel as [|fuel IH]; intros s w w' H; [discriminate|].
  rewrite update_ssids_loop_step in H.
  assert (Hrefl : forall v : world,
             Ok (tt, v) = Ok (tt, w') -> g_ctx v = g_ctx w ->
             ssid_list v = ssid_list w -> ssid_table v = ssid_table w ->
             (exists evs, trace v = trace w ++ evs
                          /\ forallb is_pr_err evs = true) ->
             g_ctx w' = g_ctx w /\ ssid_list w' = ssid_list w
             /\ (table_wf cs (ssid_table w) -> table_wf cs (ssid_table w'))
             /\ exists evs, trace w' = trace w ++ evs
                            /\ forallb is_pr_err evs = true).
  { intros v Hv H1 H2 H3 H4. inversion Hv; subst v.
    rewrite H3. auto. }
  destruct (is_nul (hd NUL s)).
  { apply (Hrefl w); auto. exists []. now rewrite app_nil_r. }
  cbv zeta in H.
  set (s1 := drop (strspn s delims) s) in *.
  set (n := strcspn s1 delims) in *.
  destruct (n =? 0)%nat; [eauto|].
  destruct (Nat.leb_spec SSID_MAX_LENGTH n) as [Hge|Hlt]; [discriminate|].
  destruct (existsb _ _); [eauto|].
  destruct (alloc_ok K (tick w)).
  - apply IH in H as (H1 & H2 & H3 & H4). cbn in H1, H2, H3, H4.
    split; [exact H1|]. split; [exact H2|]. split; [|exact H4].
    intros Hwf. apply H3, hash_add_wf; [exact Hwf|].
    apply new_entry_ok; [reflexivity|exact Hlt].
  - apply (Hrefl _ H); try reflexivity.
    eexists. split; [reflexivity|reflexivity].
Qed.

Lemma bucket_in_entries (t : hashtable) (key : Z) (ap : ap_info_entry_t) :
  In ap (bucket t key) -> In ap (hash_entries t).
Proof.
  intros H. unfold hash_entries. apply in_flat_map.
  exists (hash_min key). split; [|exact H].
  apply in_seq. pose proof (hash_min_range key). lia.
Qed.

(** On a well-formed table the chain walk of [is_valid_ssid] finds an SSID
    exactly when some entry of the table holds it. *)
Lemma is_valid_ssid_contains (cs : bool) (t : hashtable) (name : list char) :
  table_wf cs t -> is_valid_ssid cs t name = directory_contains t name.
Proof.
  intros Hwf. apply eq_true_iff_eq.
  unfold is_valid_ssid, directory_contains. rewrite !existsb_exists.
  split; intros (ap & Hin & Heq).
  - exists ap. split; [eapply bucket_in_entries; exact Hin|].
    rewrite strcmp_eqb in Heq. apply bool_decide_eq_true in Heq.
    apply bool_decide_eq_true. congruence.
  - exists ap. apply bool_decide_eq_true in Heq. split.
    + unfold hash_entries in Hin. apply in_flat_map in Hin as (bkt & _ & Hin).
      destruct (Hwf bkt ap Hin) as (Hb & _).
      unfold bucket. rewrite (murmurhash_ext cs name (ssid ap)) by congruence.
      rewrite Hb. exact Hin.
    + rewrite strcmp_eqb. apply bool_decide_eq_true. congruence.
Qed.

Lemma get_connecting_bssid_length (cs : bool) (t : hashtable)
  (name : list char) (b out : list Z) :
  get_connecting_bssid cs t name b = Ok out -> length out = length b.
Proof.
  unfold get_connecting_bssid. destruct (find _ _).
  - apply memcpy_length.
  - intros H. now inversion H.
Qed.

Lemma get_connecting_bssid_fault (cs : bool) (t : hashtable)
  (name : list char) (b : list Z) (f : fault) :
  get_connecting_bssid cs t name b = Fault f ->
  fault_on "connecting_ssid" f = false.
Proof.
  unfold get_connecting_bssid, memcpy. destruct (find _ _); [|discriminate].
  destruct (_ <=? _)%nat; [destruct (_ <=? _)%nat|];
    intros H; inversion H; reflexivity.
Qed.

Lemma get_connecting_bssid_ok (cs : bool) (t : hashtable)
  (name : list char) (b : list Z) :
  table_wf cs t -> length b = ETH_ALEN ->
  exists out, get_connecting_bssid cs t name b = Ok out.
Proof.
  intros Hwf Hb. unfold get_connecting_bssid.
  destruct (find _ _) as [ap|] eqn:Hf; [|eauto].
  apply find_some in Hf as [Hin _].
  destruct (Hwf _ _ Hin) as (_ & Hbssid & _).
  unfold memcpy. rewrite Hbssid, generate_bssid_length, Hb. cbn. eauto.
Qed.

(** ** inform_dummy_bss *)

Lemma signal_in_range_at (r : Z) (b : list Z) (tsf cap bi : Z) (ie : list Z) :
  signal_ok (InformBss (rand_int r (-100) (-30) * 100) b tsf cap bi ie).
Proof.
  pose proof (rand_int_range r (-100) (-30) ltac:(lia) ltac:(lia)) as H.
  unfold signal_ok. split; [|lia]. eexists. split; [exact H|reflexivity].
Qed.

(** One report per entry, each with its signal in range; nothing else of
    the world changes but the tick. *)
Lemma inform_each_inv (K : kernel) (aps : list ap_info_entry_t) :
  forall w w' : world,
    inform_each K aps w = Ok (tt, w') ->
    g_ctx w' = g_ctx w /\ ssid_list w' = ssid_list w
    /\ ssid_table w' = ssid_table w
    /\ exists evs, trace w' = trace w ++ evs
                   /\ Forall signal_ok evs
                   /\ forallb is_scan_report evs = true
                   /\ length evs = length aps.
Proof.
  induction aps as [|ap aps IH]; intros w w' H.
  - inversion H; subst. split; [reflexivity|]. split; [reflexivity|].
    split; [reflexivity|]. exists []. rewrite app_nil_r.
    split; [reflexivity|]. split; [constructor|]. split; reflexivity.
  - cbn [inform_each] in H. munfold. cbn beta iota in H.
    destruct (alloc_ok K (tick (with_tick (S (tick w)) w))); cbn [negb] in H;
      [|discriminate].
    apply IH in H as (H1 & H2 & H3 & evs & H4 & H5 & H6 & H7).
    cbn [g_ctx ssid_list ssid_table trace with_trace with_tick] in H1, H2, H3, H4.
    split; [exact H1|]. split; [exact H2|]. split; [exact H3|].
    rewrite <- app_assoc in H4. cbn [app] in H4.
    eexists. split; [exact H4|].
    split; [|split].
    + constructor; [|exact H5]. apply signal_in_range_at.
    + cbn [forallb is_scan_report andb]. exact H6.
    + cbn [length]. now rewrite H7.
Qed.

Lemma inform_dummy_bss_inv (K : kernel) (cs : bool) (w w' : world) :
  inform_dummy_bss K cs w = Ok (tt, w') ->
  g_ctx w' = g_ctx w /\ ssid_list w' = ssid_list w
  /\ (table_wf cs (ssid_table w) -> table_wf cs (ssid_table w'))
  /\ exists evs, trace w' = trace w ++ evs
                 /\ Forall signal_ok evs
                 /\ forallb is_scan_report evs = true.
Proof.
  unfold inform_dummy_bss. intros H. munfold. cbn beta iota in H.
  destruct (update_ssids K cs (ssid_list w) w) as [[[] w1]|e] eqn:Hup;
    [|discriminate].
  unfold update_ssids in Hup.
  apply update_ssids_loop_inv in Hup as (U1 & U2 & U3 & uevs & U4 & U5).
  assert (Hpr : Forall signal_ok uevs /\ forallb is_scan_report uevs = true).
  { clear U4. induction uevs as [|e uevs IHu]; [split; [constructor|reflexivity]|].
    cbn [forallb] in U5. apply andb_prop in U5 as [He Hrest].
    destruct (IHu Hrest) as [I1 I2].
    destruct e; try discriminate. split; [constructor; [exact I|exact I1]|exact I2]. }
  destruct Hpr as [P1 P2].
  destruct (hash_empty (ssid_table w1)).
  - inversion H; subst w'. split; [exact U1|]. split; [exact U2|].
    split; [exact U3|]. eauto.
  - apply inform_each_inv in H as (H1 & H2 & H3 & evs & H4 & H5 & H6 & _).
    rewrite H1, H2, H3, H4, U4. split; [exact U1|]. split; [exact U2|].
    split; [exact U3|].
    exists (uevs ++ evs). rewrite app_assoc. split; [reflexivity|].
    split; [apply Forall_app; auto|].
    rewrite forallb_app, P2, H6. reflexivity.
Qed.

Lemma inform_each_fault (K : kernel) (aps : list ap_info_entry_t) :
  forall (w : world) (f : fault),
    inform_each K aps w = Fault f -> fault_on "connecting_ssid" f = false.
Proof.
  induction aps as [|ap aps IH]; intros w f H; [discriminate|].
  cbn [inform_each] in H. munfold. cbn beta iota in H.
  destruct (alloc_ok K _); cbn [negb] in H.
  - eapply IH, H.
  - inversion H. reflexivity.
Qed.

(** ** The driver invariant *)

(** The part of the invariant a handler keeps when it leaves the table,
    the two address buffers and the interfaces alone. *)
Lemma driver_inv_frame (cs : bool) (w w' : world) :
  driver_inv cs w ->
  (table_wf cs (ssid_table w) -> table_wf cs (ssid_table w')) ->
  connecting_ssid (g_ctx w') = connecting_ssid (g_ctx w) ->
  connecting_bssid (g_ctx w') = connecting_bssid (g_ctx w) ->
  netintf_list (g_ctx w') = netintf_list (g_ctx w) ->
  driver_inv cs w'.
Proof.
  intros (I1 & I2 & I3 & I4) Ht E1 E2 E3. unfold driver_inv.
  rewrite E1, E2, E3. auto.
Qed.

Lemma inform_dummy_bss_post (K : kernel) (cs : bool) (w : world) :
  driver_inv cs w ->
  post (fun w' => driver_inv cs w' /\ g_ctx w' = g_ctx w)
       (inform_dummy_bss K cs w).
Proof.
  intros Hinv. destruct (inform_dummy_bss K cs w) as [[[] w']|f] eqn:H.
  - destruct (inform_dummy_bss_inv K cs w w' H) as (Hc & _ & Ht & _).
    cbn [post]. split; [|exact Hc].
    apply (driver_inv_frame cs w w' Hinv Ht); now rewrite Hc.
  - cbn [post]. unfold inform_dummy_bss in H. munfold. cbn beta iota in H.
    destruct (update_ssids K cs (ssid_list w) w) as [[[] w1]|e] eqn:Hup.
    + destruct (hash_empty (ssid_table w1)); [discriminate|].
      eapply inform_each_fault, H.
    + inversion H; subst. unfold update_ssids in Hup.
      eapply update_ssids_loop_fault, Hup.
Qed.

Ltac mcbn :=
  repeat first
    [ progress cbn beta iota
    | progress cbn [g_ctx ssid_table ssid_list tick trace with_ctx with_tick
                    with_trace with_table negb work_pending post fault_on
                    scan_request scan_timeout ws_connect ws_disconnect
                    ws_scan ws_scan_timeout set_connecting_ssid
                    set_connecting_bssid set_disconnect_reason_code
                    set_scan_timeout set_scan_request set_netintf_list
                    set_work_pending List.map] ].

Ltac mrun :=
  repeat first
    [ progress mcbn
    | match goal with
      | |- context [if ?b then _ else _] => destruct b eqn:?
      | |- context [match ?x with Some _ => _ | None => _ end] =>
          destruct x eqn:?
      | |- context [match ?x with [] => _ | _ :: _ => _ end] =>
          destruct x eqn:?
      | |- context [match ?x with Ok _ => _ | Fault _ => _ end] =>
          lazymatch x with
          | context [match _ with Ok _ => _ | Fault _ => _ end] => fail
          | _ => destruct x eqn:?; simplify_eq
          end
      | |- context [let (_, _) := ?p in _] => destruct p
      end ].

Ltac frame Hinv :=
  solve [ reflexivity
        | apply (driver_inv_frame _ _ _ Hinv); [tauto | reflexivity ..] ].

Lemma owl_scan_post (K : kernel) (cs : bool) (request : nat) (w : world) :
  driver_inv cs w -> post (driver_inv cs) (owl_scan K request w).
Proof.
  intros Hinv. unfold owl_scan, mutex_lock_interruptible, schedule_work.
  munfold. mrun; frame Hinv.
Qed.

Lemma owl_scan_routine_post (K : kernel) (cs : bool) (w : world) :
  driver_inv cs w -> post (driver_inv cs) (owl_scan_routine w).
Proof.
  intros Hinv. unfold owl_scan_routine. munfold. mrun; frame Hinv.
Qed.

Lemma owl_scan_timeout_post (cs : bool) (w : world) :
  driver_inv cs w -> post (driver_inv cs) (owl_scan_timeout w).
Proof.
  intros Hinv. unfold owl_scan_timeout, schedule_work. munfold.
  mrun; frame Hinv.
Qed.

Lemma owl_disconnect_post (K : kernel) (cs : bool) (reason : Z) (w : world) :
  driver_inv cs w -> post (driver_inv cs) (owl_disconnect K reason w).
Proof.
  intros Hinv. unfold owl_disconnect, mutex_lock_interruptible, schedule_work.
  munfold. mrun; frame Hinv.
Qed.

Lemma owl_disconnect_routine_post (K : kernel) (cs : bool) (w : world) :
  driver_inv cs w -> post (driver_inv cs) (owl_disconnect_routine K w).
Proof.
  intros Hinv. unfold owl_disconnect_routine, mutex_lock_interruptible,
    list_first_entry.
  munfold. mrun; frame Hinv.
Qed.

Lemma owl_connect_routine_post (K : kernel) (cs : bool) (w : world) :
  driver_inv cs w -> post (driver_inv cs) (owl_connect_routine K cs w).
Proof.
  intros Hinv. pose proof Hinv as (I1 & I2 & I3 & I4).
  destruct (store_nul_0 _ I2) as (buf' & Hst & _ & Hok).
  unfold owl_connect_routine, mutex_lock_interruptible, list_first_entry.
  munfold. mcbn.
  destruct (lock_interrupted K (tick w)); mcbn; [frame Hinv|].
  rewrite Hst.
  destruct (netintf_list (g_ctx w)) eqn:Hl;
    destruct (is_valid_ssid cs (ssid_table w) (connecting_ssid (g_ctx w)));
    mcbn; try reflexivity;
    (split; [exact I1|split; [exact Hok|split; [exact I3|]]]);
    cbn [g_ctx with_ctx with_trace netintf_list set_connecting_ssid];
    rewrite Hl; exact I4.
Qed.

Lemma owl_connect_post (K : kernel) (cs : bool)
  (sme : cfg80211_connect_params) (w : world) :
  driver_inv cs w -> post (driver_inv cs) (owl_connect K cs sme w).
Proof.
  intros Hinv. pose proof Hinv as (I1 & (Hlen & Hnul) & I3 & I4).
  unfold owl_connect, mutex_lock_interruptible, schedule_work.
  set (n := if (SSID_MAX_LENGTH <? sme_ssid_len sme)%nat
            then SSID_MAX_LENGTH else sme_ssid_len sme).
  assert (Hn : (n <= SSID_MAX_LENGTH)%nat).
  { subst n. destruct (Nat.ltb_spec SSID_MAX_LENGTH (sme_ssid_len sme)); lia. }
  munfold. mcbn.
  destruct (lock_interrupted K (tick w)); mcbn; [frame Hinv|].
  destruct (Nat.le_gt_cases n (length (sme_ssid sme))) as [Hsrc|Hsrc].
  - destruct (connect_buffer _ _ n Hlen Hn Hsrc) as (Hm & Hs & Hok & _).
    rewrite Hm. mcbn. rewrite Hs. mcbn.
    destruct (get_connecting_bssid cs (ssid_table w) _
                (connecting_bssid (g_ctx w))) as [b|f] eqn:Hb; mcbn.
    + apply get_connecting_bssid_length in Hb.
      destruct (ws_connect (g_ctx w)); mcbn;
        (split; [exact I1|split; [exact Hok|split; [|exact I4]]]);
        cbn [g_ctx with_ctx with_trace connecting_bssid set_connecting_bssid
             set_connecting_ssid set_work_pending]; congruence.
    + eapply get_connecting_bssid_fault, Hb.
  - unfold memcpy. destruct (Nat.leb_spec n (length (sme_ssid sme))); [lia|].
    reflexivity.
Qed.

Lemma owl_scan_timeout_work_post (K : kernel) (cs : bool) (w : world) :
  driver_inv cs w -> post (driver_inv cs) (owl_scan_timeout_work K cs w).
Proof.
  intros Hinv. pose proof (inform_dummy_bss_post K cs w Hinv) as Hp.
  unfold owl_scan_timeout_work, mutex_lock_interruptible. munfold. mcbn.
  destruct (inform_dummy_bss K cs w) as [[[] w1]|f]; cbn [post] in Hp;
    [|exact Hp].
  destruct Hp as [Hinv1 Hc]. mrun; frame Hinv1.
Qed.

Lemma update_priv_interfaces (dev : net_device)
  (f : owl_ndev_priv_context -> owl_ndev_priv_context)
  (l : list owl_ndev_priv_context) :
  (forall np, ndev (f np) = ndev np) ->
  (forall np, rx_queue np = [] -> rx_queue (f np) = []) ->
  interfaces_ok l ->
  interfaces_ok
    (List.map (fun np => if (ndev np =? dev)%nat then f np else np) l).
Proof.
  intros Hd Hq [H1 H2]. split.
  - rewrite <- H1. rewrite List.map_map. apply List.map_ext.
    intros np. destruct (ndev np =? dev)%nat; auto.
  - apply Forall_forall. intros x Hx.
    apply list_elem_of_In, in_map_iff in Hx as (np & <- & Hin).
    rewrite Forall_forall in H2.
    destruct (ndev np =? dev)%nat; [apply Hq|]; apply H2, list_elem_of_In, Hin.
Qed.

Lemma owl_ndo_stop_post (cs : bool) (dev : net_device) (w : world) :
  driver_inv cs w -> post (driver_inv cs) (owl_ndo_stop dev w).
Proof.
  intros (I1 & I2 & I3 & I4). unfold owl_ndo_stop, update_priv. munfold. mcbn.
  split; [exact I1|split; [exact I2|split; [exact I3|]]].
  cbn [g_ctx with_ctx netintf_list set_netintf_list].
  apply update_priv_interfaces; auto.
Qed.

Lemma owl_ndo_start_xmit_post (K : kernel) (cs : bool) (skb : sk_buff)
  (dev : net_device) (w : world) :
  driver_inv cs w -> post (driver_inv cs) (owl_ndo_start_xmit K skb dev w).
Proof.
  intros (I1 & I2 & I3 & (Hd & Hq)).
  destruct (netintf_list (g_ctx w))
    as [|[d0 s0 q0] [|[d1 s1 q1] [|? ?]]] eqn:Hl; try discriminate Hd.
  cbn in Hd. injection Hd as -> ->.
  apply Forall_cons in Hq as [Hq0 Hq]. apply Forall_cons in Hq as [Hq1 _].
  cbn [rx_queue] in Hq0, Hq1. subst q0 q1.
  unfold owl_ndo_start_xmit, owl_handle_rx, update_priv,
    ndev_get_owl_context, list_last_entry, list_first_entry, memcpy.
  munfold.
  destruct dev as [|[|dev]];
    repeat (progress (xmit_step; mcbn;
                      rewrite ?Hl, ?Nat.leb_refl; cbn [Nat.eqb]));
    repeat match goal with
      | |- context [alloc_ok K ?t] => destruct (alloc_ok K t)
      | |- context [(?a <=? ?b)%nat] => destruct (a <=? b)%nat
      | _ => progress (xmit_step; mcbn; rewrite ?Hl; cbn [Nat.eqb])
      end;
    try reflexivity;
    (split; [exact I1|split; [exact I2|split; [exact I3|]]]);
    (split; [reflexivity|repeat constructor]).
Qed.

Lemma post_then_ret {A} (P : world -> Prop) (m : M A) (w : world) :
  post P (m w) -> post P ((m;; ret tt) w).
Proof.
  munfold. destruct (m w) as [[a w']|f]; auto.
Qed.

(** Every step of the driver keeps the invariant, and no step faults by
    writing outside [connecting_ssid]. *)
Lemma run_call_post (K : kernel) (cs : bool) (k : call) (w : world) :
  driver_inv cs w -> post (driver_inv cs) (run_call K cs k w).
Proof.
  intros Hinv. destruct k as [request|sme|reason| |skb dev|dev|wk| |param];
    cbn [run_call].
  - apply post_then_ret, owl_scan_post, Hinv.
  - apply post_then_ret, owl_connect_post, Hinv.
  - apply post_then_ret, owl_disconnect_post, Hinv.
  - exact Hinv.
  - apply post_then_ret, owl_ndo_start_xmit_post, Hinv.
  - apply post_then_ret, owl_ndo_stop_post, Hinv.
  - munfold. mcbn. destruct (work_pending wk (g_ctx w)); [|exact Hinv].
    mcbn.
    assert (Hinv' : driver_inv cs
                      (with_ctx (set_work_pending wk false (g_ctx w)) w))
      by (destruct wk; frame Hinv).
    destruct wk; cbn [work_handler].
    + apply owl_connect_routine_post, Hinv'.
    + apply owl_disconnect_routine_post, Hinv'.
    + apply (owl_scan_routine_post K), Hinv'.
    + apply owl_scan_timeout_work_post, Hinv'.
  - munfold. mcbn. destruct (scan_timeout (g_ctx w)); [|exact Hinv].
    mcbn. apply owl_scan_timeout_post. frame Hinv.
  - munfold. mcbn. exact Hinv.
Qed.

Lemma run_calls_post (K : kernel) (cs : bool) (ks : list call) :
  forall w : world,
    driver_inv cs w -> post (driver_inv cs) (run_calls K cs ks w).
Proof.
  induction ks as [|k ks IH]; intros w Hinv; [exact Hinv|].
  cbn [run_calls]. pose proof (run_call_post K cs k w Hinv) as Hk.
  munfold. destruct (run_call K cs k w) as [[[] w1]|f]; cbn [post] in Hk.
  - apply IH, Hk.
  - exact Hk.
Qed.

Lemma vwifi_init_inv (cs : bool) (raw : owl_context) (param : list char) :
  length (connecting_ssid raw) = S SSID_MAX_LENGTH ->
  length (connecting_bssid raw) = ETH_ALEN ->
  exists ctx,
    vwifi_init (owl_create_context raw) = Ok ctx
    /\ cstr (connecting_ssid ctx) = []
    /\ scan_request ctx = None
    /\ driver_inv cs (boot param ctx).
Proof.
  intros Hs Hb. unfold vwifi_init, owl_create_context.
  cbn [connecting_ssid connecting_bssid netintf_list].
  destruct (connecting_ssid raw) as [|c buf] eqn:E; [discriminate|].
  cbn [store length Nat.ltb Nat.leb]. cbn [insert list_insert].
  eexists. split; [reflexivity|]. cbn [connecting_ssid scan_request].
  split; [reflexivity|]. split; [reflexivity|].
  split; [apply table_wf_empty|]. cbn [boot g_ctx connecting_ssid
    connecting_bssid netintf_list].
  split; [split; [exact Hs|reflexivity]|]. split; [exact Hb|].
  split; [reflexivity|]. repeat constructor.
Qed.

(** [owl_connect], stage by stage, when the mutex is had. *)
Lemma owl_connect_stages (K : kernel) (cs : bool)
  (sme : cfg80211_connect_params) (w : world) :
  driver_inv cs w ->
  lock_interrupted K (tick w) = false ->
  (Nat.min (sme_ssid_len sme) SSID_MAX_LENGTH <= length (sme_ssid sme))%nat ->
  let n := Nat.min (sme_ssid_len sme) SSID_MAX_LENGTH in
  exists r w',
    owl_connect K cs sme w = Ok (r, w')
    /\ connecting_ssid (g_ctx w')
       = take n (sme_ssid sme) ++
         NUL :: drop (S n) (connecting_ssid (g_ctx w))
    /\ cstr (connecting_ssid (g_ctx w')) = cstr (take n (sme_ssid sme))
    /\ ssid_buffer_ok (connecting_ssid (g_ctx w'))
    /\ r = (if ws_connect (g_ctx w) then - EBUSY else 0).
Proof.
  intros Hinv Hi Hsrc n. pose proof Hinv as (I1 & (Hlen & Hnul) & I3 & I4).
  unfold owl_connect, mutex_lock_interruptible, schedule_work.
  assert (En : (if (SSID_MAX_LENGTH <? sme_ssid_len sme)%nat
                then SSID_MAX_LENGTH else sme_ssid_len sme) = n).
  { subst n. destruct (Nat.ltb_spec SSID_MAX_LENGTH (sme_ssid_len sme)); lia. }
  rewrite En.
  destruct (connect_buffer _ _ n Hlen ltac:(subst n; lia) Hsrc)
    as (Hm & Hs & Hok & Hc).
  destruct (get_connecting_bssid_ok cs (ssid_table w)
              (take n (sme_ssid sme) ++
               NUL :: drop (S n) (connecting_ssid (g_ctx w)))
              (connecting_bssid (g_ctx w)) I1 I3) as (b & Hb).
  munfold. mcbn. rewrite Hi. mcbn. rewrite Hm. mcbn. rewrite Hs. mcbn.
  rewrite Hb. mcbn.
  destruct (ws_connect (g_ctx w)); mcbn;
    (eexists; eexists; split; [reflexivity|]);
    cbn [g_ctx with_ctx with_trace connecting_ssid]; auto.
Qed.

(** ** Scan accounting *)

Lemma count_events_app (f : event -> bool) (a b : list event) :
  count_events f (a ++ b) = (count_events f a + count_events f b)%nat.
Proof. unfold count_events. now rewrite List.filter_app, length_app. Qed.

Lemma count_events_none (f g : event -> bool) (evs : list event) :
  (forall e, g e = true -> f e = false) ->
  forallb g evs = true -> count_events f evs = 0%nat.
Proof.
  intros Hfg. induction evs as [|e evs IH]; [reflexivity|].
  cbn [forallb]. intros H. apply andb_prop in H as [He Hrest].
  unfold count_events in *. cbn [List.filter]. rewrite (Hfg e He).
  apply IH, Hrest.
Qed.

Ltac scan_inv_close :=
  simplify_eq;
  unfold scan_inv, scan_stages, scan_in_flight in *;
  cbn [g_ctx trace with_ctx with_tick with_trace with_table scan_request
       scan_timeout ws_scan ws_scan_timeout set_scan_request
       set_scan_timeout set_work_pending set_connecting_ssid
       set_connecting_bssid set_disconnect_reason_code set_netintf_list] in *;
  rewrite ?count_events_app in *;
  cbn [count_events List.filter length is_scan_done is_scan_submit] in *;
  repeat match goal with
    | H : context [match ?x with _ => _ end] |- _ => destruct x eqn:?
    | |- context [match ?x with _ => _ end] => destruct x eqn:?
    | H : context [if ?x then _ else _] |- _ => destruct x eqn:?
    | |- context [if ?x then _ else _] => destruct x eqn:?
    end;
  cbn [Nat.add] in *; try discriminate; try (intuition (try congruence; lia)).

Lemma owl_scan_scan_inv (K : kernel) (request : nat) (w : world) :
  scan_inv w -> post_ok scan_inv (owl_scan K request w).
Proof.
  intros Hinv. unfold owl_scan, mutex_lock_interruptible, schedule_work.
  munfold. mrun; cbn [post_ok]; scan_inv_close.
Qed.

Lemma owl_scan_routine_scan_inv (w : world) :
  scan_inv w ->
  (scan_stages (g_ctx w) + 1 <= scan_in_flight (g_ctx w))%nat ->
  post_ok scan_inv (owl_scan_routine w).
Proof.
  intros Hinv Hst. unfold owl_scan_routine. munfold.
  mrun; cbn [post_ok]; scan_inv_close.
Qed.

Lemma owl_scan_timeout_scan_inv (w : world) :
  scan_inv w ->
  (scan_stages (g_ctx w) + 1 <= scan_in_flight (g_ctx w))%nat ->
  post_ok scan_inv (owl_scan_timeout w).
Proof.
  intros Hinv Hst. unfold owl_scan_timeout, schedule_work. munfold.
  mrun; cbn [post_ok]; scan_inv_close.
Qed.

Lemma owl_scan_timeout_work_scan_inv (K : kernel) (cs : bool) (w : world) :
  scan_inv w ->
  (scan_stages (g_ctx w) + 1 <= scan_in_flight (g_ctx w))%nat ->
  post_ok scan_inv (owl_scan_timeout_work K cs w).
Proof.
  intros Hinv Hst. unfold owl_scan_timeout_work, mutex_lock_interruptible.
  munfold. mcbn.
  destruct (inform_dummy_bss K cs w) as [[[] w1]|f] eqn:Hinf; [|exact I].
  destruct (inform_dummy_bss_inv K cs w w1 Hinf)
    as (Hc & _ & _ & evs & Htr & _ & Hrep).
  assert (Hd : count_events is_scan_done evs = 0%nat).
  { apply (count_events_none _ is_scan_report); [now intros []|exact Hrep]. }
  assert (Hs : count_events is_scan_submit evs = 0%nat).
  { apply (count_events_none _ is_scan_report); [now intros []|exact Hrep]. }
  assert (Hinv1 : scan_inv w1).
  { unfold scan_inv in *. rewrite Hc, Htr, !count_events_app, Hd, Hs. lia. }
  rewrite <- Hc in Hst. clear Hinv Hinf Hc Htr Hd Hs Hrep.
  mrun; cbn [post_ok]; scan_inv_close.
Qed.

Lemma owl_connect_scan_inv (K : kernel) (cs : bool)
  (sme : cfg80211_connect_params) (w : world) :
  scan_inv w -> post_ok scan_inv (owl_connect K cs sme w).
Proof.
  intros Hinv. unfold owl_connect, mutex_lock_interruptible, schedule_work.
  munfold. mrun; cbn [post_ok]; scan_inv_close.
Qed.

Lemma owl_connect_routine_scan_inv (K : kernel) (cs : bool) (w : world) :
  scan_inv w -> post_ok scan_inv (owl_connect_routine K cs w).
Proof.
  intros Hinv. unfold owl_connect_routine, mutex_lock_interruptible,
    list_first_entry.
  munfold. mrun; cbn [post_ok]; scan_inv_close.
Qed.

Lemma owl_disconnect_scan_inv (K : kernel) (reason : Z) (w : world) :
  scan_inv w -> post_ok scan_inv (owl_disconnect K reason w).
Proof.
  intros Hinv. unfold owl_disconnect, mutex_lock_interruptible, schedule_work.
  munfold. mrun; cbn [post_ok]; scan_inv_close.
Qed.

Lemma owl_disconnect_routine_scan_inv (K : kernel) (w : world) :
  scan_inv w -> post_ok scan_inv (owl_disconnect_routine K w).
Proof.
  intros Hinv. unfold owl_disconnect_routine, mutex_lock_interruptible,
    list_first_entry.
  munfold. mrun; cbn [post_ok]; scan_inv_close.
Qed.

Lemma owl_ndo_start_xmit_scan_inv (K : kernel) (skb : sk_buff)
  (dev : net_device) (w : world) :
  scan_inv w -> post_ok scan_inv (owl_ndo_start_xmit K skb dev w).
Proof.
  intros Hinv. unfold owl_ndo_start_xmit, owl_handle_rx, update_priv,
    ndev_get_owl_context, list_last_entry, list_first_entry.
  munfold. mrun; cbn [post_ok]; scan_inv_close.
Qed.

Lemma owl_ndo_stop_scan_inv (dev : net_device) (w : world) :
  scan_inv w -> post_ok scan_inv (owl_ndo_stop dev w).
Proof.
  intros Hinv. unfold owl_ndo_stop, update_priv.
  munfold. mrun; cbn [post_ok]; scan_inv_close.
Qed.

Lemma post_ok_then_ret {A} (P : world -> Prop) (m : M A) (w : world) :
  post_ok P (m w) -> post_ok P ((m;; ret tt) w).
Proof.
  munfold. destruct (m w) as [[a w']|f]; auto.
Qed.

(** Every scan-done upcall answers a submitted scan, one for one:
    submitted scans are the completed ones and the one in flight, if any;
    and the scan in flight is in at most one of its stages. *)
Lemma run_call_scan_inv (K : kernel) (cs : bool) (k : call) (w : world) :
  scan_inv w -> post_ok scan_inv (run_call K cs k w).
Proof.
  intros Hinv. destruct k as [request|sme|reason| |skb dev|dev|wk| |param];
    cbn [run_call].
  - apply post_ok_then_ret, owl_scan_scan_inv, Hinv.
  - apply post_ok_then_ret, owl_connect_scan_inv, Hinv.
  - apply post_ok_then_ret, owl_disconnect_scan_inv, Hinv.
  - exact Hinv.
  - apply post_ok_then_ret, owl_ndo_start_xmit_scan_inv, Hinv.
  - apply post_ok_then_ret, owl_ndo_stop_scan_inv, Hinv.
  - munfold. mcbn. destruct (work_pending wk (g_ctx w)) eqn:Hp;
      [|exact Hinv].
    mcbn. destruct wk; cbn [work_handler work_pending] in *.
    + apply owl_connect_routine_scan_inv. scan_inv_close.
    + apply owl_disconnect_routine_scan_inv. scan_inv_close.
    + apply owl_scan_routine_scan_inv; scan_inv_close.
    + apply owl_scan_timeout_work_scan_inv; scan_inv_close.
  - munfold. mcbn. destruct (scan_timeout (g_ctx w)) eqn:Hp; [|exact Hinv].
    mcbn. apply owl_scan_timeout_scan_inv; scan_inv_close.
  - munfold. mcbn. exact Hinv.
Qed.

Lemma run_calls_scan_inv (K : kernel) (cs : bool) (ks : list call) :
  forall w : world, scan_inv w -> post_ok scan_inv (run_calls K cs ks w).
Proof.
  induction ks as [|k ks IH]; intros w Hinv; [exact Hinv|].
  cbn [run_calls]. pose proof (run_call_scan_inv K cs k w Hinv) as Hk.
  munfold. destruct (run_call K cs k w) as [[[] w1]|f]; cbn [post_ok] in Hk.
  - apply IH, Hk.
  - exact I.
Qed.

Lemma boot_scan_inv (param : list char) (raw ctx : owl_context) :
  vwifi_init (owl_create_context raw) = Ok ctx -> scan_inv (boot param ctx).
Proof.
  unfold vwifi_init. destruct (store _ _ _ _); [|discriminate].
  intros H. inversion H; subst. split; reflexivity.
Qed.

(** ** The concrete worlds *)

Lemma world_boot_inv : driver_inv false world_boot.
Proof.
  destruct (vwifi_init_inv false raw_context DEFAULT_SSID_LIST
              eq_refl eq_refl) as (ctx & Hinit & _ & _ & Hinv).
  unfold world_boot. rewrite Hinit. exact Hinv.
Qed.

Lemma world_scanned_run :
  run_calls kernel_ok false calls_scan world_boot = Ok (tt, world_scanned).
Proof. vm_compute. reflexivity. Qed.

Lemma world_scanned_inv : driver_inv false world_scanned.
Proof.
  pose proof (run_calls_post kernel_ok false calls_scan world_boot
                world_boot_inv) as H.
  rewrite world_scanned_run in H. exact H.
Qed.

Lemma world_connecting_run :
  owl_connect kernel_ok false sme_home world_scanned
  = Ok (0, world_connecting).
Proof. vm_compute. reflexivity. Qed.

Lemma world_connecting_inv : driver_inv false world_connecting.
Proof.
  pose proof (owl_connect_post kernel_ok false sme_home world_scanned
                world_scanned_inv) as H.
  rewrite world_connecting_run in H. exact H.
Qed.

Lemma world_scan_due_reports :
  inform_dummy_bss kernel_ok false world_scan_due
  = Ok (tt, world_of world_scan_due
              (inform_dummy_bss kernel_ok false world_scan_due)).
Proof. vm_compute. reflexivity. Qed.

(** ** The claims *)

(** C1. A run of the connect work handler whose mutex wait is not
    interrupted delivers exactly one upcall, on the first interface: a
    connect result with status success and no IEs when the AP directory
    holds [connecting_ssid], a connect timeout with reason
    [NL80211_TIMEOUT_SCAN] otherwise; afterwards [connecting_ssid] is the
    empty string. *)
Theorem connect_routine_dichotomy (K : kernel) (cs : bool) (w : world)
  (item : owl_ndev_priv_context) (rest : list owl_ndev_priv_context) :
  lock_interrupted K (tick w) = false ->
  table_wf cs (ssid_table w) ->
  ssid_buffer_ok (connecting_ssid (g_ctx w)) ->
  netintf_list (g_ctx w) = item :: rest ->
  exists w' upcall,
    owl_connect_routine K cs w = Ok (tt, w')
    /\ trace w' = trace w ++ [MutexLock; upcall; MutexUnlock]
    /\ upcall =
         (if directory_contains (ssid_table w) (connecting_ssid (g_ctx w))
          then ConnectResult (ndev item) None [] [] WLAN_STATUS_SUCCESS
          else ConnectTimeout (ndev item) None [] NL80211_TIMEOUT_SCAN)
    /\ is_upcall upcall = true
    /\ cstr (connecting_ssid (g_ctx w')) = []
    /\ ssid_buffer_ok (connecting_ssid (g_ctx w')).
Proof.
  intros Hi Hwf Hbuf Hlist.
  destruct (store_nul_0 _ Hbuf) as (buf' & Hst & Hempty & Hok).
  unfold owl_connect_routine, mutex_lock_interruptible.
  munfold. cbn beta iota. rewrite Hi. cbn beta iota.
  cbn [g_ctx ssid_table with_trace with_tick].
  rewrite (is_valid_ssid_contains cs _ _ Hwf), Hlist.
  destruct (directory_contains (ssid_table w) (connecting_ssid (g_ctx w)));
    cbn [negb list_first_entry]; cbn beta iota;
    cbn [g_ctx with_trace with_tick]; rewrite Hst; cbn beta iota;
    (eexists; eexists; split; [reflexivity|]);
    cbn [g_ctx trace with_trace with_tick with_ctx connecting_ssid
         set_connecting_ssid];
    rewrite <- !app_assoc; auto.
Qed.

Lemma connect_routine_dichotomy_witness :
  lock_interrupted kernel_ok (tick world_connecting) = false
  /\ table_wf false (ssid_table world_connecting)
  /\ ssid_buffer_ok (connecting_ssid (g_ctx world_connecting))
  /\ netintf_list (g_ctx world_connecting)
     = [{| ndev := 0%nat; stats := stats0; rx_queue := [] |};
        {| ndev := 1%nat; stats := stats0; rx_queue := [] |}]
  /\ exists w' upcall,
       owl_connect_routine kernel_ok false world_connecting = Ok (tt, w')
       /\ trace w' = trace world_connecting ++ [MutexLock; upcall; MutexUnlock]
       /\ upcall =
            (if directory_contains (ssid_table world_connecting)
                  (connecting_ssid (g_ctx world_connecting))
             then ConnectResult 0%nat None [] [] WLAN_STATUS_SUCCESS
             else ConnectTimeout 0%nat None [] NL80211_TIMEOUT_SCAN)
       /\ is_upcall upcall = true
       /\ cstr (connecting_ssid (g_ctx w')) = []
       /\ ssid_buffer_ok (connecting_ssid (g_ctx w')).
Proof.
  destruct world_connecting_inv as (Hwf & Hbuf & _ & _).
  split; [reflexivity|]. split; [exact Hwf|]. split; [exact Hbuf|].
  split; [vm_compute; reflexivity|].
  exact (connect_routine_dichotomy kernel_ok false world_connecting
           {| ndev := 0%nat; stats := stats0; rx_queue := [] |}
           [{| ndev := 1%nat; stats := stats0; rx_queue := [] |}]
           eq_refl Hwf Hbuf ltac:(vm_compute; reflexivity)).
Defined.

(** C2. A call to scan while [scan_request] is set unlocks the mutex and
    returns [-EBUSY] with the driver state as it was; when [scan_request]
    is null the call stores the request, submits the scan-start work and
    returns 0, or [-EBUSY] when the work item was already pending; when
    the mutex wait is interrupted it returns [-ERESTARTSYS] and nothing is
    staged. *)
Theorem owl_scan_spec (K : kernel) (request : nat) (w : world) :
  (lock_interrupted K (tick w) = true ->
   exists w', owl_scan K request w = Ok (- ERESTARTSYS, w')
              /\ g_ctx w' = g_ctx w /\ ssid_table w' = ssid_table w
              /\ trace w' = trace w)
  /\ (lock_interrupted K (tick w) = false ->
      forall pending, scan_request (g_ctx w) = Some pending ->
      exists w', owl_scan K request w = Ok (- EBUSY, w')
                 /\ g_ctx w' = g_ctx w /\ ssid_table w' = ssid_table w
                 /\ trace w' = trace w ++ [MutexLock; MutexUnlock])
  /\ (lock_interrupted K (tick w) = false ->
      scan_request (g_ctx w) = None ->
      exists w',
        owl_scan K request w
        = Ok ((if ws_scan (g_ctx w) then - EBUSY else 0), w')
        /\ scan_request (g_ctx w') = Some request
        /\ ws_scan (g_ctx w') = true
        /\ ssid_table w' = ssid_table w
        /\ trace w' = trace w ++
             [MutexLock; MutexUnlock;
              ScheduleWork WsScan (negb (ws_scan (g_ctx w)))]).
Proof.
  unfold owl_scan, mutex_lock_interruptible, schedule_work.
  split; [|split].
  - intros Hi. munfold. cbn beta iota. rewrite Hi. cbn beta iota.
    eexists. split; [reflexivity|]. repeat split.
  - intros Hi pending Hp. munfold. cbn beta iota. rewrite Hi. cbn beta iota.
    cbn [g_ctx with_trace with_tick]. rewrite Hp.
    eexists. split; [reflexivity|]. cbn [g_ctx ssid_table trace with_trace
      with_tick]. rewrite <- app_assoc. repeat split.
  - intros Hi Hn. munfold. cbn beta iota. rewrite Hi. cbn beta iota.
    cbn [g_ctx with_trace with_tick]. rewrite Hn. cbn beta iota.
    cbn [g_ctx with_ctx with_trace work_pending set_scan_request ws_scan].
    destruct (ws_scan (g_ctx w)) eqn:Hws; cbn beta iota;
      (eexists; split; [reflexivity|]);
      cbn [g_ctx ssid_table trace with_trace with_tick with_ctx
           scan_request ws_scan set_scan_request set_work_pending negb];
      rewrite <- ?app_assoc; auto.
Qed.

Lemma owl_scan_spec_witness :
  (lock_interrupted (kernel_failing 0) (tick world_boot) = true
   /\ exists w',
        owl_scan (kernel_failing 0) 1 world_boot = Ok (- ERESTARTSYS, w')
        /\ g_ctx w' = g_ctx world_boot
        /\ ssid_table w' = ssid_table world_boot
        /\ trace w' = trace world_boot)
  /\ (lock_interrupted kernel_ok (tick world_scan_due) = false
      /\ scan_request (g_ctx world_scan_due) = Some 1%nat
      /\ exists w',
           owl_scan kernel_ok 2 world_scan_due = Ok (- EBUSY, w')
           /\ g_ctx w' = g_ctx world_scan_due
           /\ ssid_table w' = ssid_table world_scan_due
           /\ trace w' = trace world_scan_due ++ [MutexLock; MutexUnlock])
  /\ (lock_interrupted kernel_ok (tick world_boot) = false
      /\ scan_request (g_ctx world_boot) = None
      /\ exists w',
           owl_scan kernel_ok 1 world_boot
           = Ok ((if ws_scan (g_ctx world_boot) then - EBUSY else 0), w')
           /\ scan_request (g_ctx w') = Some 1%nat
           /\ ws_scan (g_ctx w') = true
           /\ ssid_table w' = ssid_table world_boot
           /\ trace w' = trace world_boot ++
                [MutexLock; MutexUnlock;
                 ScheduleWork WsScan (negb (ws_scan (g_ctx world_boot)))]).
Proof.
  split; [|split].
  - split; [reflexivity|].
    exact (proj1 (owl_scan_spec (kernel_failing 0) 1 world_boot) eq_refl).
  - split; [reflexivity|]. split; [reflexivity|].
    exact (proj1 (proj2 (owl_scan_spec kernel_ok 2 world_scan_due))
             eq_refl 1%nat eq_refl).
  - split; [reflexivity|]. split; [reflexivity|].
    exact (proj2 (proj2 (owl_scan_spec kernel_ok 1 world_boot))
             eq_refl eq_refl).
Defined.

(** C3. Once the BSS reports are made, the scan-complete work handler
    whose mutex wait succeeds tells the kernel the scan is done, with
    [aborted = false] and the request still in place, and only then sets
    [scan_request] to null: one scan-done upcall and one clearing per run.
    When the wait is interrupted it returns with no scan-done upcall and
    [scan_request] as it was.  Over any run of the driver from module
    initialisation, the scans submitted are the scans reported done and
    the one in flight, if any: [scan_request] is cleared once per scan. *)
Theorem scan_timeout_work_spec (K : kernel) (cs : bool) :
  (forall w w1 : world,
     inform_dummy_bss K cs w = Ok (tt, w1) ->
     exists reports,
       trace w1 = trace w ++ reports
       /\ existsb is_scan_done reports = false
       /\ (lock_interrupted K (tick w1) = false ->
           exists w',
             owl_scan_timeout_work K cs w = Ok (tt, w')
             /\ trace w' = trace w ++ reports ++
                  [MutexLock; ScanDone (scan_request (g_ctx w)) false;
                   MutexUnlock]
             /\ g_ctx w' = set_scan_request None (g_ctx w)
             /\ scan_request (g_ctx w') = None)
       /\ (lock_interrupted K (tick w1) = true ->
           exists w',
             owl_scan_timeout_work K cs w = Ok (tt, w')
             /\ trace w' = trace w ++ reports
             /\ g_ctx w' = g_ctx w))
  /\ (forall (raw ctx : owl_context) (param : list char) (ks : list call)
             (w' : world),
        vwifi_init (owl_create_context raw) = Ok ctx ->
        run_calls K cs ks (boot param ctx) = Ok (tt, w') ->
        (count_events is_scan_done (trace w') + scan_in_flight (g_ctx w')
         = count_events is_scan_submit (trace w'))%nat).
Proof.
  split.
  - intros w w1 Hinf.
    destruct (inform_dummy_bss_inv K cs w w1 Hinf)
      as (Hctx & _ & _ & reports & Htr & _ & Hrep).
    exists reports. split; [exact Htr|]. split.
    { clear Htr. induction reports as [|e reports IH]; [reflexivity|].
      cbn [forallb] in Hrep. apply andb_prop in Hrep as [He Hrest].
      cbn [existsb]. rewrite (IH Hrest). now destruct e. }
    unfold owl_scan_timeout_work, mutex_lock_interruptible.
    split; intros Hi; munfold; cbn beta iota; rewrite Hinf; cbn beta iota;
      rewrite Hi; cbn beta iota;
      (eexists; split; [reflexivity|]);
      cbn [g_ctx trace with_trace with_tick with_ctx scan_request
           set_scan_request];
      rewrite ?Htr, ?Hctx, <- ?app_assoc; auto.
  - intros raw ctx param ks w' Hinit Hrun.
    pose proof (run_calls_scan_inv K cs ks _ (boot_scan_inv param raw ctx Hinit))
      as H.
    rewrite Hrun in H. exact (proj1 H).
Qed.

Lemma scan_timeout_work_spec_witness :
  inform_dummy_bss kernel_ok false world_scan_due
  = Ok (tt, world_of world_scan_due
              (inform_dummy_bss kernel_ok false world_scan_due))
  /\ (exists reports,
        trace (world_of world_scan_due
                 (inform_dummy_bss kernel_ok false world_scan_due))
        = trace world_scan_due ++ reports
        /\ existsb is_scan_done reports = false
        /\ exists w',
             owl_scan_timeout_work kernel_ok false world_scan_due = Ok (tt, w')
             /\ trace w' = trace world_scan_due ++ reports ++
                  [MutexLock; ScanDone (Some 1%nat) false; MutexUnlock]
             /\ scan_request (g_ctx w') = None)
  /\ run_calls kernel_ok false calls_scan world_boot = Ok (tt, world_scanned)
  /\ (count_events is_scan_done (trace world_scanned)
      + scan_in_flight (g_ctx world_scanned)
      = count_events is_scan_submit (trace world_scanned))%nat.
Proof.
  split; [exact world_scan_due_reports|]. split.
  - destruct (proj1 (scan_timeout_work_spec kernel_ok false)
                world_scan_due _ world_scan_due_reports)
      as (reports & Htr & Hnone & Hrun & _).
    exists reports. split; [exact Htr|]. split; [exact Hnone|].
    destruct (Hrun eq_refl) as (w' & H1 & H2 & _ & H4).
    exists w'. split; [exact H1|]. split; [exact H2|exact H4].
  - split; [exact world_scanned_run|].
    exact (proj2 (scan_timeout_work_spec kernel_ok false)
             raw_context _ DEFAULT_SSID_LIST calls_scan world_scanned
             eq_refl world_scanned_run).
Defined.

(** C4, as amended. When the frame buffer can be allocated, a transmit of
    [B] (at most 1500 bytes) on either interface queues one frame buffer
    holding [B] on the peer and drains it at once, leaving the receive
    queues empty; the sender's [tx_packets] grows by 1 and [tx_bytes] by
    |B|, and when the receive buffer can be allocated too the kernel
    receives exactly [B] on the peer, whose [rx_packets] grows by 1 and
    [rx_bytes] by |B| (the counters wrap at 2^64). *)
Theorem xmit_loopback (K : kernel) (w : world) (B : list char)
  (np0 np1 : owl_ndev_priv_context) :
  netintf_list (g_ctx w) = [np0; np1] ->
  ndev np0 <> ndev np1 ->
  rx_queue np0 = [] -> rx_queue np1 = [] ->
  (length B <= ETH_DATA_LEN)%nat ->
  alloc_ok K (tick w) = true ->
  let delivered := alloc_ok K (S (tick w)) in
  (exists w',
     owl_ndo_start_xmit K B (ndev np0) w = Ok (NETDEV_TX_OK, w')
     /\ let '(sender, peer, evs) := after_xmit delivered B np0 np1 in
        netintf_list (g_ctx w') = [sender; peer]
        /\ trace w' = trace w ++ evs)
  /\ (exists w',
        owl_ndo_start_xmit K B (ndev np1) w = Ok (NETDEV_TX_OK, w')
        /\ let '(sender, peer, evs) := after_xmit delivered B np1 np0 in
           netintf_list (g_ctx w') = [peer; sender]
           /\ trace w' = trace w ++ evs).
Proof.
  intros Hlist Hne Hq0 Hq1 Hlen Hpkt delivered.
  assert (E01 : (ndev np0 =? ndev np1)%nat = false) by now apply Nat.eqb_neq.
  assert (E10 : (ndev np1 =? ndev np0)%nat = false)
    by (apply Nat.eqb_neq; congruence).
  destruct np0 as [d0 st0 q0], np1 as [d1 st1 q1].
  cbn [ndev rx_queue] in *. subst q0 q1.
  unfold owl_ndo_start_xmit, owl_handle_rx, update_priv, after_xmit,
    ndev_get_owl_context, list_last_entry, list_first_entry.
  split; munfold;
    repeat (progress (xmit_step;
                      rewrite ?Hlist, ?Nat.eqb_refl, ?E01, ?E10, ?Hpkt,
                        ?(memcpy_pkt B Hlen), ?pkt_payload));
    fold delivered; destruct delivered;
    repeat (progress (xmit_step;
                      rewrite ?Hlist, ?Nat.eqb_refl, ?E01, ?E10, ?pkt_payload));
    (eexists; split; [reflexivity|]);
    xmit_step; rewrite <- ?app_assoc; split; reflexivity.
Qed.

Lemma xmit_loopback_witness :
  netintf_list (g_ctx world_boot)
  = [{| ndev := 0%nat; stats := stats0; rx_queue := [] |};
     {| ndev := 1%nat; stats := stats0; rx_queue := [] |}]
  /\ (length (bytes "hello") <= ETH_DATA_LEN)%nat
  /\ alloc_ok kernel_ok (tick world_boot) = true
  /\ exists w',
       owl_ndo_start_xmit kernel_ok (bytes "hello") 0%nat world_boot
       = Ok (NETDEV_TX_OK, w')
       /\ netintf_list (g_ctx w')
          = [{| ndev := 0%nat;
                stats := {| rx_packets := 0; tx_packets := 1; rx_bytes := 0;
                            tx_bytes := 5; rx_dropped := 0 |};
                rx_queue := [] |};
             {| ndev := 1%nat;
                stats := {| rx_packets := 1; tx_packets := 0; rx_bytes := 5;
                            tx_bytes := 0; rx_dropped := 0 |};
                rx_queue := [] |}]
       /\ trace w' = [KfreeSkb (bytes "hello"); NetifRx 1%nat (bytes "hello")].
Proof.
  assert (Hl : netintf_list (g_ctx world_boot)
               = [{| ndev := 0%nat; stats := stats0; rx_queue := [] |};
                  {| ndev := 1%nat; stats := stats0; rx_queue := [] |}])
    by (vm_compute; reflexivity).
  assert (Hlen : (length (bytes "hello") <= ETH_DATA_LEN)%nat)
    by (vm_compute; lia).
  split; [exact Hl|]. split; [exact Hlen|]. split; [reflexivity|].
  destruct (xmit_loopback kernel_ok world_boot (bytes "hello") _ _ Hl
              ltac:(discriminate) eq_refl eq_refl Hlen eq_refl)
    as [(w' & Hrun & Hres) _].
  exists w'. split; [exact Hrun|]. exact Hres.
Defined.

(** C4 as stated fails when no frame buffer can be allocated: the sender's
    counters move, nothing is queued on the peer and nothing reaches the
    kernel's receive entry point. *)
Lemma xmit_drops_without_buffer :
  owl_ndo_start_xmit (kernel_failing 0) (bytes "hello") 0%nat world_boot
  = Ok (NETDEV_TX_OK, world_tx_dropped)
  /\ trace world_tx_dropped
     = [Printk "Ran out of memory allocating packet pool"]
  /\ List.map rx_queue (netintf_list (g_ctx world_tx_dropped)) = [[]; []]
  /\ List.map (fun np => (tx_packets (stats np), tx_bytes (stats np),
                          rx_packets (stats np), rx_bytes (stats np)))
              (netintf_list (g_ctx world_tx_dropped))
     = [(1, 5, 0, 0); (0, 0, 0, 0)].
Proof. vm_compute. repeat split. Qed.

(** C5, as amended. For every SSID string [S] the derived BSSID is the
    hash started at 525201411107845655 and updated per byte of [S] by xor
    with the byte, multiplication by 0x5BD1E9955BD1E995 modulo 2^64, and
    xor with itself shifted right by 47; its low six bytes are written
    most significant first, and byte 0 is then masked with 0xFE and ORed
    with 0x02. *)
Theorem bssid_derivation (cs : bool) (S tail : list char) :
  Forall (fun c => c <> NUL) S ->
  generate_bssid_with_ssid cs (S ++ NUL :: tail) = corrected_bssid cs S.
Proof.
  intros H. rewrite generate_bssid_corrected, cstr_app_nul by exact H.
  reflexivity.
Qed.

Lemma bssid_derivation_witness :
  Forall (fun c => c <> NUL) (bytes "MyHomeWiFi")
  /\ generate_bssid_with_ssid false (bytes "MyHomeWiFi" ++ NUL :: bytes "]")
     = corrected_bssid false (bytes "MyHomeWiFi").
Proof.
  assert (H : Forall (fun c => c <> NUL) (bytes "MyHomeWiFi")).
  { repeat constructor; discriminate. }
  split; [exact H|].
  exact (bssid_derivation false (bytes "MyHomeWiFi") (bytes "]") H).
Defined.

(** C5 as stated fails on the default SSID: the start value differs, so
    the two hashes differ already in their low 48 bits, and so do the
    addresses. *)
Lemma bssid_claim_refuted :
  generate_bssid_with_ssid false (bytes "MyHomeWiFi" ++ [NUL])
  <> claimed_bssid false (bytes "MyHomeWiFi")
  /\ murmurhash false (bytes "MyHomeWiFi" ++ [NUL]) mod 2 ^ 48
     <> claimed_hash false (bytes "MyHomeWiFi") mod 2 ^ 48
  /\ murmurhash false [NUL] <> 0x074D4B97A0F8F697.
Proof.
  split; [|split]; vm_compute; discriminate.
Qed.

(** C6. The derived BSSID has bit 0 of byte 0 clear and bit 1 set; it
    depends on the bytes of the SSID alone; and every entry a load leaves
    in the table carries the BSSID derived from its SSID. *)
Theorem bssid_unicast_local (K : kernel) (cs : bool) :
  (forall buf : list char,
     exists b0 rest,
       generate_bssid_with_ssid cs buf = b0 :: rest
       /\ length rest = 5%nat
       /\ Z.testbit b0 0 = false /\ Z.testbit b0 1 = true)
  /\ (forall buf1 buf2 : list char,
        cstr buf1 = cstr buf2 ->
        generate_bssid_with_ssid cs buf1 = generate_bssid_with_ssid cs buf2)
  /\ (forall (param : list char) (w w' : world),
        table_wf cs (ssid_table w) ->
        update_ssids K cs param w = Ok (tt, w') ->
        forall ap, In ap (hash_entries (ssid_table w')) ->
          exists b0 rest,
            bssid ap = generate_bssid_with_ssid cs (ssid ap)
            /\ bssid ap = b0 :: rest
            /\ Z.testbit b0 0 = false /\ Z.testbit b0 1 = true).
Proof.
  assert (Hbits : forall buf : list char,
            exists b0 rest,
              generate_bssid_with_ssid cs buf = b0 :: rest
              /\ length rest = 5%nat
              /\ Z.testbit b0 0 = false /\ Z.testbit b0 1 = true).
  { intros buf. rewrite generate_bssid_corrected. unfold corrected_bssid.
    eexists. eexists. split; [reflexivity|]. split; [reflexivity|].
    apply unicast_local_bits. }
  split; [exact Hbits|]. split.
  - intros buf1 buf2 E. rewrite !generate_bssid_corrected, E. reflexivity.
  - intros param w w' Hwf Hup ap Hin. unfold update_ssids in Hup.
    apply update_ssids_loop_inv in Hup as (_ & _ & Hwf' & _).
    unfold hash_entries in Hin. apply in_flat_map in Hin as (bkt & _ & Hin).
    destruct (Hwf' Hwf bkt ap Hin) as (_ & Hb & _).
    destruct (Hbits (ssid ap)) as (b0 & rest & E & _ & B0 & B1).
    exists b0, rest. rewrite Hb. auto.
Qed.

Lemma bssid_unicast_local_witness :
  table_wf false (ssid_table world_boot)
  /\ update_ssids kernel_ok false DEFAULT_SSID_LIST world_boot
     = Ok (tt, world_of world_boot
                 (update_ssids kernel_ok false DEFAULT_SSID_LIST world_boot))
  /\ forall ap,
       In ap (hash_entries
                (ssid_table
                   (world_of world_boot
                      (update_ssids kernel_ok false DEFAULT_SSID_LIST
                         world_boot)))) ->
       exists b0 rest,
         bssid ap = generate_bssid_with_ssid false (ssid ap)
         /\ bssid ap = b0 :: rest
         /\ Z.testbit b0 0 = false /\ Z.testbit b0 1 = true.
Proof.
  assert (Hrun : update_ssids kernel_ok false DEFAULT_SSID_LIST world_boot
                 = Ok (tt, world_of world_boot
                             (update_ssids kernel_ok false DEFAULT_SSID_LIST
                                world_boot)))
    by (vm_compute; reflexivity).
  split; [apply table_wf_empty|]. split; [exact Hrun|].
  exact (proj2 (proj2 (bssid_unicast_local kernel_ok false))
           DEFAULT_SSID_LIST world_boot _ (table_wf_empty false) Hrun).
Defined.

(** C7, at the failing input. A configuration string with a token of 33
    bytes makes the load write 33 bytes into the 32-byte token buffer. *)
Theorem update_ssids_token_overflow (K : kernel) (cs : bool) (w : world) :
  update_ssids K cs (bytes "[AAAAAAAAAAAAAAAAAAAAAAAAAAAAAAAAA]") w
  = Fault (OutOfBounds "token" 33 32).
Proof.
  unfold update_ssids.
  change (length (bytes "[AAAAAAAAAAAAAAAAAAAAAAAAAAAAAAAAA]") + 2)%nat
    with (S 36).
  rewrite update_ssids_loop_long_token; [reflexivity|reflexivity|].
  vm_compute. lia.
Qed.

(** C8, as amended. When the allocation of a new entry fails, the load
    returns at that token: if the loop of [update_ssids param] has come to
    the token at pointer [s] in world [w1] (the tokens before it found or
    inserted) and the allocation for this new token is refused, the load
    ends in [w1] with the failure logged: the table and the context are as
    they were before the token, and what follows it in the configuration
    string is not read. *)
Theorem update_ssids_alloc_failure (K : kernel) (cs : bool)
  (param s : list char) (w w1 : world) :
  let s1 := drop (strspn s delims) s in
  let n := strcspn s1 delims in
  let token := token_of s1 n in
  loop_reaches K cs param w s w1 ->
  is_nul (hd NUL s) = false ->
  (0 < n < SSID_MAX_LENGTH)%nat ->
  existsb (fun ap => strncmp token (ssid ap) n =? 0)
          (bucket (ssid_table w1) (u32 (murmurhash cs token))) = false ->
  alloc_ok K (tick w1) = false ->
  update_ssids K cs param w
  = Ok (tt, with_trace
              (trace w1 ++
                 [PrErr "Failed to alloc ap_info_entry_t incomming SSID=%s"
                        (take n s1)])
              (with_tick (S (tick w1)) w1)).
Proof.
  intros s1 n token Hreach Hnul Hn Hnew Halloc. unfold update_ssids.
  destruct (loop_reaches_run K cs _ _ _ _ Hreach (length param + 2)
              ltac:(lia)) as (fuel2 & Hf2 & ->).
  destruct fuel2 as [|fuel2]; [lia|].
  now apply update_ssids_loop_alloc_failure.
Qed.

Lemma update_ssids_alloc_failure_witness :
  loop_reaches (kernel_failing 1) false (bytes "[A][B]") world_boot
    (bytes "][B]") world_A_loaded
  /\ is_nul (hd NUL (bytes "][B]")) = false
  /\ (0 < 1 < SSID_MAX_LENGTH)%nat
  /\ alloc_ok (kernel_failing 1) (tick world_A_loaded) = false
  /\ update_ssids (kernel_failing 1) false (bytes "[A][B]") world_boot
     = Ok (tt, with_trace
                 [PrErr "Failed to alloc ap_info_entry_t incomming SSID=%s"
                        (bytes "B")]
                 (with_tick 2 world_A_loaded))
  /\ directory_contains (ssid_table world_A_loaded) (bytes "A") = true.
Proof.
  assert (Hreach : loop_reaches (kernel_failing 1) false (bytes "[A][B]")
                     world_boot (bytes "][B]") world_A_loaded).
  { eapply reaches_next; [|apply reaches_here]. vm_compute. reflexivity. }
  split; [exact Hreach|]. split; [reflexivity|].
  split; [unfold SSID_MAX_LENGTH; lia|]. split; [reflexivity|].
  split; [|vm_compute; reflexivity].
  exact (update_ssids_alloc_failure (kernel_failing 1) false
           (bytes "[A][B]") (bytes "][B]") world_boot world_A_loaded
           Hreach eq_refl ltac:(vm_compute; lia)
           ltac:(vm_compute; reflexivity) eq_refl).
Defined.

(** C8 as stated fails: with [[A][B]] to load and no memory for the first
    entry only, the load ends with an empty table, although the entry for
    [B] could have been allocated. *)
Lemma load_stops_at_alloc_failure :
  update_ssids (kernel_failing 0) false (bytes "[A][B]") world_boot
  = Ok (tt, world_load_failed)
  /\ alloc_ok (kernel_failing 0) 1 = true
  /\ ssid_table world_load_failed = ssid_table_empty
  /\ directory_contains (ssid_table world_load_failed) (bytes "B") = false
  /\ directory_contains
       (ssid_table
          (world_of world_boot
             (update_ssids kernel_ok false (bytes "[A][B]") world_boot)))
       (bytes "B") = true.
Proof. vm_compute. repeat split. Qed.

(** C9. [rand_int(-100, -30)] lies in [-100, -30] whatever the random
    source returns, and every BSS report made during scan completion
    carries a signal that is such a value times 100, hence within
    [-10000, -3000]. *)
Theorem scan_signal_range (K : kernel) (cs : bool) :
  (forall r : Z, -100 <= rand_int r (-100) (-30) <= -30)
  /\ (forall w w' : world,
        inform_dummy_bss K cs w = Ok (tt, w') ->
        exists evs, trace w' = trace w ++ evs /\ Forall signal_ok evs).
Proof.
  split.
  - intros r. apply rand_int_range; lia.
  - intros w w' H.
    destruct (inform_dummy_bss_inv K cs w w' H)
      as (_ & _ & _ & evs & Htr & Hsig & _).
    eauto.
Qed.

Lemma scan_signal_range_witness :
  inform_dummy_bss kernel_ok false world_scan_due
  = Ok (tt, world_of world_scan_due
              (inform_dummy_bss kernel_ok false world_scan_due))
  /\ exists evs,
       trace (world_of world_scan_due
                (inform_dummy_bss kernel_ok false world_scan_due))
       = trace world_scan_due ++ evs
       /\ Forall signal_ok evs.
Proof.
  split; [exact world_scan_due_reports|].
  exact (proj2 (scan_signal_range kernel_ok false) world_scan_due _
           world_scan_due_reports).
Defined.

(** C10. [connecting_ssid] always holds a NUL-terminated string of at most
    32 bytes: it is empty after module initialisation; [owl_connect]
    copies at most 32 bytes of the requested SSID and ends them with a NUL
    inside the 33-byte array; the connect work, once it has the mutex,
    writes a NUL at index 0 and so empties it again, whatever SSID it held
    and whichever upcall it made; and through any sequence of driver
    operations the array keeps its NUL and no operation writes outside
    it. *)
Theorem connecting_ssid_terminated (K : kernel) (cs : bool) :
  (forall (raw : owl_context) (param : list char),
     length (connecting_ssid raw) = S SSID_MAX_LENGTH ->
     length (connecting_bssid raw) = ETH_ALEN ->
     exists ctx,
       vwifi_init (owl_create_context raw) = Ok ctx
       /\ cstr (connecting_ssid ctx) = []
       /\ driver_inv cs (boot param ctx))
  /\ (forall (sme : cfg80211_connect_params) (w : world),
        driver_inv cs w ->
        lock_interrupted K (tick w) = false ->
        (Nat.min (sme_ssid_len sme) SSID_MAX_LENGTH
         <= length (sme_ssid sme))%nat ->
        let n := Nat.min (sme_ssid_len sme) SSID_MAX_LENGTH in
        exists r w',
          owl_connect K cs sme w = Ok (r, w')
          /\ connecting_ssid (g_ctx w')
             = take n (sme_ssid sme) ++
               NUL :: drop (S n) (connecting_ssid (g_ctx w))
          /\ cstr (connecting_ssid (g_ctx w')) = cstr (take n (sme_ssid sme))
          /\ ssid_buffer_ok (connecting_ssid (g_ctx w')))
  /\ (forall w : world,
        driver_inv cs w ->
        lock_interrupted K (tick w) = false ->
        exists w',
          owl_connect_routine K cs w = Ok (tt, w')
          /\ connecting_ssid (g_ctx w')
             = <[0%nat := NUL]> (connecting_ssid (g_ctx w))
          /\ cstr (connecting_ssid (g_ctx w')) = []
          /\ ssid_buffer_ok (connecting_ssid (g_ctx w')))
  /\ (forall (ks : list call) (w : world),
        driver_inv cs w ->
        match run_calls K cs ks w with
        | Ok (_, w') =>
            ssid_buffer_ok (connecting_ssid (g_ctx w'))
            /\ (strlen (connecting_ssid (g_ctx w')) <= SSID_MAX_LENGTH)%nat
        | Fault f => fault_on "connecting_ssid" f = false
        end).
Proof.
  split; [|split; [|split]].
  - intros raw param Hs Hb.
    destruct (vwifi_init_inv cs raw param Hs Hb) as (ctx & H1 & H2 & _ & H3).
    eauto.
  - intros sme w Hinv Hi Hsrc n.
    destruct (owl_connect_stages K cs sme w Hinv Hi Hsrc)
      as (r & w' & H1 & H2 & H3 & H4 & _).
    eauto 6.
  - intros w (_ & Hbuf & _ & Hifs) Hi.
    assert (Hst : store "connecting_ssid" (connecting_ssid (g_ctx w)) 0 NUL
                  = Ok (<[0%nat := NUL]> (connecting_ssid (g_ctx w)))).
    { unfold store. destruct Hbuf as [Hlen _]. rewrite Hlen. reflexivity. }
    destruct (store_nul_0 _ Hbuf) as (buf' & Hst' & Hempty & Hok).
    rewrite Hst in Hst'. injection Hst' as <-.
    destruct (netintf_list (g_ctx w)) as [|item rest] eqn:Hlist.
    { destruct Hifs as [Hmap _]. discriminate Hmap. }
    unfold owl_connect_routine, mutex_lock_interruptible.
    munfold. cbn beta iota. rewrite Hi. cbn beta iota.
    cbn [g_ctx ssid_table with_trace with_tick]. rewrite Hlist.
    destruct (is_valid_ssid cs (ssid_table w) (connecting_ssid (g_ctx w)));
      cbn [negb list_first_entry]; cbn beta iota;
      cbn [g_ctx with_trace with_tick]; rewrite Hst; cbn beta iota;
      (eexists; split; [reflexivity|]);
      cbn [g_ctx with_trace with_tick with_ctx connecting_ssid
           set_connecting_ssid];
      auto.
  - intros ks w Hinv. pose proof (run_calls_post K cs ks w Hinv) as H.
    destruct (run_calls K cs ks w) as [[[] w']|f]; cbn [post] in H.
    + destruct H as (_ & Hb & _). split; [exact Hb|].
      apply ssid_buffer_strlen, Hb.
    + exact H.
Qed.

Lemma connecting_ssid_terminated_witness :
  driver_inv false world_scanned
  /\ lock_interrupted kernel_ok (tick world_scanned) = false
  /\ (Nat.min (sme_ssid_len sme_home) SSID_MAX_LENGTH
      <= length (sme_ssid sme_home))%nat
  /\ (exists r w',
        owl_connect kernel_ok false sme_home world_scanned = Ok (r, w')
        /\ cstr (connecting_ssid (g_ctx w')) = bytes "MyHomeWiFi"
        /\ ssid_buffer_ok (connecting_ssid (g_ctx w')))
  /\ driver_inv false world_connecting
  /\ lock_interrupted kernel_ok (tick world_connecting) = false
  /\ cstr (connecting_ssid (g_ctx world_connecting)) = bytes "MyHomeWiFi"
  /\ exists w',
       owl_connect_routine kernel_ok false world_connecting = Ok (tt, w')
       /\ connecting_ssid (g_ctx w')
          = NUL :: bytes "yHomeWiFi" ++ NUL :: replicate 22 "x"%byte
       /\ cstr (connecting_ssid (g_ctx w')) = []
       /\ ssid_buffer_ok (connecting_ssid (g_ctx w')).
Proof.
  assert (Hsrc : (Nat.min (sme_ssid_len sme_home) SSID_MAX_LENGTH
                  <= length (sme_ssid sme_home))%nat) by (vm_compute; lia).
  pose proof (connecting_ssid_terminated kernel_ok false)
    as (_ & Hconnect & Hwork & _).
  split; [exact world_scanned_inv|]. split; [reflexivity|].
  split; [exact Hsrc|]. split.
  - destruct (Hconnect sme_home world_scanned world_scanned_inv eq_refl Hsrc)
      as (r & w' & H1 & _ & H3 & H4).
    exists r, w'. split; [exact H1|]. split; [|exact H4].
    rewrite H3. reflexivity.
  - split; [exact world_connecting_inv|]. split; [reflexivity|].
    split; [vm_compute; reflexivity|].
    destruct (Hwork world_connecting world_connecting_inv eq_refl)
      as (w' & H1 & H2 & H3 & H4).
    exists w'. split; [exact H1|]. split; [|split; [exact H3|exact H4]].
    rewrite H2. vm_compute. reflexivity.
Defined.

(** * Further properties of the code *)

(** ** Loading the table *)

Lemma strncmp_refl (a : list char) (n : nat) : strncmp a a n = 0.
Proof.
  revert a. induction n as [|n IH]; intros a; [reflexivity|].
  cbn [strncmp]. rewrite (Byte.byte_dec_lb eq_refl).
  destruct (is_nul (hd NUL a)); [reflexivity|apply IH].
Qed.

Lemma table_incl_refl (t : hashtable) : table_incl t t.
Proof. intros bkt ap H. exact H. Qed.

Lemma table_incl_trans (t1 t2 t3 : hashtable) :
  table_incl t1 t2 -> table_incl t2 t3 -> table_incl t1 t3.
Proof. intros H1 H2 bkt ap H. apply H2, H1, H. Qed.

Lemma hash_add_incl (t : hashtable) (ap : ap_info_entry_t) (key : Z) :
  table_incl t (hash_add t ap key).
Proof.
  intros bkt x Hin. unfold hash_add, bucket.
  destruct (Nat.lt_ge_cases (hash_min key) (length t)) as [Hlt|Hge].
  - destruct (Nat.eq_dec (hash_min key) bkt) as [<-|Hne].
    + rewrite list_lookup_total_insert_eq by exact Hlt. now right.
    + now rewrite list_lookup_total_insert_ne by exact Hne.
  - now rewrite list_insert_ge by exact Hge.
Qed.

Lemma hash_add_head (t : hashtable) (ap : ap_info_entry_t) (key : Z) :
  length t = HASH_SIZE ->
  bucket (hash_add t ap key) key = ap :: bucket t key.
Proof.
  intros Hlen. unfold hash_add, bucket.
  apply list_lookup_total_insert_eq. rewrite Hlen. apply hash_min_range.
Qed.

Lemma hash_add_length (t : hashtable) (ap : ap_info_entry_t) (key : Z) :
  length (hash_add t ap key) = length t.
Proof. unfold hash_add. apply length_insert. Qed.

(** A load only adds entries, and keeps the number of chains. *)
Lemma update_ssids_loop_grows (K : kernel) (cs : bool) (fuel : nat) :
  forall (s : list char) (w w' : world),
    update_ssids_loop K cs fuel s w = Ok (tt, w') ->
    table_incl (ssid_table w) (ssid_table w')
    /\ length (ssid_table w') = length (ssid_table w).
Proof.
  induction fuel as [|fuel IH]; intros s w w' H; [discriminate|].
  rewrite update_ssids_loop_step in H.
  destruct (is_nul (hd NUL s)).
  { inversion H; subst. split; [apply table_incl_refl|reflexivity]. }
  cbv zeta in H.
  destruct (_ =? 0)%nat; [eauto|].
  destruct (SSID_MAX_LENGTH <=? _)%nat; [discriminate|].
  destruct (existsb _ _); [eauto|].
  destruct (alloc_ok K (tick w)).
  - apply IH in H as [H1 H2]. cbn [ssid_table with_table with_tick] in H1, H2.
    split.
    + eapply table_incl_trans; [apply hash_add_incl|exact H1].
    + now rewrite H2, hash_add_length.
  - inversion H; subst. split; [apply table_incl_refl|reflexivity].
Qed.

(** A parameter without a run of 32 bytes between delimiters loads to its
    end. *)
Lemma update_ssids_loop_short_tokens (K : kernel) (cs : bool) (fuel : nat) :
  forall (s : list char) (w : world),
    (length s + 2 <= fuel)%nat ->
    (forall k, (strcspn (drop k s) delims < SSID_MAX_LENGTH)%nat) ->
    exists w', update_ssids_loop K cs fuel s w = Ok (tt, w').
Proof.
  induction fuel as [|fuel IH]; intros s w H1 Hshort; [lia|].
  rewrite update_ssids_loop_step.
  destruct (is_nul (hd NUL s)) eqn:Hnul; [eauto|]. cbv zeta.
  pose proof (Hshort (strspn s delims)) as Hn.
  set (s1 := drop (strspn s delims) s) in *.
  set (n := strcspn s1 delims) in *.
  assert (Hs1 : (length s1 <= length s)%nat).
  { subst s1. rewrite length_drop. lia. }
  assert (Hdrop : (0 < n -> length (drop n s1) + 2 <= fuel)%nat).
  { intros Hpos. rewrite length_drop.
    pose proof (strcspn_le s1 delims) as Hle. fold n in Hle. lia. }
  assert (Hrest : forall k,
             (strcspn (drop k (drop n s1)) delims < SSID_MAX_LENGTH)%nat).
  { intros k. subst s1. rewrite !drop_drop. apply Hshort. }
  destruct (Nat.eqb_spec n 0) as [Hn0|Hn0].
  - pose proof (strcspn_after_strspn_0 s delims Hn0) as Hend. fold s1 in Hend.
    destruct fuel as [|fuel]; [lia|].
    rewrite update_ssids_loop_step, Hend. eauto.
  - destruct (Nat.leb_spec SSID_MAX_LENGTH n) as [Hge|_]; [lia|].
    destruct (existsb _ _); [apply IH; [lia|exact Hrest]|].
    destruct (alloc_ok K (tick w)); [apply IH; [cbn; lia|exact Hrest]|eauto].
Qed.

(** X1.  A load of a parameter string in which no 32 bytes in a row are
    free of delimiters runs to its end without a fault, whatever the
    kernel answers: it keeps the driver context and the parameter, keeps
    every entry the table had, and logs nothing but allocation failures. *)
Theorem update_ssids_short_tokens (K : kernel) (cs : bool)
  (param : list char) (w : world) :
  (forall k, (strcspn (drop k param) delims < SSID_MAX_LENGTH)%nat) ->
  exists w',
    update_ssids K cs param w = Ok (tt, w')
    /\ g_ctx w' = g_ctx w
    /\ table_incl (ssid_table w) (ssid_table w')
    /\ exists evs, trace w' = trace w ++ evs /\ forallb is_pr_err evs = true.
Proof.
  intros Hshort. unfold update_ssids.
  destruct (update_ssids_loop_short_tokens K cs (length param + 2) param w
              ltac:(lia) Hshort) as (w' & Hrun).
  exists w'. split; [exact Hrun|].
  destruct (update_ssids_loop_inv K cs _ _ _ _ Hrun) as (Hc & _ & _ & Hev).
  destruct (update_ssids_loop_grows K cs _ _ _ _ Hrun) as (Hincl & _).
  auto.
Qed.

Lemma update_ssids_short_tokens_witness :
  (forall k, (strcspn (drop k DEFAULT_SSID_LIST) delims < SSID_MAX_LENGTH)%nat)
  /\ exists w',
       update_ssids kernel_ok false DEFAULT_SSID_LIST world_boot = Ok (tt, w')
       /\ g_ctx w' = g_ctx world_boot
       /\ table_incl (ssid_table world_boot) (ssid_table w')
       /\ exists evs,
            trace w' = trace world_boot ++ evs
            /\ forallb is_pr_err evs = true.
Proof.
  assert (H : forall k,
             (strcspn (drop k DEFAULT_SSID_LIST) delims
              < SSID_MAX_LENGTH)%nat).
  { intros k. pose proof (strcspn_le (drop k DEFAULT_SSID_LIST) delims) as Hle.
    rewrite length_drop in Hle.
    change (length DEFAULT_SSID_LIST) with 12%nat in Hle.
    unfold SSID_MAX_LENGTH. lia. }
  split; [exact H|].
  exact (update_ssids_short_tokens kernel_ok false DEFAULT_SSID_LIST
           world_boot H).
Defined.

(** X2.  Whenever the loop of [update_ssids] comes to a token of 32 bytes or
    more, at any place of the parameter string and whatever was loaded
    before, the call faults on the array [token]: with 32 bytes the
    terminator is stored at [token[32]], with more [strncpy] itself writes
    past the array. *)
Theorem update_ssids_long_token (K : kernel) (cs : bool)
  (param s : list char) (w w1 : world) :
  let n := strcspn (drop (strspn s delims) s) delims in
  loop_reaches K cs param w s w1 ->
  is_nul (hd NUL s) = false ->
  (SSID_MAX_LENGTH <= n)%nat ->
  update_ssids K cs param w = Fault (OutOfBounds "token" n SSID_MAX_LENGTH).
Proof.
  intros n Hreach Hnul Hn. unfold update_ssids.
  destruct (loop_reaches_run K cs _ _ _ _ Hreach (length param + 2)
              ltac:(lia)) as (fuel2 & Hf2 & ->).
  destruct fuel2 as [|fuel2]; [lia|].
  now apply update_ssids_loop_long_token.
Qed.

Lemma update_ssids_long_token_witness :
  loop_reaches kernel_ok false
    (bytes "[A][BBBBBBBBBBBBBBBBBBBBBBBBBBBBBBBB]") world_boot
    (bytes "][BBBBBBBBBBBBBBBBBBBBBBBBBBBBBBBB]") world_A_loaded
  /\ is_nul (hd NUL (bytes "][BBBBBBBBBBBBBBBBBBBBBBBBBBBBBBBB]")) = false
  /\ update_ssids kernel_ok false
       (bytes "[A][BBBBBBBBBBBBBBBBBBBBBBBBBBBBBBBB]") world_boot
     = Fault (OutOfBounds "token" 32 SSID_MAX_LENGTH).
Proof.
  assert (Hreach : loop_reaches kernel_ok false
                     (bytes "[A][BBBBBBBBBBBBBBBBBBBBBBBBBBBBBBBB]") world_boot
                     (bytes "][BBBBBBBBBBBBBBBBBBBBBBBBBBBBBBBB]")
                     world_A_loaded).
  { eapply reaches_next; [|apply reaches_here]. vm_compute. reflexivity. }
  split; [exact Hreach|]. split; [reflexivity|].
  exact (update_ssids_long_token kernel_ok false
           (bytes "[A][BBBBBBBBBBBBBBBBBBBBBBBBBBBBBBBB]")
           (bytes "][BBBBBBBBBBBBBBBBBBBBBBBBBBBBBBBB]")
           world_boot world_A_loaded Hreach eq_refl
           ltac:(vm_compute; lia)).
Defined.

(** A second load of a parameter finds every token of it in the table. *)
Lemma update_ssids_loop_covered (K K' : kernel) (cs : bool) (fuel : nat) :
  forall (s : list char) (w w1 w2 : world),
    update_ssids_loop K cs fuel s w = Ok (tt, w1) ->
    trace w1 = trace w ->
    length (ssid_table w) = HASH_SIZE ->
    table_incl (ssid_table w1) (ssid_table w2) ->
    update_ssids_loop K' cs fuel s w2 = Ok (tt, w2).
Proof.
  induction fuel as [|fuel IH]; intros s w w1 w2 H Htr Hlen Hincl;
    [discriminate|].
  rewrite update_ssids_loop_step in H. rewrite update_ssids_loop_step.
  destruct (is_nul (hd NUL s)); [reflexivity|].
  cbv zeta in H. cbv zeta.
  set (s1 := drop (strspn s delims) s) in *.
  set (n := strcspn s1 delims) in *.
  destruct (n =? 0)%nat; [eauto|].
  destruct (SSID_MAX_LENGTH <=? n)%nat; [discriminate|].
  set (token := token_of s1 n) in *.
  set (key := u32 (murmurhash cs token)) in *.
  assert (Hfound : forall ap, In ap (bucket (ssid_table w1) key) ->
                     strncmp token (ssid ap) n = 0 ->
                     existsb (fun ap => strncmp token (ssid ap) n =? 0)
                             (bucket (ssid_table w2) key) = true).
  { intros ap Hin Hcmp. apply existsb_exists. exists ap.
    split; [apply Hincl, Hin|]. now apply Z.eqb_eq. }
  destruct (existsb _ (bucket (ssid_table w) key)) eqn:Hex.
  - apply existsb_exists in Hex as (ap & Hin & Hcmp).
    destruct (update_ssids_loop_grows K cs _ _ _ _ H) as (Hgrow & _).
    rewrite (Hfound ap); [eauto|apply Hgrow, Hin|now apply Z.eqb_eq].
  - destruct (alloc_ok K (tick w)).
    + destruct (update_ssids_loop_grows K cs _ _ _ _ H) as (Hgrow & _).
      cbn [ssid_table with_table with_tick] in Hgrow.
      rewrite (Hfound (new_entry cs token)).
      * eapply IH; [exact H|exact Htr| |exact Hincl].
        cbn [ssid_table with_table with_tick]. now rewrite hash_add_length.
      * apply Hgrow.
        change (In (new_entry cs token)
                  (bucket (hash_add (ssid_table w) (new_entry cs token) key)
                     key)).
        rewrite hash_add_head by exact Hlen. now left.
      * apply strncmp_refl.
    + inversion H; subst. cbn [trace with_trace with_tick] in Htr.
      apply (f_equal (@length event)) in Htr.
      rewrite length_app in Htr. cbn [length] in Htr. lia.
Qed.

(** X3.  Loading is idempotent: when a load has run to its end without an
    allocation failure (it logged nothing), loading the same parameter
    again, under any kernel, changes nothing at all: no entry is added
    twice and no memory is asked for. *)
Theorem update_ssids_reload (K K' : kernel) (cs : bool) (param : list char)
  (w w1 : world) :
  length (ssid_table w) = HASH_SIZE ->
  update_ssids K cs param w = Ok (tt, w1) ->
  trace w1 = trace w ->
  update_ssids K' cs param w1 = Ok (tt, w1).
Proof.
  intros Hlen Hrun Htr. unfold update_ssids in *.
  eapply update_ssids_loop_covered;
    [exact Hrun|exact Htr|exact Hlen|apply table_incl_refl].
Qed.

Lemma update_ssids_reload_witness :
  length (ssid_table world_boot) = HASH_SIZE
  /\ update_ssids kernel_ok false (bytes "[A][B]") world_boot
     = Ok (tt, world_of world_boot
                 (update_ssids kernel_ok false (bytes "[A][B]") world_boot))
  /\ update_ssids (kernel_failing 2) false (bytes "[A][B]")
       (world_of world_boot
          (update_ssids kernel_ok false (bytes "[A][B]") world_boot))
     = Ok (tt, world_of world_boot
                 (update_ssids kernel_ok false (bytes "[A][B]") world_boot)).
Proof.
  split; [reflexivity|]. split; [vm_compute; reflexivity|].
  exact (update_ssids_reload kernel_ok (kernel_failing 2) false
           (bytes "[A][B]") world_boot
           (world_of world_boot
              (update_ssids kernel_ok false (bytes "[A][B]") world_boot))
           eq_refl ltac:(vm_compute; reflexivity)
           ltac:(vm_compute; reflexivity)).
Defined.

(** ** The table over runs of the driver *)

Lemma table_grows_refl (w w' : world) :
  ssid_table w' = ssid_table w -> table_grows w w'.
Proof.
  intros H. unfold table_grows. rewrite H.
  split; [apply table_incl_refl|reflexivity].
Qed.

Lemma table_grows_trans (w1 w2 w3 : world) :
  table_grows w1 w2 -> table_grows w2 w3 -> table_grows w1 w3.
Proof.
  intros [H1 L1] [H2 L2]. split; [eapply table_incl_trans; eauto|congruence].
Qed.

Lemma inform_dummy_bss_grows (K : kernel) (cs : bool) (w w' : world) :
  inform_dummy_bss K cs w = Ok (tt, w') -> table_grows w w'.
Proof.
  unfold inform_dummy_bss, update_ssids. munfold. intros H.
  destruct (update_ssids_loop K cs _ (ssid_list w) w) as [[[] w1]|f] eqn:Hup;
    [|discriminate].
  apply update_ssids_loop_grows in Hup.
  eapply table_grows_trans; [exact Hup|].
  apply table_grows_refl.
  destruct (hash_empty (ssid_table w1)).
  - now inversion H.
  - now apply inform_each_inv in H as (_ & _ & Ht & _).
Qed.

Ltac table_close :=
  cbn [post_ok]; mcbn; try exact I; apply table_grows_refl; reflexivity.

Lemma run_call_grows (K : kernel) (cs : bool) (k : call) (w : world) :
  post_ok (table_grows w) (run_call K cs k w).
Proof.
  destruct k as [request|sme|reason| |skb dev|dev|wk| |param];
    cbn [run_call].
  - unfold owl_scan, mutex_lock_interruptible, schedule_work.
    munfold. mrun; table_close.
  - unfold owl_connect, mutex_lock_interruptible, schedule_work.
    munfold. mrun; table_close.
  - unfold owl_disconnect, mutex_lock_interruptible, schedule_work.
    munfold. mrun; table_close.
  - now apply table_grows_refl.
  - unfold owl_ndo_start_xmit, owl_handle_rx, update_priv,
      ndev_get_owl_context, list_last_entry, list_first_entry.
    munfold. mrun; table_close.
  - unfold owl_ndo_stop, update_priv. munfold. mrun; table_close.
  - munfold. mcbn. destruct (work_pending wk (g_ctx w)) eqn:Hp;
      [|now apply table_grows_refl].
    mcbn. destruct wk; cbn [work_handler].
    + unfold owl_connect_routine, mutex_lock_interruptible, list_first_entry.
      munfold. mrun; table_close.
    + unfold owl_disconnect_routine, mutex_lock_interruptible,
        list_first_entry.
      munfold. mrun; table_close.
    + unfold owl_scan_routine. munfold. mrun; table_close.
    + unfold owl_scan_timeout_work, mutex_lock_interruptible. munfold.
      destruct (inform_dummy_bss K cs _) as [[[] w1]|f] eqn:Hinf; [|exact I].
      apply inform_dummy_bss_grows in Hinf.
      cbn [ssid_table with_ctx] in Hinf.
      assert (Hw : table_grows w w1) by exact Hinf. clear Hinf.
      mrun; cbn [post_ok]; mcbn;
        (eapply table_grows_trans; [exact Hw|now apply table_grows_refl]).
  - munfold. mcbn. destruct (scan_timeout (g_ctx w)) eqn:Hp;
      [|now apply table_grows_refl].
    unfold owl_scan_timeout, schedule_work. munfold. mrun; table_close.
  - munfold. now apply table_grows_refl.
Qed.

Lemma run_calls_grows (K : kernel) (cs : bool) (ks : list call) :
  forall w : world, post_ok (table_grows w) (run_calls K cs ks w).
Proof.
  induction ks as [|k ks IH]; intros w; [now apply table_grows_refl|].
  cbn [run_calls]. pose proof (run_call_grows K cs k w) as Hk.
  munfold. destruct (run_call K cs k w) as [[[] w1]|f]; cbn [post_ok] in Hk;
    [|exact I].
  specialize (IH w1). destruct (run_calls K cs ks w1) as [[[] w2]|f];
    cbn [post_ok] in *; [|exact I].
  eapply table_grows_trans; eauto.
Qed.

Lemma directory_contains_incl (t t' : hashtable) (name : list char) :
  table_incl t t' ->
  directory_contains t name = true -> directory_contains t' name = true.
Proof.
  intros Hincl. unfold directory_contains, hash_entries.
  rewrite !existsb_exists. intros (ap & Hin & Heq). exists ap.
  split; [|exact Heq].
  apply in_flat_map in Hin as (bkt & Hb & Hin). apply in_flat_map.
  exists bkt. split; [exact Hb|apply Hincl, Hin].
Qed.

(** X4.  The AP directory never loses an SSID: whatever the kernel calls,
    work items, timer expiries and rewrites of the module parameter that
    follow, an SSID that the table holds is still held afterwards, also
    when the parameter no longer lists it.  Nothing in the driver removes
    an entry while the module is loaded. *)
Theorem directory_never_shrinks (K : kernel) (cs : bool) (ks : list call)
  (w w' : world) (name : list char) :
  run_calls K cs ks w = Ok (tt, w') ->
  directory_contains (ssid_table w) name = true ->
  directory_contains (ssid_table w') name = true.
Proof.
  intros Hrun. pose proof (run_calls_grows K cs ks w) as Hg.
  rewrite Hrun in Hg. destruct Hg as [Hincl _].
  now apply directory_contains_incl.
Qed.

Lemma directory_never_shrinks_witness :
  run_calls kernel_ok false calls_rescan world_scanned
  = Ok (tt, world_rescanned)
  /\ ssid_list world_rescanned = bytes "[Cafe]"
  /\ directory_contains (ssid_table world_scanned) (bytes "MyHomeWiFi") = true
  /\ directory_contains (ssid_table world_rescanned) (bytes "Cafe") = true
  /\ directory_contains (ssid_table world_rescanned) (bytes "MyHomeWiFi")
     = true.
Proof.
  assert (Hrun : run_calls kernel_ok false calls_rescan world_scanned
                 = Ok (tt, world_rescanned)) by (vm_compute; reflexivity).
  assert (Hin : directory_contains (ssid_table world_scanned)
                  (bytes "MyHomeWiFi") = true) by (vm_compute; reflexivity).
  split; [exact Hrun|]. split; [vm_compute; reflexivity|].
  split; [exact Hin|]. split; [vm_compute; reflexivity|].
  exact (directory_never_shrinks kernel_ok false calls_rescan world_scanned
           world_rescanned (bytes "MyHomeWiFi") Hrun Hin).
Defined.

(** ** A parameter of one token *)

Lemma cstr_no_nul (T : list char) :
  forallb token_char T = true -> cstr T = T.
Proof.
  induction T as [|c T IH]; [reflexivity|]. cbn [forallb cstr].
  unfold token_char at 1. intros H.
  apply andb_prop in H as [H1 H2]. apply andb_prop in H1 as [H1 _].
  apply negb_true_iff in H1. rewrite H1. f_equal. apply IH, H2.
Qed.

Lemma strcspn_token (T rest : list char) :
  forallb token_char T = true ->
  strcspn (T ++ "]"%byte :: rest) delims = length T.
Proof.
  induction T as [|c T IH]; [reflexivity|]. cbn [forallb app strcspn length].
  unfold token_char at 1. intros H.
  apply andb_prop in H as [H1 H2]. apply andb_prop in H1 as [H1 H3].
  apply negb_true_iff in H1, H3. rewrite H1, H3. f_equal. apply IH, H2.
Qed.

Lemma strspn_bracket (T rest : list char) :
  forallb token_char T = true -> T <> [] ->
  strspn ("["%byte :: T ++ rest) delims = 1%nat.
Proof.
  destruct T as [|c T]; [congruence|]. cbn [forallb app].
  unfold token_char at 1. intros H _.
  apply andb_prop in H as [H1 _]. apply andb_prop in H1 as [H1 H3].
  apply negb_true_iff in H1, H3.
  change (strspn ("["%byte :: c :: T ++ rest) delims)
    with (S (strspn (c :: T ++ rest) delims)).
  cbn [strspn]. now rewrite H1, H3.
Qed.

Lemma token_of_app (T rest : list char) :
  token_of (T ++ rest) (length T)
  = T ++ replicate (SSID_MAX_LENGTH - length T) NUL.
Proof. unfold token_of. now rewrite take_app_length. Qed.

Lemma token_padded_cstr (T : list char) :
  forallb token_char T = true -> (length T < SSID_MAX_LENGTH)%nat ->
  cstr (T ++ replicate (SSID_MAX_LENGTH - length T) NUL) = T.
Proof.
  intros HT Hlen.
  replace (SSID_MAX_LENGTH - length T)%nat
    with (S (SSID_MAX_LENGTH - length T - 1)) by lia.
  cbn [replicate]. rewrite cstr_app_nul_any. now apply cstr_no_nul.
Qed.

(** The whole of a load of the one token [T]. *)
Lemma update_ssids_one_token (K : kernel) (cs : bool) (T : list char)
  (w : world) :
  forallb token_char T = true ->
  (0 < length T < SSID_MAX_LENGTH)%nat ->
  let token := T ++ replicate (SSID_MAX_LENGTH - length T) NUL in
  let key := u32 (murmurhash cs T) in
  update_ssids K cs (bracketed T) w =
  if existsb (fun ap => strncmp token (ssid ap) (length T) =? 0)
             (bucket (ssid_table w) key)
  then Ok (tt, w)
  else if alloc_ok K (tick w)
  then Ok (tt, with_table (hash_add (ssid_table w) (new_entry cs token) key)
                 (with_tick (S (tick w)) w))
  else Ok (tt, with_trace
                 (trace w ++
                    [PrErr "Failed to alloc ap_info_entry_t incomming SSID=%s"
                           T])
                 (with_tick (S (tick w)) w)).
Proof.
  intros HT Hlen token key.
  assert (HTne : T <> []) by (destruct T; [cbn in Hlen; lia|discriminate]).
  assert (Hclose : forall w', update_ssids_loop K cs (S (S (S (length T))))
                                ["]"%byte] w' = Ok (tt, w')).
  { intros w'. reflexivity. }
  unfold update_ssids.
  rewrite (update_ssids_loop_fuel K cs _ (S (S (S (S (length T))))))
    by (unfold bracketed; cbn; rewrite ?length_app; cbn; lia).
  rewrite update_ssids_loop_step.
  change (bracketed T) with ("["%byte :: T ++ ["]"%byte]).
  change (is_nul (hd NUL ("["%byte :: T ++ ["]"%byte]))) with false.
  cbv zeta. rewrite (strspn_bracket T _ HT HTne).
  change (drop 1 ("["%byte :: T ++ ["]"%byte])) with (T ++ ["]"%byte]).
  rewrite (strcspn_token T _ HT), token_of_app, drop_app_length,
    take_app_length.
  fold token.
  rewrite (murmurhash_ext cs token T)
    by (rewrite (cstr_no_nul T HT); now apply token_padded_cstr).
  fold key.
  destruct (Nat.eqb_spec (length T) 0); [lia|].
  destruct (Nat.leb_spec SSID_MAX_LENGTH (length T)); [lia|].
  rewrite !Hclose. reflexivity.
Qed.

Lemma strncmp_prefix (T pad b : list char) :
  forallb token_char T = true ->
  take (length T) b = T ->
  strncmp (T ++ pad) b (length T) = 0.
Proof.
  revert b. induction T as [|c T IH]; intros b HT Hb; [reflexivity|].
  destruct b as [|c' b]; [discriminate|].
  cbn [length take] in Hb. injection Hb as Hc Hb'. subst c'.
  cbn [forallb] in HT. apply andb_prop in HT as [Hc HT'].
  unfold token_char in Hc. apply andb_prop in Hc as [Hc _].
  apply negb_true_iff in Hc.
  cbn [app length strncmp hd tl]. rewrite (Byte.byte_dec_lb eq_refl), Hc.
  now apply IH.
Qed.

(** X5.  A token of the parameter that is an initial part of an SSID
    already on its hash chain is taken for that SSID ([strncmp] compares
    the token's length only): the load leaves the table as it was and asks
    for no memory, so the shorter SSID is not added. *)
Theorem update_ssids_prefix_skipped (K : kernel) (cs : bool) (T : list char)
  (w : world) (ap : ap_info_entry_t) :
  forallb token_char T = true ->
  (0 < length T < SSID_MAX_LENGTH)%nat ->
  In ap (bucket (ssid_table w) (u32 (murmurhash cs T))) ->
  take (length T) (ssid ap) = T ->
  update_ssids K cs (bracketed T) w = Ok (tt, w).
Proof.
  intros HT Hlen Hin Hpre. rewrite update_ssids_one_token by assumption.
  cbv zeta.
  replace (existsb _ _) with true; [reflexivity|].
  symmetry. apply existsb_exists. exists ap. split; [exact Hin|].
  apply Z.eqb_eq. now apply strncmp_prefix.
Qed.

Lemma update_ssids_prefix_skipped_witness :
  forallb token_char (bytes "Home") = true
  /\ (0 < length (bytes "Home") < SSID_MAX_LENGTH)%nat
  /\ In (new_entry false (bytes "Home2" ++ replicate 27 NUL))
        (bucket (ssid_table world_home2) (u32 (murmurhash false (bytes "Home"))))
  /\ directory_contains (ssid_table world_home2) (bytes "Home") = false
  /\ update_ssids kernel_ok false (bracketed (bytes "Home")) world_home2
     = Ok (tt, world_home2).
Proof.
  assert (Hin : In (new_entry false (bytes "Home2" ++ replicate 27 NUL))
                  (bucket (ssid_table world_home2)
                     (u32 (murmurhash false (bytes "Home"))))).
  { vm_compute. left. reflexivity. }
  split; [reflexivity|]. split; [vm_compute; lia|].
  split; [exact Hin|]. split; [vm_compute; reflexivity|].
  exact (update_ssids_prefix_skipped kernel_ok false (bytes "Home")
           world_home2 _ eq_refl ltac:(vm_compute; lia) Hin eq_refl).
Defined.

Lemma strncmp_prefix_inv (T pad b : list char) :
  forallb token_char T = true ->
  strncmp (T ++ pad) b (length T) = 0 ->
  take (length T) b = T.
Proof.
  revert b. induction T as [|c T IH]; intros b HT Hcmp; [reflexivity|].
  cbn [forallb] in HT. apply andb_prop in HT as [Hc HT'].
  unfold token_char in Hc. apply andb_prop in Hc as [Hc _].
  apply negb_true_iff in Hc.
  cbn [app length strncmp hd tl] in Hcmp.
  destruct (Byte.eqb c (hd NUL b)) eqn:Heq.
  - apply Byte.byte_dec_bl in Heq. rewrite Hc in Hcmp.
    destruct b as [|c' b]; cbn [hd tl] in *.
    + subst c. discriminate.
    + subst c'. cbn [length take]. f_equal. now apply IH.
  - apply eqb_false_val in Heq. contradiction.
Qed.

(** ** Lookup *)

Lemma generate_bssid_ext (cs : bool) (p q : list char) :
  cstr p = cstr q ->
  generate_bssid_with_ssid cs p = generate_bssid_with_ssid cs q.
Proof. intros H. now rewrite !generate_bssid_corrected, H. Qed.

Lemma get_connecting_bssid_found (cs : bool) (t : hashtable)
  (name : list char) (b : list Z) :
  table_wf cs t -> length b = ETH_ALEN ->
  get_connecting_bssid cs t name b
  = Ok (if is_valid_ssid cs t name
        then generate_bssid_with_ssid cs name else b).
Proof.
  intros Hwf Hb. unfold get_connecting_bssid, is_valid_ssid.
  set (key := u32 (murmurhash cs name)).
  destruct (find _ (bucket t key)) as [ap|] eqn:Hf.
  - apply find_some in Hf as [Hin Hcmp].
    replace (existsb _ _) with true
      by (symmetry; apply existsb_exists; eauto).
    destruct (Hwf _ _ Hin) as (_ & Hbssid & _).
    apply Z.eqb_eq, strcmp_0 in Hcmp.
    unfold memcpy.
    rewrite Hbssid, generate_bssid_length, Hb. cbn [Nat.leb ETH_ALEN].
    rewrite take_ge by (rewrite generate_bssid_length; reflexivity).
    rewrite drop_ge by (rewrite Hb; reflexivity).
    rewrite app_nil_r. f_equal. now apply generate_bssid_ext.
  - destruct (existsb _ _) eqn:Hex; [|reflexivity].
    apply existsb_exists in Hex as (ap & Hin & Hcmp).
    now rewrite (find_none _ _ Hf ap Hin) in Hcmp.
Qed.

(** X6.  What a load inserts, a connect finds: after the load of the one
    token [S] (of 1 to 31 bytes, none a delimiter), when memory was
    granted and no other SSID on the chain starts with [S], [S] is a valid
    SSID, and the BSSID looked up for it is the one derived from [S]. *)
Theorem update_ssids_then_lookup (K : kernel) (cs : bool) (S : list char)
  (w : world) :
  forallb token_char S = true ->
  (0 < length S < SSID_MAX_LENGTH)%nat ->
  length (ssid_table w) = HASH_SIZE ->
  table_wf cs (ssid_table w) ->
  (forall ap, In ap (bucket (ssid_table w) (u32 (murmurhash cs S))) ->
              take (length S) (ssid ap) = S -> cstr (ssid ap) = S) ->
  alloc_ok K (tick w) = true ->
  exists w',
    update_ssids K cs (bracketed S) w = Ok (tt, w')
    /\ is_valid_ssid cs (ssid_table w') S = true
    /\ forall b, length b = ETH_ALEN ->
         get_connecting_bssid cs (ssid_table w') S b
         = Ok (generate_bssid_with_ssid cs S).
Proof.
  intros HS Hlen Hsize Hwf Hexact Halloc.
  pose proof (update_ssids_one_token K cs S w HS Hlen) as Hrun.
  cbv zeta in Hrun. rewrite Halloc in Hrun.
  set (token := S ++ replicate (SSID_MAX_LENGTH - length S) NUL) in *.
  set (key := u32 (murmurhash cs S)) in *.
  assert (Htok : cstr token = S) by now apply token_padded_cstr.
  assert (Hvalid : exists w',
             update_ssids K cs (bracketed S) w = Ok (tt, w')
             /\ is_valid_ssid cs (ssid_table w') S = true).
  { destruct (existsb _ (bucket (ssid_table w) key)) eqn:Hex.
    - exists w. split; [exact Hrun|].
      apply existsb_exists in Hex as (ap & Hin & Hcmp).
      apply Z.eqb_eq, strncmp_prefix_inv in Hcmp; [|exact HS].
      unfold is_valid_ssid. apply existsb_exists. exists ap.
      split; [exact Hin|].
      apply Z.eqb_eq, strcmp_0. rewrite (Hexact ap Hin Hcmp).
      now apply cstr_no_nul.
    - eexists. split; [exact Hrun|].
      cbn [ssid_table with_table with_tick]. unfold is_valid_ssid.
      fold key. rewrite hash_add_head by exact Hsize.
      cbn [existsb new_entry ssid].
      replace (strcmp S token =? 0) with true; [reflexivity|].
      symmetry. apply Z.eqb_eq, strcmp_0. rewrite Htok.
      now apply cstr_no_nul. }
  destruct Hvalid as (w' & Hrun' & Hv). exists w'.
  split; [exact Hrun'|]. split; [exact Hv|].
  intros b Hb. rewrite get_connecting_bssid_found; [now rewrite Hv| |exact Hb].
  unfold update_ssids in Hrun'.
  now apply update_ssids_loop_inv in Hrun' as (_ & _ & Hwf' & _); auto.
Qed.

Lemma update_ssids_then_lookup_witness :
  forallb token_char (bytes "Cafe") = true
  /\ alloc_ok kernel_ok (tick world_scanned) = true
  /\ is_valid_ssid false (ssid_table world_scanned) (bytes "Cafe") = false
  /\ exists w',
       update_ssids kernel_ok false (bracketed (bytes "Cafe")) world_scanned
       = Ok (tt, w')
       /\ is_valid_ssid false (ssid_table w') (bytes "Cafe") = true
       /\ forall b, length b = ETH_ALEN ->
            get_connecting_bssid false (ssid_table w') (bytes "Cafe") b
            = Ok (generate_bssid_with_ssid false (bytes "Cafe")).
Proof.
  split; [reflexivity|]. split; [reflexivity|].
  split; [vm_compute; reflexivity|].
  apply (update_ssids_then_lookup kernel_ok false (bytes "Cafe")
           world_scanned eq_refl).
  - vm_compute. lia.
  - vm_compute. reflexivity.
  - pose proof world_scanned_inv as (Hwf & _). exact Hwf.
  - intros ap Hin. exfalso. revert Hin. vm_compute. exact (fun H => H).
  - reflexivity.
Defined.

(** X7.  On a table as loads build it, the chain walks of a connect look
    at the right chain: an SSID is valid exactly when some entry of the
    table holds it, and [get_connecting_bssid] then writes the BSSID derived
    from the requested SSID; for an SSID the table does not hold it leaves
    the six bytes of [connecting_bssid] as they were (those of the
    connect before). *)
Theorem get_connecting_bssid_spec (cs : bool) (t : hashtable)
  (name : list char) (b : list Z) :
  table_wf cs t -> length b = ETH_ALEN ->
  is_valid_ssid cs t name = directory_contains t name
  /\ get_connecting_bssid cs t name b
     = Ok (if directory_contains t name
           then generate_bssid_with_ssid cs name else b).
Proof.
  intros Hwf Hb. rewrite <- (is_valid_ssid_contains cs t name Hwf).
  split; [reflexivity|now apply get_connecting_bssid_found].
Qed.

Lemma get_connecting_bssid_spec_witness :
  table_wf false (ssid_table world_scanned)
  /\ (is_valid_ssid false (ssid_table world_scanned) (bytes "MyHomeWiFi")
      = true
      /\ get_connecting_bssid false (ssid_table world_scanned)
           (bytes "MyHomeWiFi") (replicate 6 255)
         = Ok (generate_bssid_with_ssid false (bytes "MyHomeWiFi")))
  /\ (is_valid_ssid false (ssid_table world_scanned) (bytes "Cafe") = false
      /\ get_connecting_bssid false (ssid_table world_scanned)
           (bytes "Cafe") (replicate 6 255)
         = Ok (replicate 6 255)).
Proof.
  pose proof world_scanned_inv as (Hwf & _).
  split; [exact Hwf|].
  pose proof (fun name => get_connecting_bssid_spec false
                 (ssid_table world_scanned) name (replicate 6 255) Hwf
                 eq_refl) as H.
  split.
  - destruct (H (bytes "MyHomeWiFi")) as [H1 H2]. rewrite H1, H2.
    split; vm_compute; reflexivity.
  - destruct (H (bytes "Cafe")) as [H1 H2]. rewrite H1, H2.
    split; vm_compute; reflexivity.
Defined.

(** ** Runs of calls *)

Lemma run_calls_cons (K : kernel) (cs : bool) (k : call) (ks : list call)
  (w w1 : world) :
  run_call K cs k w = Ok (tt, w1) ->
  run_calls K cs (k :: ks) w = run_calls K cs ks w1.
Proof. intros H. cbn [run_calls]. munfold. now rewrite H. Qed.

Lemma run_call_work (K : kernel) (cs : bool) (wk : work) (w : world) :
  work_pending wk (g_ctx w) = true ->
  run_call K cs (RunWork wk) w
  = work_handler K cs wk (with_ctx (set_work_pending wk false (g_ctx w)) w).
Proof. intros H. cbn [run_call]. munfold. now rewrite H. Qed.

Lemma run_call_timer (K : kernel) (cs : bool) (w : world) (t : Z) :
  scan_timeout (g_ctx w) = Some t ->
  run_call K cs TimerFires w
  = owl_scan_timeout (with_ctx (set_scan_timeout None (g_ctx w)) w).
Proof. intros H. cbn [run_call]. munfold. now rewrite H. Qed.

Lemma directory_contains_ext (t : hashtable) (a b : list char) :
  cstr a = cstr b -> directory_contains t a = directory_contains t b.
Proof. intros H. unfold directory_contains. now rewrite H. Qed.

Lemma interfaces_first (l : list owl_ndev_priv_context) :
  interfaces_ok l -> exists item rest, l = item :: rest /\ ndev item = 0%nat.
Proof.
  intros [Hmap _]. destruct l as [|item rest]; [discriminate|].
  exists item, rest. split; [reflexivity|]. now inversion Hmap.
Qed.

(** The connect callback, in full. *)
Lemma owl_connect_run (K : kernel) (cs : bool)
  (sme : cfg80211_connect_params) (w : world) :
  driver_inv cs w ->
  lock_interrupted K (tick w) = false ->
  (Nat.min (sme_ssid_len sme) SSID_MAX_LENGTH <= length (sme_ssid sme))%nat ->
  let name := take (Nat.min (sme_ssid_len sme) SSID_MAX_LENGTH)
                (sme_ssid sme) in
  exists w',
    owl_connect K cs sme w
    = Ok ((if ws_connect (g_ctx w) then - EBUSY else 0), w')
    /\ driver_inv cs w'
    /\ tick w' = S (tick w)
    /\ ssid_table w' = ssid_table w
    /\ trace w' = trace w ++
         [MutexLock; MutexUnlock;
          ScheduleWork WsConnect (negb (ws_connect (g_ctx w)))]
    /\ cstr (connecting_ssid (g_ctx w')) = cstr name
    /\ connecting_bssid (g_ctx w')
       = (if directory_contains (ssid_table w) name
          then generate_bssid_with_ssid cs name
          else connecting_bssid (g_ctx w))
    /\ ws_connect (g_ctx w') = true
    /\ netintf_list (g_ctx w') = netintf_list (g_ctx w).
Proof.
  intros Hinv Hi Hsrc name. pose proof Hinv as (I1 & (Hlen & Hnul) & I3 & I4).
  pose proof (owl_connect_post K cs sme w Hinv) as Hpost.
  assert (Hrun : exists w',
    owl_connect K cs sme w
    = Ok ((if ws_connect (g_ctx w) then - EBUSY else 0), w')
    /\ tick w' = S (tick w)
    /\ ssid_table w' = ssid_table w
    /\ trace w' = trace w ++
         [MutexLock; MutexUnlock;
          ScheduleWork WsConnect (negb (ws_connect (g_ctx w)))]
    /\ cstr (connecting_ssid (g_ctx w')) = cstr name
    /\ connecting_bssid (g_ctx w')
       = (if directory_contains (ssid_table w) name
          then generate_bssid_with_ssid cs name
          else connecting_bssid (g_ctx w))
    /\ ws_connect (g_ctx w') = true
    /\ netintf_list (g_ctx w') = netintf_list (g_ctx w)).
  { clear Hpost.
    unfold owl_connect, mutex_lock_interruptible, schedule_work.
    set (n := Nat.min (sme_ssid_len sme) SSID_MAX_LENGTH) in *.
    assert (En : (if (SSID_MAX_LENGTH <? sme_ssid_len sme)%nat
                  then SSID_MAX_LENGTH else sme_ssid_len sme) = n).
    { subst n.
      destruct (Nat.ltb_spec SSID_MAX_LENGTH (sme_ssid_len sme)); lia. }
    rewrite En.
    destruct (connect_buffer _ _ n Hlen ltac:(subst n; lia) Hsrc)
      as (Hm & Hs & Hok & Hc).
    fold name in Hm, Hs, Hok, Hc.
    set (buf := name ++ NUL :: drop (S n) (connecting_ssid (g_ctx w))) in *.
    pose proof (get_connecting_bssid_found cs (ssid_table w) buf
                  (connecting_bssid (g_ctx w)) I1 I3) as Hb.
    rewrite (is_valid_ssid_contains cs _ _ I1),
      (directory_contains_ext _ buf name Hc),
      (generate_bssid_ext cs buf name Hc) in Hb.
    munfold. mcbn. rewrite Hi. mcbn. rewrite Hm. mcbn.
    rewrite Hs. mcbn. rewrite Hb. mcbn.
    destruct (ws_connect (g_ctx w)) eqn:Hws; mcbn;
      (eexists; split; [reflexivity|]);
      cbn [g_ctx tick ssid_table trace with_ctx with_trace with_tick
           connecting_ssid connecting_bssid ws_connect netintf_list
           set_work_pending set_connecting_bssid set_connecting_ssid negb];
      rewrite <- ?app_assoc; cbn [app]; auto 10. }
  destruct Hrun as (w' & Hrun & Hrest). exists w'.
  split; [exact Hrun|]. split; [|exact Hrest].
  rewrite Hrun in Hpost. exact Hpost.
Qed.

(** The connect work, in full. *)
Lemma owl_connect_routine_run (K : kernel) (cs : bool) (w : world) :
  driver_inv cs w ->
  lock_interrupted K (tick w) = false ->
  exists w',
    owl_connect_routine K cs w = Ok (tt, w')
    /\ trace w' = trace w ++
         [MutexLock;
          (if directory_contains (ssid_table w) (connecting_ssid (g_ctx w))
           then ConnectResult 0%nat None [] [] WLAN_STATUS_SUCCESS
           else ConnectTimeout 0%nat None [] NL80211_TIMEOUT_SCAN);
          MutexUnlock]
    /\ cstr (connecting_ssid (g_ctx w')) = []
    /\ connecting_bssid (g_ctx w') = connecting_bssid (g_ctx w)
    /\ ws_connect (g_ctx w') = ws_connect (g_ctx w).
Proof.
  intros (Hwf & Hbuf & _ & Hifs) Hi.
  destruct (store_nul_0 _ Hbuf) as (buf' & Hst & Hempty & Hok).
  destruct (interfaces_first _ Hifs) as (item & rest & Hlist & Hdev).
  unfold owl_connect_routine, mutex_lock_interruptible.
  munfold. cbn beta iota. rewrite Hi. cbn beta iota.
  cbn [g_ctx ssid_table with_trace with_tick].
  rewrite (is_valid_ssid_contains cs _ _ Hwf), Hlist.
  destruct (directory_contains (ssid_table w) (connecting_ssid (g_ctx w)));
    cbn [negb list_first_entry]; cbn beta iota;
    cbn [g_ctx with_trace with_tick]; rewrite Hst; cbn beta iota;
    (eexists; split; [reflexivity|]);
    cbn [g_ctx trace with_trace with_tick with_ctx connecting_ssid
         connecting_bssid ws_connect set_connecting_ssid];
    rewrite <- !app_assoc, Hdev; auto.
Qed.

(** X8.  A connect request and the work it queues, run one after the
    other on an idle driver: the kernel gets exactly one answer, for
    interface [owl0]: a successful connect result when the directory holds
    the requested SSID (its first [min(ssid_len, 32)] bytes, up to a NUL), a
    connect timeout of reason [NL80211_TIMEOUT_SCAN] otherwise.  The BSSID
    kept is then the one derived from that SSID, or the one of the connect
    before; the SSID buffer is emptied and the work is no longer pending. *)
Theorem connect_then_work (K : kernel) (cs : bool)
  (sme : cfg80211_connect_params) (w : world) :
  let name := take (Nat.min (sme_ssid_len sme) SSID_MAX_LENGTH)
                (sme_ssid sme) in
  driver_inv cs w ->
  ws_connect (g_ctx w) = false ->
  lock_interrupted K (tick w) = false ->
  lock_interrupted K (S (tick w)) = false ->
  (Nat.min (sme_ssid_len sme) SSID_MAX_LENGTH <= length (sme_ssid sme))%nat ->
  exists w',
    run_calls K cs [CallConnect sme; RunWork WsConnect] w = Ok (tt, w')
    /\ trace w' = trace w ++
         [MutexLock; MutexUnlock; ScheduleWork WsConnect true;
          MutexLock;
          (if directory_contains (ssid_table w) name
           then ConnectResult 0%nat None [] [] WLAN_STATUS_SUCCESS
           else ConnectTimeout 0%nat None [] NL80211_TIMEOUT_SCAN);
          MutexUnlock]
    /\ connecting_bssid (g_ctx w')
       = (if directory_contains (ssid_table w) name
          then generate_bssid_with_ssid cs name
          else connecting_bssid (g_ctx w))
    /\ cstr (connecting_ssid (g_ctx w')) = []
    /\ ws_connect (g_ctx w') = false.
Proof.
  intros name Hinv Hidle Hi0 Hi1 Hsrc.
  destruct (owl_connect_run K cs sme w Hinv Hi0 Hsrc)
    as (w1 & Hrun1 & Hinv1 & Ht1 & Htab1 & Htr1 & Hs1 & Hb1 & Hp1 & Hl1).
  fold name in Hs1, Hb1.
  set (w1' := with_ctx (set_work_pending WsConnect false (g_ctx w1)) w1).
  assert (Hinv1' : driver_inv cs w1').
  { apply (driver_inv_frame _ _ _ Hinv1); [tauto|reflexivity..]. }
  destruct (owl_connect_routine_run K cs w1' Hinv1')
    as (w2 & Hrun2 & Htr2 & Hs2 & Hb2 & Hp2).
  { cbn [w1' tick with_ctx]. now rewrite Ht1. }
  exists w2. split.
  - rewrite (run_calls_cons K cs _ _ w w1)
      by (cbn [run_call]; munfold; now rewrite Hrun1).
    rewrite (run_calls_cons K cs _ _ w1 w2)
      by (rewrite run_call_work by exact Hp1; exact Hrun2).
    reflexivity.
  - cbn [w1' g_ctx ssid_table trace with_ctx connecting_ssid connecting_bssid
         ws_connect set_work_pending] in Htr2, Hb2, Hp2.
    rewrite Htab1, (directory_contains_ext _ _ name Hs1) in Htr2.
    rewrite Htr2, Htr1, Hidle, <- app_assoc, Hb2, Hb1, Hp2. auto.
Qed.

Lemma connect_then_work_witness :
  driver_inv false world_scanned
  /\ ws_connect (g_ctx world_scanned) = false
  /\ exists w',
       run_calls kernel_ok false [CallConnect sme_home; RunWork WsConnect]
         world_scanned = Ok (tt, w')
       /\ trace w' = trace world_scanned ++
            [MutexLock; MutexUnlock; ScheduleWork WsConnect true;
             MutexLock;
             ConnectResult 0%nat None [] [] WLAN_STATUS_SUCCESS;
             MutexUnlock]
       /\ connecting_bssid (g_ctx w')
          = generate_bssid_with_ssid false (bytes "MyHomeWiFi")
       /\ cstr (connecting_ssid (g_ctx w')) = []
       /\ ws_connect (g_ctx w') = false.
Proof.
  split; [exact world_scanned_inv|]. split; [reflexivity|].
  exact (connect_then_work kernel_ok false sme_home world_scanned
           world_scanned_inv eq_refl eq_refl eq_refl
           ltac:(vm_compute; lia)).
Defined.

(** X9.  A second connect request that comes before the connect work has
    run is refused with [-EBUSY], but has already overwritten the SSID and
    the BSSID of the first: the work then gives the kernel one answer only,
    and it is the answer for the SSID of the refused request. *)
Theorem connect_twice_one_answer (K : kernel) (cs : bool)
  (sme1 sme2 : cfg80211_connect_params) (w : world) :
  let name2 := take (Nat.min (sme_ssid_len sme2) SSID_MAX_LENGTH)
                 (sme_ssid sme2) in
  driver_inv cs w ->
  ws_connect (g_ctx w) = false ->
  lock_interrupted K (tick w) = false ->
  lock_interrupted K (S (tick w)) = false ->
  lock_interrupted K (S (S (tick w))) = false ->
  (Nat.min (sme_ssid_len sme1) SSID_MAX_LENGTH <= length (sme_ssid sme1))%nat ->
  (Nat.min (sme_ssid_len sme2) SSID_MAX_LENGTH <= length (sme_ssid sme2))%nat ->
  exists w1 w2 w',
    owl_connect K cs sme1 w = Ok (0, w1)
    /\ owl_connect K cs sme2 w1 = Ok (- EBUSY, w2)
    /\ run_call K cs (RunWork WsConnect) w2 = Ok (tt, w')
    /\ trace w' = trace w ++
         [MutexLock; MutexUnlock; ScheduleWork WsConnect true;
          MutexLock; MutexUnlock; ScheduleWork WsConnect false;
          MutexLock;
          (if directory_contains (ssid_table w) name2
           then ConnectResult 0%nat None [] [] WLAN_STATUS_SUCCESS
           else ConnectTimeout 0%nat None [] NL80211_TIMEOUT_SCAN);
          MutexUnlock]
    /\ ws_connect (g_ctx w') = false.
Proof.
  intros name2 Hinv Hidle Hi0 Hi1 Hi2 Hsrc1 Hsrc2.
  destruct (owl_connect_run K cs sme1 w Hinv Hi0 Hsrc1)
    as (w1 & Hrun1 & Hinv1 & Ht1 & Htab1 & Htr1 & _ & _ & Hp1 & _).
  rewrite Hidle in Hrun1, Htr1.
  destruct (owl_connect_run K cs sme2 w1 Hinv1 ltac:(now rewrite Ht1) Hsrc2)
    as (w2 & Hrun2 & Hinv2 & Ht2 & Htab2 & Htr2 & Hs2 & _ & Hp2 & _).
  rewrite Hp1 in Hrun2, Htr2. fold name2 in Hs2.
  set (w2' := with_ctx (set_work_pending WsConnect false (g_ctx w2)) w2).
  assert (Hinv2' : driver_inv cs w2').
  { apply (driver_inv_frame _ _ _ Hinv2); [tauto|reflexivity..]. }
  destruct (owl_connect_routine_run K cs w2' Hinv2')
    as (w3 & Hrun3 & Htr3 & _ & _ & Hp3).
  { cbn [w2' tick with_ctx]. now rewrite Ht2, Ht1. }
  exists w1, w2, w3. split; [exact Hrun1|]. split; [exact Hrun2|].
  split; [rewrite run_call_work by exact Hp2; exact Hrun3|].
  cbn [w2' g_ctx ssid_table trace with_ctx connecting_ssid ws_connect
       set_work_pending] in Htr3, Hp3.
  rewrite Htab2, Htab1, (directory_contains_ext _ _ name2 Hs2) in Htr3.
  rewrite Htr3, Htr2, Htr1, <- !app_assoc. auto.
Qed.

Lemma connect_twice_one_answer_witness :
  driver_inv false world_scanned
  /\ directory_contains (ssid_table world_scanned) (bytes "MyHomeWiFi") = true
  /\ exists w1 w2 w',
       owl_connect kernel_ok false sme_home world_scanned = Ok (0, w1)
       /\ owl_connect kernel_ok false sme_cafe w1 = Ok (- EBUSY, w2)
       /\ run_call kernel_ok false (RunWork WsConnect) w2 = Ok (tt, w')
       /\ trace w' = trace world_scanned ++
            [MutexLock; MutexUnlock; ScheduleWork WsConnect true;
             MutexLock; MutexUnlock; ScheduleWork WsConnect false;
             MutexLock;
             ConnectTimeout 0%nat None [] NL80211_TIMEOUT_SCAN;
             MutexUnlock]
       /\ ws_connect (g_ctx w') = false.
Proof.
  split; [exact world_scanned_inv|]. split; [vm_compute; reflexivity|].
  exact (connect_twice_one_answer kernel_ok false sme_home sme_cafe
           world_scanned world_scanned_inv eq_refl eq_refl eq_refl eq_refl
           ltac:(vm_compute; lia) ltac:(vm_compute; lia)).
Defined.

(** X10.  A disconnect request and the work it queues, run one after the
    other: the kernel is told once that interface [owl0] is disconnected,
    locally generated, with the reason code of the request (its low 16
    bits); afterwards the stored reason code is 0 and the work is no longer
    pending. *)
Theorem disconnect_then_work (K : kernel) (cs : bool) (reason : Z) (w : world) :
  interfaces_ok (netintf_list (g_ctx w)) ->
  ws_disconnect (g_ctx w) = false ->
  lock_interrupted K (tick w) = false ->
  lock_interrupted K (S (tick w)) = false ->
  exists w',
    run_calls K cs [CallDisconnect reason; RunWork WsDisconnect] w
    = Ok (tt, w')
    /\ trace w' = trace w ++
         [MutexLock; MutexUnlock; ScheduleWork WsDisconnect true;
          MutexLock; Disconnected 0%nat (reason mod 2 ^ 16) [] true;
          MutexUnlock]
    /\ disconnect_reason_code (g_ctx w') = 0
    /\ ws_disconnect (g_ctx w') = false
    /\ ssid_table w' = ssid_table w.
Proof.
  intros Hifs Hidle Hi0 Hi1.
  destruct (interfaces_first _ Hifs) as (item & rest & Hlist & Hdev).
  cbn [run_calls run_call work_handler].
  unfold owl_disconnect, owl_disconnect_routine, mutex_lock_interruptible,
    schedule_work, list_first_entry.
  munfold. mcbn. rewrite Hi0. mcbn. rewrite Hidle. mcbn.
  cbn [ws_disconnect]. mcbn. rewrite Hi1. mcbn.
  cbn [netintf_list set_work_pending set_disconnect_reason_code g_ctx
       with_ctx with_trace with_tick].
  rewrite Hlist. mcbn.
  eexists. split; [reflexivity|].
  cbn [g_ctx ssid_table trace with_ctx with_trace with_tick
       disconnect_reason_code ws_disconnect set_disconnect_reason_code
       set_work_pending].
  rewrite <- !app_assoc, Hdev. auto.
Qed.

Lemma disconnect_then_work_witness :
  interfaces_ok (netintf_list (g_ctx world_scanned))
  /\ exists w',
       run_calls kernel_ok false [CallDisconnect 3; RunWork WsDisconnect]
         world_scanned = Ok (tt, w')
       /\ trace w' = trace world_scanned ++
            [MutexLock; MutexUnlock; ScheduleWork WsDisconnect true;
             MutexLock; Disconnected 0%nat 3 [] true; MutexUnlock]
       /\ disconnect_reason_code (g_ctx w') = 0
       /\ ws_disconnect (g_ctx w') = false
       /\ ssid_table w' = ssid_table world_scanned.
Proof.
  pose proof world_scanned_inv as (_ & _ & _ & Hifs).
  split; [exact Hifs|].
  exact (disconnect_then_work kernel_ok false 3 world_scanned Hifs
           eq_refl eq_refl eq_refl).
Defined.

(** ** Scans *)

(** X13.  In every state the driver reaches from module load, a scan
    request is refused with [-EBUSY] only while an earlier scan is in
    flight: when [scan_request] is null the scan-start work is never
    pending, so [schedule_work] cannot refuse it and [owl_scan] stores the
    request, queues the work and returns 0. *)
Theorem owl_scan_busy_iff_in_flight (K : kernel) (cs : bool)
  (raw ctx : owl_context) (param : list char) (ks : list call)
  (w : world) (request : nat) :
  vwifi_init (owl_create_context raw) = Ok ctx ->
  run_calls K cs ks (boot param ctx) = Ok (tt, w) ->
  lock_interrupted K (tick w) = false ->
  exists w',
    owl_scan K request w
    = Ok (match scan_request (g_ctx w) with
          | Some _ => - EBUSY
          | None => 0
          end, w')
    /\ (scan_request (g_ctx w) = None ->
        scan_request (g_ctx w') = Some request
        /\ ws_scan (g_ctx w') = true
        /\ trace w' = trace w ++
             [MutexLock; MutexUnlock; ScheduleWork WsScan true]).
Proof.
  intros Hinit Hrun Hi.
  pose proof (run_calls_scan_inv K cs ks _ (boot_scan_inv param raw ctx Hinit))
    as Hinv.
  rewrite Hrun in Hinv. destruct Hinv as [_ Hst].
  unfold scan_stages, scan_in_flight in Hst.
  unfold owl_scan, mutex_lock_interruptible, schedule_work.
  munfold. mcbn. rewrite Hi. mcbn.
  destruct (scan_request (g_ctx w)) as [r|] eqn:Hreq; mcbn.
  - eexists. split; [reflexivity|]. discriminate.
  - destruct (ws_scan (g_ctx w)); [cbn in Hst; lia|]. mcbn.
    eexists. split; [reflexivity|]. intros _.
    cbn [g_ctx trace with_ctx with_trace with_tick scan_request ws_scan
         set_scan_request set_work_pending].
    rewrite <- !app_assoc. auto.
Qed.

Lemma owl_scan_busy_iff_in_flight_witness :
  vwifi_init (owl_create_context raw_context)
  = Ok (ctx_of (vwifi_init (owl_create_context raw_context)))
  /\ run_calls kernel_ok false calls_scan world_boot = Ok (tt, world_scanned)
  /\ exists w',
       owl_scan kernel_ok 2 world_scanned = Ok (0, w')
       /\ (scan_request (g_ctx world_scanned) = None ->
           scan_request (g_ctx w') = Some 2%nat
           /\ ws_scan (g_ctx w') = true
           /\ trace w' = trace world_scanned ++
                [MutexLock; MutexUnlock; ScheduleWork WsScan true]).
Proof.
  split; [reflexivity|]. split; [exact world_scanned_run|].
  exact (owl_scan_busy_iff_in_flight kernel_ok false raw_context
           (ctx_of (vwifi_init (owl_create_context raw_context)))
           DEFAULT_SSID_LIST calls_scan world_scanned 2 eq_refl
           world_scanned_run eq_refl).
Defined.

Ltac wedged_close :=
  cbn [post_ok]; try exact I;
  unfold scan_wedged in *;
  cbn [g_ctx trace with_ctx with_tick with_trace with_table scan_request
       scan_timeout ws_scan ws_scan_timeout set_scan_request
       set_scan_timeout set_work_pending set_connecting_ssid
       set_connecting_bssid set_disconnect_reason_code set_netintf_list] in *;
  rewrite ?count_events_app in *;
  cbn [count_events List.filter length is_scan_done] in *;
  try (intuition (try congruence; lia)).

Lemma run_call_wedged (K : kernel) (cs : bool) (k : call) (w : world)
  (r done : nat) :
  scan_wedged r done w -> post_ok (scan_wedged r done) (run_call K cs k w).
Proof.
  intros Hw. pose proof Hw as (Hreq & Hws & Hto & Hwt & Hdone).
  destruct k as [request|sme|reason| |skb dev|dev|wk| |param];
    cbn [run_call].
  - unfold owl_scan, mutex_lock_interruptible, schedule_work.
    munfold. mcbn.
    destruct (lock_interrupted K (tick w)); mcbn; rewrite ?Hreq; mcbn;
      wedged_close.
  - unfold owl_connect, mutex_lock_interruptible, schedule_work.
    munfold. mrun; wedged_close.
  - unfold owl_disconnect, mutex_lock_interruptible, schedule_work.
    munfold. mrun; wedged_close.
  - exact Hw.
  - unfold owl_ndo_start_xmit, owl_handle_rx, update_priv,
      ndev_get_owl_context, list_last_entry, list_first_entry.
    munfold. mrun; wedged_close.
  - unfold owl_ndo_stop, update_priv. munfold. mrun; wedged_close.
  - munfold. mcbn. destruct wk; cbn [work_pending work_handler];
      rewrite ?Hws, ?Hwt; try exact Hw.
    + unfold owl_connect_routine, mutex_lock_interruptible, list_first_entry.
      munfold. mrun; wedged_close.
    + unfold owl_disconnect_routine, mutex_lock_interruptible,
        list_first_entry.
      munfold. mrun; wedged_close.
  - munfold. mcbn. rewrite Hto. exact Hw.
  - munfold. mcbn. exact Hw.
Qed.

Lemma run_calls_wedged (K : kernel) (cs : bool) (ks : list call)
  (r done : nat) :
  forall w : world,
    scan_wedged r done w -> post_ok (scan_wedged r done) (run_calls K cs ks w).
Proof.
  induction ks as [|k ks IH]; intros w Hw; [exact Hw|].
  cbn [run_calls]. pose proof (run_call_wedged K cs k w r done Hw) as Hk.
  munfold. destruct (run_call K cs k w) as [[[] w1]|f]; cbn [post_ok] in Hk.
  - apply IH, Hk.
  - exact I.
Qed.

(** X12.  A scan whose completion work is interrupted while it waits for
    the mutex never completes.  The work returns without the scan-done
    upcall and leaves [scan_request] set, with no work pending and no timer
    armed; from then on, whatever is called, the request stays stored, no
    scan-done upcall is made, and every scan request whose wait for the
    mutex is not interrupted is refused with [-EBUSY]. *)
Theorem scan_wedged_forever (K : kernel) (cs : bool) :
  (forall (w w1 : world) (r : nat),
     scan_request (g_ctx w) = Some r ->
     ws_scan (g_ctx w) = false ->
     scan_timeout (g_ctx w) = None ->
     ws_scan_timeout (g_ctx w) = true ->
     inform_dummy_bss K cs
       (with_ctx (set_work_pending WsScanTimeout false (g_ctx w)) w)
     = Ok (tt, w1) ->
     lock_interrupted K (tick w1) = true ->
     exists w',
       run_call K cs (RunWork WsScanTimeout) w = Ok (tt, w')
       /\ scan_wedged r (count_events is_scan_done (trace w)) w')
  /\ (forall (K' : kernel) (ks : list call) (w w' : world) (r done : nat),
        scan_wedged r done w ->
        run_calls K' cs ks w = Ok (tt, w') ->
        scan_wedged r done w'
        /\ forall request,
             lock_interrupted K' (tick w') = false ->
             exists w'', owl_scan K' request w' = Ok (- EBUSY, w'')).
Proof.
  split.
  - intros w w1 r Hreq Hws Hto Hwt Hinf Hi.
    rewrite run_call_work by exact Hwt. cbn [work_handler].
    destruct (inform_dummy_bss_inv K cs _ w1 Hinf)
      as (Hctx & _ & _ & evs & Htr & _ & Hrep).
    cbn [g_ctx trace with_ctx] in Hctx, Htr.
    unfold owl_scan_timeout_work, mutex_lock_interruptible.
    munfold. cbn beta iota. rewrite Hinf. cbn beta iota. rewrite Hi.
    cbn beta iota. eexists. split; [reflexivity|].
    unfold scan_wedged. cbn [g_ctx trace with_tick].
    rewrite Hctx, Htr, count_events_app.
    rewrite (count_events_none is_scan_done is_scan_report evs);
      [|now intros []|exact Hrep].
    cbn [scan_request ws_scan scan_timeout ws_scan_timeout set_work_pending].
    auto with lia.
  - intros K' ks w w' r done Hw Hrun.
    pose proof (run_calls_wedged K' cs ks r done w Hw) as Hpost.
    rewrite Hrun in Hpost. split; [exact Hpost|].
    intros request Hi. destruct Hpost as (Hreq & _).
    unfold owl_scan, mutex_lock_interruptible. munfold. cbn beta iota.
    rewrite Hi. cbn beta iota. cbn [g_ctx with_trace with_tick].
    rewrite Hreq. cbn beta iota. eauto.
Qed.

Lemma scan_wedged_forever_witness :
  (scan_request (g_ctx world_scan_due) = Some 1%nat
   /\ ws_scan_timeout (g_ctx world_scan_due) = true
   /\ run_call (kernel_failing 5) false (RunWork WsScanTimeout) world_scan_due
      = Ok (tt, world_wedged)
   /\ scan_wedged 1 0 world_wedged)
  /\ (run_calls kernel_ok false calls_scan world_wedged
      = Ok (tt, world_of world_wedged
                  (run_calls kernel_ok false calls_scan world_wedged))
      /\ scan_wedged 1 0
           (world_of world_wedged
              (run_calls kernel_ok false calls_scan world_wedged))
      /\ exists w'',
           owl_scan kernel_ok 3
             (world_of world_wedged
                (run_calls kernel_ok false calls_scan world_wedged))
           = Ok (- EBUSY, w'')).
Proof.
  pose proof (scan_wedged_forever (kernel_failing 5) false) as [Ha Hb].
  assert (Hw : scan_wedged 1 0 world_wedged).
  { destruct (Ha world_scan_due
                (world_of world_scan_due
                   (inform_dummy_bss (kernel_failing 5) false
                      (with_ctx (set_work_pending WsScanTimeout false
                                   (g_ctx world_scan_due)) world_scan_due)))
                1%nat eq_refl eq_refl eq_refl eq_refl
                ltac:(vm_compute; reflexivity) ltac:(vm_compute; reflexivity))
      as (w' & Hrun & Hwedged).
    assert (E : w' = world_wedged).
    { unfold world_wedged. now rewrite Hrun. }
    rewrite <- E. exact Hwedged. }
  split.
  - split; [reflexivity|]. split; [reflexivity|].
    split; [vm_compute; reflexivity|exact Hw].
  - assert (Hrun : run_calls kernel_ok false calls_scan world_wedged
                   = Ok (tt, world_of world_wedged
                               (run_calls kernel_ok false calls_scan
                                  world_wedged)))
      by (vm_compute; reflexivity).
    split; [exact Hrun|].
    destruct (Hb kernel_ok calls_scan world_wedged _ 1%nat 0%nat Hw Hrun)
      as [H1 H2].
    split; [exact H1|]. exact (H2 3%nat eq_refl).
Defined.

(** ** Scan reports *)

Lemma take_strlen (s : list char) : take (strlen s) s = cstr s.
Proof.
  unfold strlen. induction s as [|c s IH]; [reflexivity|].
  cbn [cstr]. destruct (is_nul c); [reflexivity|].
  cbn [length take]. now rewrite IH.
Qed.

Lemma hash_empty_entries (t : hashtable) :
  hash_empty t = true -> hash_entries t = [].
Proof.
  unfold hash_empty, hash_entries. generalize (seq 0 HASH_SIZE).
  intros l. induction l as [|bkt l IH]; [reflexivity|].
  cbn [forallb flat_map]. intros H. apply andb_prop in H as [H1 H2].
  destruct (t !!! bkt); [|discriminate]. now apply IH.
Qed.

(** One report per entry, in the order of the walk. *)
Lemma inform_each_reports (K : kernel) (aps : list ap_info_entry_t) :
  forall w w' : world,
    Forall (fun ap => (strlen (ssid ap) < SSID_MAX_LENGTH)%nat) aps ->
    inform_each K aps w = Ok (tt, w') ->
    exists evs, trace w' = trace w ++ evs
                /\ map bss_report evs = map report_of aps.
Proof.
  induction aps as [|ap aps IH]; intros w w' Hlen H.
  - inversion H; subst. exists []. now rewrite app_nil_r.
  - cbn [inform_each] in H. munfold. cbn beta iota in H.
    cbn [tick with_tick] in H.
    destruct (alloc_ok K (S (tick w))); cbn [negb] in H; [|discriminate].
    cbn beta iota in H. apply Forall_cons in Hlen as [Hap Hlen].
    apply (IH _ _ Hlen) in H as (evs & Htr & Hmap).
    cbn [trace with_trace with_tick] in Htr. rewrite <- app_assoc in Htr.
    cbn [app] in Htr. eexists. split; [exact Htr|].
    cbn [map bss_report]. rewrite Hmap. f_equal.
    unfold report_of, ssid_ie. rewrite take_strlen. unfold u8, strlen in *.
    rewrite Z.mod_small; [reflexivity|]. unfold SSID_MAX_LENGTH in Hap. lia.
Qed.

Lemma table_wf_strlen (cs : bool) (t : hashtable) :
  table_wf cs t ->
  Forall (fun ap => (strlen (ssid ap) < SSID_MAX_LENGTH)%nat) (hash_entries t).
Proof.
  intros Hwf. apply Forall_forall. intros ap Hin.
  apply list_elem_of_In in Hin.
  unfold hash_entries in Hin. apply in_flat_map in Hin as (bkt & _ & Hin).
  now destruct (Hwf bkt ap Hin) as (_ & _ & _ & H).
Qed.

Lemma inform_dummy_bss_reports (K : kernel) (cs : bool) (w w' : world) :
  table_wf cs (ssid_table w) ->
  inform_dummy_bss K cs w = Ok (tt, w') ->
  exists errs reports,
    trace w' = trace w ++ errs ++ reports
    /\ forallb is_pr_err errs = true
    /\ map bss_report reports = map report_of (hash_entries (ssid_table w')).
Proof.
  intros Hwf H. unfold inform_dummy_bss, update_ssids in H. munfold.
  destruct (update_ssids_loop K cs _ (ssid_list w) w) as [[[] w1]|f] eqn:Hup;
    [|discriminate].
  apply update_ssids_loop_inv in Hup as (_ & _ & Hwf1 & errs & Htr1 & Herrs).
  specialize (Hwf1 Hwf). exists errs.
  destruct (hash_empty (ssid_table w1)) eqn:Hempty.
  - inversion H; subst. exists [].
    rewrite app_nil_r, (hash_empty_entries _ Hempty). auto.
  - pose proof (inform_each_inv K _ _ _ H) as (_ & _ & Htab & _).
    apply inform_each_reports in H as (reports & Htr & Hmap);
      [|now apply (table_wf_strlen cs)].
    exists reports. rewrite Htr, Htr1, <- app_assoc, Htab. auto.
Qed.

(** X16.  The reports of a scan are the table: a completed
    [inform_dummy_bss] adds to the trace the allocation failures of its
    load, if any, and then exactly one BSS report for each entry the table
    holds after the load, in the order of the chains: with the entry's
    BSSID, capability ESS, beacon interval 100, and as only information
    element the SSID element (identifier 0, the length of the SSID, its
    bytes). *)
Theorem scan_reports_the_table (K : kernel) (cs : bool) (w w' : world) :
  table_wf cs (ssid_table w) ->
  inform_dummy_bss K cs w = Ok (tt, w') ->
  exists errs reports,
    trace w' = trace w ++ errs ++ reports
    /\ forallb is_pr_err errs = true
    /\ map bss_report reports = map report_of (hash_entries (ssid_table w')).
Proof. apply inform_dummy_bss_reports. Qed.

Lemma scan_reports_the_table_witness :
  table_wf false (ssid_table world_scan_due)
  /\ map ssid_ie [bytes "AB"] = [[0; 2; 65; 66]]
  /\ exists w' errs reports,
       inform_dummy_bss kernel_ok false world_scan_due = Ok (tt, w')
       /\ trace w' = trace world_scan_due ++ errs ++ reports
       /\ forallb is_pr_err errs = true
       /\ map bss_report reports
          = [Some (generate_bssid_with_ssid false (bytes "MyHomeWiFi"),
                   WLAN_CAPABILITY_ESS, 100, ssid_ie (bytes "MyHomeWiFi"))].
Proof.
  assert (Hwf : table_wf false (ssid_table world_scan_due))
    by exact (table_wf_empty false).
  split; [exact Hwf|]. split; [reflexivity|].
  destruct (scan_reports_the_table kernel_ok false world_scan_due _ Hwf
              world_scan_due_reports) as (errs & reports & H1 & H2 & H3).
  eexists. exists errs, reports. split; [exact world_scan_due_reports|].
  split; [exact H1|]. split; [exact H2|]. rewrite H3.
  vm_compute. reflexivity.
Defined.

(** X17.  [inform_dummy_bss] uses the buffer of the information element
    without checking the allocation: when the load leaves a table that is
    not empty and the kernel has no memory for the element of the first
    entry, the scan-complete work writes through a null pointer. *)
Theorem inform_dummy_bss_null_ie (K : kernel) (cs : bool) (w w1 : world) :
  update_ssids K cs (ssid_list w) w = Ok (tt, w1) ->
  hash_empty (ssid_table w1) = false ->
  alloc_ok K (S (tick w1)) = false ->
  inform_dummy_bss K cs w = Fault (NullDeref "ie")
  /\ owl_scan_timeout_work K cs w = Fault (NullDeref "ie").
Proof.
  intros Hup Hne Halloc.
  assert (Hinf : inform_dummy_bss K cs w = Fault (NullDeref "ie")).
  { unfold inform_dummy_bss. munfold. rewrite Hup. cbn beta iota.
    rewrite Hne.
    destruct (hash_entries (ssid_table w1)) as [|ap aps] eqn:Hent.
    - exfalso. revert Hne Hent. unfold hash_empty, hash_entries.
      generalize (seq 0 HASH_SIZE). intros l.
      induction l as [|bkt l IH]; [discriminate|].
      cbn [forallb flat_map]. intros Hne Hent.
      apply app_eq_nil in Hent as [Hb Hent]. rewrite Hb in Hne.
      now apply IH.
    - cbn [inform_each]. munfold. cbn beta iota. cbn [tick with_tick].
      now rewrite Halloc. }
  split; [exact Hinf|].
  unfold owl_scan_timeout_work. munfold. now rewrite Hinf.
Qed.

Lemma inform_dummy_bss_null_ie_witness :
  update_ssids (kernel_failing 3) false (ssid_list world_scan_due)
    world_scan_due
  = Ok (tt, world_of world_scan_due
              (update_ssids (kernel_failing 3) false
                 (ssid_list world_scan_due) world_scan_due))
  /\ inform_dummy_bss (kernel_failing 3) false world_scan_due
     = Fault (NullDeref "ie")
  /\ owl_scan_timeout_work (kernel_failing 3) false world_scan_due
     = Fault (NullDeref "ie").
Proof.
  assert (Hup : update_ssids (kernel_failing 3) false
                  (ssid_list world_scan_due) world_scan_due
                = Ok (tt, world_of world_scan_due
                            (update_ssids (kernel_failing 3) false
                               (ssid_list world_scan_due) world_scan_due)))
    by (vm_compute; reflexivity).
  split; [exact Hup|].
  exact (inform_dummy_bss_null_ie (kernel_failing 3) false world_scan_due _
           Hup ltac:(vm_compute; reflexivity) ltac:(vm_compute; reflexivity)).
Defined.

Lemma update_ssids_loop_quiet (K : kernel) (cs : bool) (fuel : nat) :
  (forall t, alloc_ok K t = true) ->
  forall (s : list char) (w w' : world),
    update_ssids_loop K cs fuel s w = Ok (tt, w') -> trace w' = trace w.
Proof.
  intros Hmem. induction fuel as [|fuel IH]; intros s w w' H; [discriminate|].
  rewrite update_ssids_loop_step in H.
  destruct (is_nul (hd NUL s)); [now inversion H|].
  cbv zeta in H.
  destruct (_ =? 0)%nat; [eauto|].
  destruct (SSID_MAX_LENGTH <=? _)%nat; [discriminate|].
  destruct (existsb _ _); [eauto|].
  rewrite Hmem in H. now apply IH in H.
Qed.

Lemma inform_each_total (K : kernel) (aps : list ap_info_entry_t) :
  (forall t, alloc_ok K t = true) ->
  forall w : world, exists w', inform_each K aps w = Ok (tt, w').
Proof.
  intros Hmem. induction aps as [|ap aps IH]; intros w; [now eexists|].
  cbn [inform_each]. munfold. cbn beta iota. cbn [tick with_tick].
  rewrite Hmem. cbn [negb]. cbn beta iota. apply IH.
Qed.

(** With memory at hand and a parameter of short tokens the scan report
    runs to its end. *)
Lemma inform_dummy_bss_total (K : kernel) (cs : bool) (w : world) :
  (forall t, alloc_ok K t = true) ->
  (forall k, (strcspn (drop k (ssid_list w)) delims < SSID_MAX_LENGTH)%nat) ->
  table_wf cs (ssid_table w) ->
  exists w1 reports,
    inform_dummy_bss K cs w = Ok (tt, w1)
    /\ g_ctx w1 = g_ctx w
    /\ trace w1 = trace w ++ reports
    /\ map bss_report reports = map report_of (hash_entries (ssid_table w1)).
Proof.
  intros Hmem Hshort Hwf.
  destruct (update_ssids_loop_short_tokens K cs (length (ssid_list w) + 2)
              (ssid_list w) w ltac:(lia) Hshort) as (w0 & Hup).
  pose proof (update_ssids_loop_quiet K cs _ Hmem _ _ _ Hup) as Hq.
  assert (Hrun : exists w1, inform_dummy_bss K cs w = Ok (tt, w1)).
  { unfold inform_dummy_bss, update_ssids. munfold. rewrite Hup.
    cbn beta iota. destruct (hash_empty (ssid_table w0)); [now eexists|].
    apply inform_each_total, Hmem. }
  destruct Hrun as (w1 & Hrun).
  destruct (inform_dummy_bss_inv K cs _ _ Hrun) as (Hctx & _).
  destruct (inform_dummy_bss_reports K cs _ _ Hwf Hrun)
    as (errs & reports & Htr & _ & Hmap).
  exists w1, reports. split; [exact Hrun|]. split; [exact Hctx|].
  split; [|exact Hmap].
  assert (Herrs : errs = []).
  { unfold inform_dummy_bss, update_ssids in Hrun. munfold.
    rewrite Hup in Hrun. cbn beta iota in Hrun.
    destruct (hash_empty (ssid_table w0)).
    - inversion Hrun; subst. rewrite Hq in Htr.
      apply (f_equal (@length event)) in Htr.
      rewrite !length_app in Htr. destruct errs; [reflexivity|].
      cbn [length] in Htr. lia.
    - apply inform_each_inv in Hrun as (_ & _ & Htab & evs & Htr' & _ & _ & Hl).
      pose proof (f_equal (@length (option (list Z * Z * Z * list Z))) Hmap)
        as Hlen.
      rewrite !length_map, Htab in Hlen.
      rewrite Htr', Hq in Htr. apply app_inv_head in Htr.
      apply (f_equal (@length event)) in Htr. rewrite length_app in Htr.
      destruct errs; [reflexivity|]. cbn [length] in Htr. lia. }
  now rewrite Htr, Herrs.
Qed.

(** X11.  One scan from request to completion, on an idle driver, with a
    kernel that never interrupts a wait nor refuses memory and a parameter
    of short tokens: request, scan-start work, timer expiry and
    scan-complete work, run in this order, queue the work, arm the timer
    for 100 ms, queue the completion, report every entry of the table once,
    and make one scan-done upcall for the request, not aborted.  Afterwards
    no request is stored and nothing is pending: the driver is idle
    again. *)
Theorem scan_lifecycle (K : kernel) (cs : bool) (request : nat) (w : world) :
  (forall t, lock_interrupted K t = false) ->
  (forall t, alloc_ok K t = true) ->
  (forall k, (strcspn (drop k (ssid_list w)) delims < SSID_MAX_LENGTH)%nat) ->
  table_wf cs (ssid_table w) ->
  scan_request (g_ctx w) = None ->
  ws_scan (g_ctx w) = false ->
  scan_timeout (g_ctx w) = None ->
  ws_scan_timeout (g_ctx w) = false ->
  exists w' reports,
    run_calls K cs
      [CallScan request; RunWork WsScan; TimerFires; RunWork WsScanTimeout] w
    = Ok (tt, w')
    /\ trace w' = trace w ++
         [MutexLock; MutexUnlock; ScheduleWork WsScan true;
          ModTimer SCAN_TIMEOUT_MS; ScheduleWork WsScanTimeout true]
         ++ reports ++
         [MutexLock; ScanDone (Some request) false; MutexUnlock]
    /\ map bss_report reports = map report_of (hash_entries (ssid_table w'))
    /\ scan_request (g_ctx w') = None
    /\ ws_scan (g_ctx w') = false
    /\ scan_timeout (g_ctx w') = None
    /\ ws_scan_timeout (g_ctx w') = false.
Proof.
  intros Hlock Hmem Hshort Hwf Hreq Hws Hto Hwt.
  cbn [run_calls run_call work_handler].
  unfold owl_scan, owl_scan_routine, owl_scan_timeout, owl_scan_timeout_work,
    mutex_lock_interruptible, schedule_work.
  munfold. mcbn. rewrite Hlock. mcbn. rewrite Hreq. mcbn. rewrite Hws. mcbn.
  rewrite Hwt. mcbn.
  match goal with
  | |- context [inform_dummy_bss K cs ?W] =>
      destruct (inform_dummy_bss_total K cs W Hmem Hshort Hwf)
        as (w1 & reports & Hinf & Hctx & Htr & Hmap);
      rewrite Hinf
  end.
  mcbn. rewrite Hlock. mcbn.
  eexists. exists reports. split; [reflexivity|].
  cbn [g_ctx ssid_table trace with_ctx with_trace with_tick scan_request
       ws_scan scan_timeout ws_scan_timeout set_scan_request] in *.
  rewrite Hctx, Htr.
  cbn [scan_request ws_scan scan_timeout ws_scan_timeout set_scan_request
       set_scan_timeout set_work_pending].
  rewrite <- !app_assoc. cbn [app]. rewrite ?Hws. auto 10.
Qed.

Lemma scan_lifecycle_witness :
  (forall k, (strcspn (drop k (ssid_list world_boot)) delims
              < SSID_MAX_LENGTH)%nat)
  /\ exists w' reports,
       run_calls kernel_ok false
         [CallScan 1; RunWork WsScan; TimerFires; RunWork WsScanTimeout]
         world_boot = Ok (tt, w')
       /\ trace w' = trace world_boot ++
            [MutexLock; MutexUnlock; ScheduleWork WsScan true;
             ModTimer SCAN_TIMEOUT_MS; ScheduleWork WsScanTimeout true]
            ++ reports ++
            [MutexLock; ScanDone (Some 1%nat) false; MutexUnlock]
       /\ map bss_report reports
          = map report_of (hash_entries (ssid_table w'))
       /\ scan_request (g_ctx w') = None
       /\ ws_scan (g_ctx w') = false
       /\ scan_timeout (g_ctx w') = None
       /\ ws_scan_timeout (g_ctx w') = false.
Proof.
  assert (H : forall k,
             (strcspn (drop k (ssid_list world_boot)) delims
              < SSID_MAX_LENGTH)%nat).
  { intros k.
    pose proof (strcspn_le (drop k (ssid_list world_boot)) delims) as Hle.
    rewrite length_drop in Hle.
    change (length (ssid_list world_boot)) with 12%nat in Hle.
    unfold SSID_MAX_LENGTH. lia. }
  split; [exact H|].
  exact (scan_lifecycle kernel_ok false 1 world_boot
           (fun _ => eq_refl) (fun _ => eq_refl) H (table_wf_empty false)
           eq_refl eq_refl eq_refl eq_refl).
Defined.

(** ** The data path at its edges *)

(** X14.  A frame longer than [ETH_DATA_LEN] = 1500 bytes is copied whole
    into the 1500-byte array [pkt->data]: when the packet is allocated,
    [owl_ndo_start_xmit] writes past the end of the array, whatever the
    device and the state of the driver.  (A full Ethernet frame at the
    MTU of 1500 has a 14-byte header on top.) *)
Theorem xmit_oversize_frame (K : kernel) (B : list char) (dev : net_device)
  (w : world) :
  (ETH_DATA_LEN < length B)%nat ->
  alloc_ok K (tick w) = true ->
  owl_ndo_start_xmit K B dev w
  = Fault (OutOfBounds "pkt->data" (length B) ETH_DATA_LEN).
Proof.
  intros Hlen Halloc. unfold owl_ndo_start_xmit, update_priv. munfold.
  cbn beta iota. cbn [tick with_ctx]. rewrite Halloc. cbn [negb].
  cbn beta iota. unfold memcpy. rewrite Nat.leb_refl, length_replicate.
  destruct (Nat.leb_spec (length B) ETH_DATA_LEN); [lia|reflexivity].
Qed.

Lemma xmit_oversize_frame_witness :
  (ETH_DATA_LEN < length (replicate 1514 "x"%byte))%nat
  /\ owl_ndo_start_xmit kernel_ok (replicate 1514 "x"%byte) 0%nat world_boot
     = Fault (OutOfBounds "pkt->data" 1514 ETH_DATA_LEN).
Proof.
  assert (H : (ETH_DATA_LEN < length (replicate 1514 "x"%byte))%nat)
    by (vm_compute; lia).
  split; [exact H|].
  exact (xmit_oversize_frame kernel_ok (replicate 1514 "x"%byte) 0%nat
           world_boot H eq_refl).
Defined.

(** X15.  When the packet cannot be allocated, [owl_ndo_start_xmit] still
    returns [NETDEV_TX_OK] and has counted the frame as sent on its
    device; it logs the failure and does nothing else: nothing is queued
    or delivered, and the [skb], which the callback owns, is not
    freed. *)
Theorem xmit_without_memory (K : kernel) (B : list char) (dev : net_device)
  (w : world) :
  alloc_ok K (tick w) = false ->
  exists w',
    owl_ndo_start_xmit K B dev w = Ok (NETDEV_TX_OK, w')
    /\ trace w' = trace w ++ [Printk "Ran out of memory allocating packet pool"]
    /\ netintf_list (g_ctx w')
       = map (sent_on dev (length B)) (netintf_list (g_ctx w))
    /\ map rx_queue (netintf_list (g_ctx w'))
       = map rx_queue (netintf_list (g_ctx w))
    /\ ssid_table w' = ssid_table w.
Proof.
  intros Halloc. unfold owl_ndo_start_xmit, update_priv. munfold.
  cbn beta iota. cbn [tick with_ctx]. rewrite Halloc. cbn [negb].
  cbn beta iota. eexists. split; [reflexivity|].
  cbn [g_ctx trace ssid_table with_ctx with_tick with_trace netintf_list
       set_netintf_list].
  split; [reflexivity|]. split; [reflexivity|]. split; [|reflexivity].
  rewrite map_map. apply map_ext. intros np.
  destruct (ndev np =? dev)%nat; reflexivity.
Qed.

Lemma xmit_without_memory_witness :
  alloc_ok (kernel_failing 0) (tick world_boot) = false
  /\ exists w',
       owl_ndo_start_xmit (kernel_failing 0) (bytes "hello") 1%nat world_boot
       = Ok (NETDEV_TX_OK, w')
       /\ trace w' = trace world_boot ++
            [Printk "Ran out of memory allocating packet pool"]
       /\ netintf_list (g_ctx w')
          = map (sent_on 1%nat (length (bytes "hello")))
              (netintf_list (g_ctx world_boot))
       /\ map rx_queue (netintf_list (g_ctx w'))
          = map rx_queue (netintf_list (g_ctx world_boot))
       /\ ssid_table w' = ssid_table world_boot.
Proof.
  split; [reflexivity|].
  exact (xmit_without_memory (kernel_failing 0) (bytes "hello") 1%nat
           world_boot eq_refl).
Defined.

(** ** owl_ndo_open *)

(** X18.  Opening an interface gives it the hardware address made of a
    zero byte and the first five bytes of its name, padded with zero bytes;
    the rest of [dev_addr] is untouched and the call returns 0.  The
    address is therefore unicast, and two interfaces whose names agree in
    their first five bytes get the same address. *)
Theorem owl_ndo_open_address (name dev_addr : list char) :
  (ETH_ALEN <= length dev_addr)%nat ->
  (exists addr,
     owl_ndo_open name dev_addr = Ok (addr, 0)
     /\ take ETH_ALEN addr = NUL :: take 5 (cstr name ++ replicate 5 NUL)
     /\ drop ETH_ALEN addr = drop ETH_ALEN dev_addr
     /\ length addr = length dev_addr)
  /\ (forall name',
        take 5 (cstr name') = take 5 (cstr name) ->
        owl_ndo_open name' dev_addr = owl_ndo_open name dev_addr).
Proof.
  intros Hlen. unfold owl_ndo_open, snprintf_s, ETH_ALEN in *.
  cbn [Nat.add replicate drop take].
  assert (Hout : forall n : list char,
             (length (take 5 (cstr n) ++ [NUL]) <= 6)%nat).
  { intros n. rewrite length_app, length_take. cbn [length]. lia. }
  split.
  - set (out := take 5 (cstr name) ++ [NUL]).
    pose proof (Hout name) as Ho. fold out in Ho.
    change (length [NUL; NUL; NUL; NUL; NUL; NUL]) with 6%nat.
    destruct (Nat.leb_spec (length out) 6) as [_|]; [|lia].
    unfold memcpy.
    set (tail := out ++ drop (length out) [NUL; NUL; NUL; NUL; NUL; NUL]).
    assert (Htail : length tail = 6%nat).
    { subst tail. rewrite length_app, length_drop. cbn [length]. lia. }
    assert (Etail : tail = take 5 (cstr name ++ replicate 5 NUL) ++ [NUL]).
    { subst tail out.
      destruct (cstr name) as [|c1 [|c2 [|c3 [|c4 [|c5 rest]]]]];
        reflexivity. }
    cbn [app length]. rewrite Htail.
    destruct (Nat.leb_spec 6 7) as [_|]; [|lia].
    destruct (Nat.leb_spec 6 (length dev_addr)) as [_|]; [|lia].
    eexists. split; [reflexivity|].
    assert (Hpre : length (take 6 (NUL :: tail)) = 6%nat).
    { rewrite length_take. cbn [length]. lia. }
    split; [|split].
    + rewrite take_app_length' by (symmetry; exact Hpre).
      rewrite Etail.
      assert (Hl : length (take 5 (cstr name ++ replicate 5 NUL)) = 5%nat).
      { rewrite length_take, length_app, length_replicate. lia. }
      change (take 6 (NUL :: ?l)) with (NUL :: take 5 l).
      cbn [take]. f_equal.
      now rewrite take_app_length' by (symmetry; exact Hl).
    + now rewrite drop_app_length' by (symmetry; exact Hpre).
    + rewrite length_app, length_drop, Hpre. lia.
  - intros name' Heq. now rewrite Heq.
Qed.

Lemma owl_ndo_open_address_witness :
  (ETH_ALEN <= length (replicate 32 "U"%byte))%nat
  /\ (exists addr,
        owl_ndo_open (bytes "owl0sink") (replicate 32 "U"%byte) = Ok (addr, 0)
        /\ take ETH_ALEN addr = NUL :: bytes "owl0s"
        /\ drop ETH_ALEN addr = replicate 26 "U"%byte
        /\ length addr = 32%nat)
  /\ owl_ndo_open (bytes "owl0station") (replicate 32 "U"%byte)
     = owl_ndo_open (bytes "owl0sink") (replicate 32 "U"%byte)
  /\ exists addr,
       owl_ndo_open (bytes "owl0") (replicate 32 "U"%byte) = Ok (addr, 0)
       /\ take ETH_ALEN addr = NUL :: bytes "owl0" ++ [NUL].
Proof.
  assert (H : (ETH_ALEN <= length (replicate 32 "U"%byte))%nat)
    by (vm_compute; lia).
  split; [exact H|].
  destruct (owl_ndo_open_address (bytes "owl0sink") (replicate 32 "U"%byte) H)
    as [H1 H2].
  split; [exact H1|]. split; [apply H2; reflexivity|].
  eexists. split; vm_compute; reflexivity.
Defined.

(** ** What holds between calls *)

(** X19.  Between any two calls the driver is in order: after every run
    from module load that ends without a fault, the interface list holds
    [owl0] and [owl0sink] and nothing else, both receive queues are empty
    (a frame queued by a transmit is consumed before the transmit
    returns), and every table entry hangs on the chain of its SSID with an
    SSID of less than 32 bytes and the BSSID derived from it. *)
Theorem driver_in_order_between_calls (K : kernel) (cs : bool)
  (raw : owl_context) (param : list char) (ks : list call) :
  length (connecting_ssid raw) = S SSID_MAX_LENGTH ->
  length (connecting_bssid raw) = ETH_ALEN ->
  exists ctx,
    vwifi_init (owl_create_context raw) = Ok ctx
    /\ forall w',
         run_calls K cs ks (boot param ctx) = Ok (tt, w') ->
         map ndev (netintf_list (g_ctx w')) = [0%nat; 1%nat]
         /\ Forall (fun np => rx_queue np = []) (netintf_list (g_ctx w'))
         /\ length (connecting_bssid (g_ctx w')) = ETH_ALEN
         /\ forall ap, In ap (hash_entries (ssid_table w')) ->
              In ap (bucket (ssid_table w') (u32 (murmurhash cs (ssid ap))))
              /\ bssid ap = generate_bssid_with_ssid cs (ssid ap)
              /\ (strlen (ssid ap) < SSID_MAX_LENGTH)%nat.
Proof.
  intros Hs Hb.
  destruct (vwifi_init_inv cs raw param Hs Hb) as (ctx & Hinit & _ & _ & Hinv).
  exists ctx. split; [exact Hinit|]. intros w' Hrun.
  pose proof (run_calls_post K cs ks _ Hinv) as Hpost.
  rewrite Hrun in Hpost. destruct Hpost as (Hwf & _ & Hbssid & Hmap & Hq).
  split; [exact Hmap|]. split; [exact Hq|]. split; [exact Hbssid|].
  intros ap Hin. unfold hash_entries in Hin.
  apply in_flat_map in Hin as (bkt & _ & Hin).
  destruct (Hwf bkt ap Hin) as (Hbkt & Hgen & _ & Hlen).
  unfold bucket. rewrite Hbkt. auto.
Qed.

Lemma driver_in_order_between_calls_witness :
  run_calls kernel_ok false
    (calls_scan ++ [CallXmit (bytes "hello") 0%nat]) world_boot
  = Ok (tt, world_after_xmit)
  /\ map ndev (netintf_list (g_ctx world_after_xmit)) = [0%nat; 1%nat]
  /\ Forall (fun np => rx_queue np = [])
        (netintf_list (g_ctx world_after_xmit))
  /\ length (connecting_bssid (g_ctx world_after_xmit)) = ETH_ALEN
  /\ forall ap, In ap (hash_entries (ssid_table world_after_xmit)) ->
        In ap (bucket (ssid_table world_after_xmit)
                 (u32 (murmurhash false (ssid ap))))
        /\ bssid ap = generate_bssid_with_ssid false (ssid ap)
        /\ (strlen (ssid ap) < SSID_MAX_LENGTH)%nat.
Proof.
  assert (Hrun : run_calls kernel_ok false
                   (calls_scan ++ [CallXmit (bytes "hello") 0%nat]) world_boot
                 = Ok (tt, world_after_xmit)) by (vm_compute; reflexivity).
  split; [exact Hrun|].
  destruct (driver_in_order_between_calls kernel_ok false raw_context
              DEFAULT_SSID_LIST
              (calls_scan ++ [CallXmit (bytes "hello") 0%nat])
              eq_refl eq_refl) as (ctx & Hinit & H).
  assert (E : ctx = ctx_of (vwifi_init (owl_create_context raw_context)))
    by (rewrite Hinit; reflexivity).
  subst ctx. exact (H world_after_xmit Hrun).
Defined.

(** ** rand_int and murmurhash *)

(** X20.  For bounds [low <= up] less than 2^31 apart, [rand_int] stays
    within the bounds whatever the random word, and takes each value
    between them: the random word [v - low] gives [v]. *)
Theorem rand_int_onto (low up : Z) :
  low <= up -> up - low + 1 < 2 ^ 31 ->
  (forall r, low <= rand_int r low up <= up)
  /\ (forall v, low <= v <= up -> rand_int (v - low) low up = v).
Proof.
  intros Hle Hspan. split.
  - intros r. now apply rand_int_range.
  - intros v Hv. unfold rand_int, s32_of_u32, u32.
    rewrite (Z.mod_small (v - low)) by lia.
    destruct (v - low <? 2 ^ 31) eqn:Hlt; [|apply Z.ltb_ge in Hlt; lia].
    rewrite Z.rem_small by lia. rewrite Z.abs_eq by lia. lia.
Qed.

Lemma rand_int_onto_witness :
  (forall r, -100 <= rand_int r (-100) (-30) <= -30)
  /\ (forall v, -100 <= v <= -30 -> rand_int (v - -100) (-100) (-30) = v).
Proof.
  exact (rand_int_onto (-100) (-30) ltac:(lia) ltac:(lia)).
Defined.

Lemma murmur_loop_ascii (h : Z) (s : list char) :
  Forall (fun c => char_val c < 128) (cstr s) ->
  murmur_loop true h s = murmur_loop false h s.
Proof.
  revert h. induction s as [|c s IH]; intros h Hs; [reflexivity|].
  cbn [murmur_loop cstr] in *. destruct (is_nul c); [reflexivity|].
  apply Forall_cons in Hs as [Hc Hs].
  assert (E : murmur_round true h c = murmur_round false h c).
  { unfold murmur_round, char_to_u64.
    destruct (Z.leb_spec 128 (char_val c)); [lia|reflexivity]. }
  rewrite E. now apply IH.
Qed.

(** X21.  For an SSID of 7-bit bytes the hash and the BSSID do not depend
    on whether plain [char] is signed: sign extension in [h ^= *str] only
    touches bytes of 128 and more. *)
Theorem murmurhash_ascii (s : list char) :
  Forall (fun c => char_val c < 128) (cstr s) ->
  murmurhash true s = murmurhash false s
  /\ generate_bssid_with_ssid true s = generate_bssid_with_ssid false s.
Proof.
  intros Hs. unfold generate_bssid_with_ssid, murmurhash.
  now rewrite murmur_loop_ascii.
Qed.

Lemma murmurhash_ascii_witness :
  Forall (fun c => char_val c < 128) (cstr (bytes "MyHomeWiFi"))
  /\ murmurhash true (bytes "MyHomeWiFi") = murmurhash false (bytes "MyHomeWiFi")
  /\ generate_bssid_with_ssid true (bytes "MyHomeWiFi")
     = generate_bssid_with_ssid false (bytes "MyHomeWiFi")
  /\ murmurhash true [xff] <> murmurhash false [xff].
Proof.
  assert (H : Forall (fun c => char_val c < 128) (cstr (bytes "MyHomeWiFi"))).
  { vm_compute. repeat constructor. }
  split; [exact H|].
  destruct (murmurhash_ascii (bytes "MyHomeWiFi") H) as [H1 H2].
  split; [exact H1|]. split; [exact H2|]. vm_compute. discriminate.
Defined.

(** ** Requests that get no answer, and loads of nothing *)

(** X22.  A connect request can be accepted and never answered: when the
    wait for the mutex in the connect work is interrupted, the work
    returns without any upcall; the request had returned 0, the work is no
    longer pending, and the SSID of the request stays in
    [connecting_ssid]. *)
Theorem connect_lost_on_interrupt (K : kernel) (cs : bool)
  (sme : cfg80211_connect_params) (w : world) :
  let name := take (Nat.min (sme_ssid_len sme) SSID_MAX_LENGTH)
                (sme_ssid sme) in
  driver_inv cs w ->
  ws_connect (g_ctx w) = false ->
  lock_interrupted K (tick w) = false ->
  lock_interrupted K (S (tick w)) = true ->
  (Nat.min (sme_ssid_len sme) SSID_MAX_LENGTH <= length (sme_ssid sme))%nat ->
  exists w1 w',
    owl_connect K cs sme w = Ok (0, w1)
    /\ run_call K cs (RunWork WsConnect) w1 = Ok (tt, w')
    /\ trace w' = trace w ++
         [MutexLock; MutexUnlock; ScheduleWork WsConnect true]
    /\ ws_connect (g_ctx w') = false
    /\ cstr (connecting_ssid (g_ctx w')) = cstr name
    /\ run_call K cs (RunWork WsConnect) w' = Ok (tt, w').
Proof.
  intros name Hinv Hidle Hi0 Hi1 Hsrc.
  destruct (owl_connect_run K cs sme w Hinv Hi0 Hsrc)
    as (w1 & Hrun1 & _ & Ht1 & _ & Htr1 & Hs1 & _ & Hp1 & _).
  rewrite Hidle in Hrun1, Htr1. fold name in Hs1.
  exists w1. eexists. split; [exact Hrun1|].
  rewrite run_call_work by exact Hp1. cbn [work_handler run_call].
  unfold owl_connect_routine, mutex_lock_interruptible. munfold.
  cbn beta iota. cbn [tick with_ctx]. rewrite Ht1, Hi1. cbn beta iota.
  split; [reflexivity|].
  cbn [g_ctx trace with_ctx with_tick ws_connect connecting_ssid
       set_work_pending work_pending].
  auto.
Qed.

Lemma connect_lost_on_interrupt_witness :
  driver_inv false world_scanned
  /\ lock_interrupted (kernel_failing 7) (S (tick world_scanned)) = true
  /\ exists w1 w',
       owl_connect (kernel_failing 7) false sme_home world_scanned = Ok (0, w1)
       /\ run_call (kernel_failing 7) false (RunWork WsConnect) w1
          = Ok (tt, w')
       /\ trace w' = trace world_scanned ++
            [MutexLock; MutexUnlock; ScheduleWork WsConnect true]
       /\ ws_connect (g_ctx w') = false
       /\ cstr (connecting_ssid (g_ctx w')) = bytes "MyHomeWiFi"
       /\ run_call (kernel_failing 7) false (RunWork WsConnect) w'
          = Ok (tt, w').
Proof.
  split; [exact world_scanned_inv|]. split; [vm_compute; reflexivity|].
  exact (connect_lost_on_interrupt (kernel_failing 7) false sme_home
           world_scanned world_scanned_inv eq_refl
           ltac:(vm_compute; reflexivity) ltac:(vm_compute; reflexivity)
           ltac:(vm_compute; lia)).
Defined.

Lemma strspn_all (s accept : list char) :
  forallb (fun c => negb (is_nul c) && char_in c accept) s = true ->
  strspn s accept = length s.
Proof.
  induction s as [|c s IH]; [reflexivity|]. cbn [forallb strspn length].
  intros H. apply andb_prop in H as [Hc Hs]. apply andb_prop in Hc as [H1 H2].
  apply negb_true_iff in H1. rewrite H1, H2. f_equal. now apply IH.
Qed.

(** X23.  A parameter made of delimiters only, the empty one among them,
    loads nothing: the load leaves the world as it is and asks the kernel
    for nothing.  With an empty table the scan report is then empty as
    well. *)
Theorem update_ssids_no_token (K : kernel) (cs : bool) (param : list char)
  (w : world) :
  forallb (fun c => negb (is_nul c) && char_in c delims) param = true ->
  update_ssids K cs param w = Ok (tt, w)
  /\ (ssid_list w = param -> hash_empty (ssid_table w) = true ->
      inform_dummy_bss K cs w = Ok (tt, w)).
Proof.
  intros Hall.
  assert (Hload : update_ssids K cs param w = Ok (tt, w)).
  { unfold update_ssids.
    replace (length param + 2)%nat with (S (S (length param))) by lia.
    rewrite update_ssids_loop_step.
    destruct (is_nul (hd NUL param)); [reflexivity|]. cbv zeta.
    rewrite (strspn_all _ _ Hall), drop_all. cbn [strcspn Nat.eqb].
    rewrite update_ssids_loop_step. reflexivity. }
  split; [exact Hload|]. intros Hparam Hempty.
  unfold inform_dummy_bss. munfold. rewrite Hparam, Hload. cbn beta iota.
  now rewrite Hempty.
Qed.

Lemma update_ssids_no_token_witness :
  update_ssids (kernel_failing 0) false (bytes "[][[]]") world_boot
  = Ok (tt, world_boot)
  /\ update_ssids (kernel_failing 0) false [] world_boot = Ok (tt, world_boot).
Proof.
  split.
  - exact (proj1 (update_ssids_no_token (kernel_failing 0) false
                    (bytes "[][[]]") world_boot eq_refl)).
  - exact (proj1 (update_ssids_no_token (kernel_failing 0) false []
                    world_boot eq_refl)).
Defined.

(** X24.  In the states the driver is in between calls, [owl_ndo_stop]
    finds nothing to free: the receive queues being empty, stopping an
    interface leaves the interface list, and with it the whole world, as
    it was, and returns 0. *)
Theorem owl_ndo_stop_nothing_queued (cs : bool) (dev : net_device)
  (w : world) :
  driver_inv cs w ->
  exists w',
    owl_ndo_stop dev w = Ok (0, w')
    /\ g_ctx w' = g_ctx w /\ ssid_table w' = ssid_table w
    /\ trace w' = trace w /\ tick w' = tick w.
Proof.
  intros (_ & _ & _ & _ & Hq). unfold owl_ndo_stop, update_priv. munfold.
  cbn beta iota. eexists. split; [reflexivity|].
  cbn [g_ctx ssid_table trace tick with_ctx].
  split; [|auto].
  assert (E : map (fun np => if (ndev np =? dev)%nat
                             then set_rx_queue [] np else np)
                  (netintf_list (g_ctx w)) = netintf_list (g_ctx w)).
  { induction Hq as [|np l Hnp _ IH]; [reflexivity|].
    cbn [map]. rewrite IH. f_equal.
    destruct (ndev np =? dev)%nat; [|reflexivity].
    destruct np as [d st q]. cbn [rx_queue] in Hnp. subst q. reflexivity. }
  rewrite E. now destruct (g_ctx w).
Qed.

Lemma owl_ndo_stop_nothing_queued_witness :
  driver_inv false world_scanned
  /\ exists w',
       owl_ndo_stop 1%nat world_scanned = Ok (0, w')
       /\ g_ctx w' = g_ctx world_scanned
       /\ ssid_table w' = ssid_table world_scanned
       /\ trace w' = trace world_scanned /\ tick w' = tick world_scanned.
Proof.
  split; [exact world_scanned_inv|].
  exact (owl_ndo_stop_nothing_queued false 1%nat world_scanned
           world_scanned_inv).
Defined.
